(** * PlanMyKids program scraper: crawl controller and registration extractor

    A shallow embedding of [src/scraper/scrape_program.py] (class
    [ProgramScraper]) together with the properties of the crawl that the
    specification states.

    Conventions of the embedding.
    - A Python [str] is a [string]; a character is a code point below 256.
    - A Python [int] is a [Z].
    - [visited_urls] (a Python [set]) is a [gset string]; the [link_texts]
      dictionary is a [gmap string string].
    - An exception is [None] in an [option] result; an exception that
      leaves [scrape] is a result of its own, with the scraper as it was
      left.
    - The mutable scraper object is threaded explicitly as a record. *)

From Stdlib Require Import ZArith Lia Bool List Ascii String.
From stdpp Require Import base option list gmap strings sorting pretty.
Import ListNotations.

Local Open Scope string_scope.
Local Open Scope Z_scope.

(** ** Python string primitives *)

Module Py.

Definition code (c : ascii) : N := N_of_ascii c.

Definition in_range (lo hi : N) (c : ascii) : bool :=
  ((lo <=? code c) && (code c <=? hi))%N.

(** [c.isspace()] on code points below 256. *)
Definition isspace (c : ascii) : bool :=
  in_range 9 13 c || in_range 28 32 c
  || (code c =? 133)%N || (code c =? 160)%N.

(** ASCII letters: [c.isascii() and c.isalpha()]. *)
Definition is_ascii_alpha (c : ascii) : bool :=
  in_range 65 90 c || in_range 97 122 c.

Definition is_ascii_digit (c : ascii) : bool := in_range 48 57 c.

(** [c.isdigit()]: the ASCII digits and the superscripts one, two, three. *)
Definition isdigit_char (c : ascii) : bool :=
  is_ascii_digit c
  || (code c =? 178)%N || (code c =? 179)%N || (code c =? 185)%N.

(** [c.lower()]: ASCII capitals and the Latin-1 capitals except the
    multiplication sign. *)
Definition lower_char (c : ascii) : ascii :=
  if in_range 65 90 c
     || (in_range 192 222 c && negb (code c =? 215)%N)
  then ascii_of_N (code c + 32) else c.

Fixpoint lower (s : string) : string :=
  match s with
  | EmptyString => EmptyString
  | String c r => String (lower_char c) (lower r)
  end.

Fixpoint all_chars (p : ascii -> bool) (s : string) : bool :=
  match s with
  | EmptyString => true
  | String c r => p c && all_chars p r
  end.

Fixpoint has_char (p : ascii -> bool) (s : string) : bool :=
  match s with
  | EmptyString => false
  | String c r => p c || has_char p r
  end.

Definition is_char (a : ascii) (c : ascii) : bool := Ascii.eqb a c.

(** [s.isdigit()]. *)
Definition isdigit (s : string) : bool :=
  match s with
  | EmptyString => false
  | _ => all_chars isdigit_char s
  end.

(** [s.startswith(p)]. *)
Fixpoint startswith (p s : string) : bool :=
  match p, s with
  | EmptyString, _ => true
  | String a p', String b s' => Ascii.eqb a b && startswith p' s'
  | String _ _, EmptyString => false
  end.

Fixpoint take (n : nat) (s : string) : string :=
  match n, s with
  | O, _ => EmptyString
  | S _, EmptyString => EmptyString
  | S n', String c r => String c (take n' r)
  end.

Fixpoint drop (n : nat) (s : string) : string :=
  match n, s with
  | O, _ => s
  | S _, EmptyString => EmptyString
  | S n', String _ r => drop n' r
  end.

(** [s[i:j]] for non-negative [i] and [j]. *)
Definition slice (i j : nat) (s : string) : string :=
  take (j - i) (drop i s).

(** [s.find(sub)], with [None] for Python's -1. *)
Fixpoint find (sub s : string) : option nat :=
  if startswith sub s then Some O
  else match s with
       | EmptyString => None
       | String _ r => option_map S (find sub r)
       end.

(** [sub in s]. *)
Definition contains (sub s : string) : bool :=
  match find sub s with Some _ => true | None => false end.

(** [s.endswith(p)]. *)
Definition endswith (p s : string) : bool :=
  String.eqb (drop (String.length s - String.length p) s) p
  && (String.length p <=? String.length s)%nat.

(** [s.lstrip(chars)] with the character set given as a predicate. *)
Fixpoint lstrip (p : ascii -> bool) (s : string) : string :=
  match s with
  | EmptyString => EmptyString
  | String c r => if p c then lstrip p r else s
  end.

(** [s.rstrip(chars)]. *)
Fixpoint rstrip (p : ascii -> bool) (s : string) : string :=
  match s with
  | EmptyString => EmptyString
  | String c r =>
      match rstrip p r with
      | EmptyString => if p c then EmptyString else String c EmptyString
      | r' => String c r'
      end
  end.

(** [s.strip()]. *)
Definition strip (s : string) : string := rstrip isspace (lstrip isspace s).

(** [s.replace(c, "")] for every character [c] of a set. *)
Fixpoint remove_chars (p : ascii -> bool) (s : string) : string :=
  match s with
  | EmptyString => EmptyString
  | String c r => if p c then remove_chars p r else String c (remove_chars p r)
  end.

(** The text before the first character satisfying [p], and the text from
    that character on. *)
Fixpoint break (p : ascii -> bool) (s : string) : string * string :=
  match s with
  | EmptyString => (EmptyString, EmptyString)
  | String c r =>
      if p c then (EmptyString, s)
      else let '(a, b) := break p r in (String c a, b)
  end.

(** [s.split(c, 1)] when [c in s]: the two sides of the first [c]. *)
Definition split1 (c : ascii) (s : string) : string * string :=
  let '(a, b) := break (is_char c) s in (a, drop 1 b).

Definition truthy (s : string) : bool :=
  match s with EmptyString => false | _ => true end.

(** Decimal digits of [int(s)]; single underscores may separate digits. *)
Fixpoint int_digits (acc : Z) (after_digit : bool) (s : string) : option Z :=
  match s with
  | EmptyString => if after_digit then Some acc else None
  | String c r =>
      if is_ascii_digit c
      then int_digits (10 * acc + Z.of_N (code c - 48)) true r
      else if is_char "_" c && after_digit
           then match r with
                | String d _ => if is_ascii_digit d then int_digits acc false r else None
                | EmptyString => None
                end
           else None
  end.

(** [int(s)] in base ten; [None] is [ValueError]. *)
Definition int (s : string) : option Z :=
  match strip s with
  | String "+" r => int_digits 0 false r
  | String "-" r => option_map Z.opp (int_digits 0 false r)
  | r => int_digits 0 false r
  end.

End Py.

(** ** [urllib.parse]: the splitting that [urlparse] performs *)

Module Urllib.

Record ParseResult := {
  scheme : string;
  netloc : string;
  path : string;
  params : string;
  query : string;
  fragment : string
}.

(** [scheme_chars]: letters, digits, plus, minus and dot. *)
Definition scheme_char (c : ascii) : bool :=
  Py.is_ascii_alpha c || Py.is_ascii_digit c
  || Py.is_char "+" c || Py.is_char "-" c || Py.is_char "." c.

(** Leading C0 control characters and spaces are stripped. *)
Definition c0_or_space (c : ascii) : bool := (Py.code c <=? 32)%N.

(** Tab, line feed and carriage return are removed everywhere. *)
Definition unsafe_char (c : ascii) : bool :=
  (Py.code c =? 9)%N || (Py.code c =? 10)%N || (Py.code c =? 13)%N.

Definition sanitize (url : string) : string :=
  Py.remove_chars unsafe_char (Py.lstrip c0_or_space url).

Definition netloc_delim (c : ascii) : bool :=
  Py.is_char "/" c || Py.is_char "?" c || Py.is_char "#" c.

(** The scheme, when the text before the first colon is a valid one. *)
Definition split_scheme (url : string) : string * string :=
  match Py.find ":" url with
  | Some (S i) =>
      match url with
      | String c0 _ =>
          if Py.is_ascii_alpha c0 && Py.all_chars scheme_char (Py.take (S i) url)
          then (Py.lower (Py.take (S i) url), Py.drop (S (S i)) url)
          else (EmptyString, url)
      | EmptyString => (EmptyString, url)
      end
  | _ => (EmptyString, url)
  end.

(** [uses_params]. *)
Definition uses_params : list string :=
  [""; "ftp"; "hdl"; "prospero"; "http"; "imap"; "https"; "shttp"; "rtsp";
   "rtspu"; "sip"; "sips"; "mms"; "sftp"; "tel"].

Definition in_list (s : string) (l : list string) : bool :=
  existsb (String.eqb s) l.

(** [_splitparams]: parameters are split from the last path segment only. *)
Fixpoint last_segment_break (url : string) : string * string :=
  match url with
  | EmptyString => (EmptyString, EmptyString)
  | String c r =>
      if Py.has_char (Py.is_char "/") r
      then let '(dir, seg) := last_segment_break r in (String c dir, seg)
      else (EmptyString, url)
  end.

Definition splitparams (url : string) : string * string :=
  let '(dir, seg) := last_segment_break url in
  if Py.has_char (Py.is_char ";") seg
  then let '(a, b) := Py.split1 ";" seg in (dir +:+ a, b)
  else (url, EmptyString).

Section Parse.

(** The validation of a non-empty network location (bracket pairing, the
    bracketed IPv6 host, the NFKC check) is the library's; a rejected
    location makes [urlparse] raise [ValueError]. *)
Variable netloc_ok : string -> bool.

Definition urlparse (url0 : string) : option ParseResult :=
  let '(sch, url) := split_scheme (sanitize url0) in
  let '(loc, url) :=
    if Py.startswith "//" url
    then Py.break netloc_delim (Py.drop 2 url)
    else (EmptyString, url) in
  if Py.truthy loc && negb (netloc_ok loc) then None
  else
    let '(url, frag) :=
      if Py.has_char (Py.is_char "#") url then Py.split1 "#" url
      else (url, EmptyString) in
    let '(url, qry) :=
      if Py.has_char (Py.is_char "?") url then Py.split1 "?" url
      else (url, EmptyString) in
    let '(url, prm) :=
      if in_list sch uses_params && Py.has_char (Py.is_char ";") url
      then splitparams url
      else (url, EmptyString) in
    Some {| scheme := sch; netloc := loc; path := url; params := prm;
            query := qry; fragment := frag |}.

End Parse.

End Urllib.

Example urlparse_ex1 :
  Urllib.urlparse (fun _ => true) "HTTP://A.com/b/c;p=1?q=2#frag"
  = Some {| Urllib.scheme := "http"; Urllib.netloc := "A.com";
            Urllib.path := "/b/c"; Urllib.params := "p=1";
            Urllib.query := "q=2"; Urllib.fragment := "frag" |}.
Proof. reflexivity. Qed.

(** ** [datetime]: construction and comparison *)

Module Datetime.

(** A naive [datetime]; [micros] is the time of day in microseconds. *)
Record datetime := {
  year : Z;
  month : Z;
  day : Z;
  micros : Z
}.

Definition is_leap (y : Z) : bool :=
  (y mod 4 =? 0) && (negb (y mod 100 =? 0) || (y mod 400 =? 0)).

Definition days_in_month (y m : Z) : Z :=
  if m =? 2 then (if is_leap y then 29 else 28)
  else if (m =? 4) || (m =? 6) || (m =? 9) || (m =? 11) then 30
  else 31.

(** [datetime(y, m, d)]: midnight of that day; [None] is [ValueError]. *)
Definition make (y m d : Z) : option datetime :=
  if (1 <=? y) && (y <=? 9999) && (1 <=? m) && (m <=? 12)
     && (1 <=? d) && (d <=? days_in_month y m)
  then Some {| year := y; month := m; day := d; micros := 0 |}
  else None.

(** [a >= b]. *)
Definition ge (a b : datetime) : bool :=
  if year a =? year b then
    if month a =? month b then
      if day a =? day b then micros b <=? micros a
      else day b <? day a
    else month b <? month a
  else year b <? year a.

(** The calendar date of [a] is not before the calendar date of [b]. *)
Definition date_not_before (a b : datetime) : Prop :=
  year b < year a
  \/ (year a = year b /\ month b < month a)
  \/ (year a = year b /\ month a = month b /\ day b <= day a).

End Datetime.

Export Datetime(datetime).

(** ** The scraper *)

(** An anchor of the parsed page, as [soup.find_all('a', href=True)]
    yields it: the raw [href] attribute and [get_text()]. *)
Record Anchor := {
  href : string;
  get_text : string
}.

(** What one [page.goto] makes available: the rendered markup, its
    anchors in document order and [page.inner_text("body")]. *)
Record Page := {
  html : string;
  anchors : list Anchor;
  text : string
}.

(** Observable actions of a crawl, oldest first in the log.  [Goto u depth
    ok] is one counted request of [_crawl_page]: [ok] says that the [try]
    block ran to its end, the page fetched and its links extracted and
    prioritized.  [MainPageData u] is the start of the field extractors on
    the page of [u]. *)
Inductive Event :=
| Goto (u : string) (depth : Z) (ok : bool)
| MainPageData (u : string)
| RegistrationInfo (u : string)
| RegistrationPage (u : string) (ok : bool).

Section Scraper.

(** *** Collaborators *)

(** [urllib.parse]: the netloc validation of [urlparse], and [urljoin]
    ([None] is [ValueError]). *)
Variable netloc_ok : string -> bool.
Variable urljoin : string -> string -> option string.

(** [re.findall(pattern, context, re.IGNORECASE)] for a pattern with two or
    more groups: the tuples of groups of the successive matches. *)
Variable re_findall : string -> string -> list (list string).

(** [list(set(links))]: the elements of the list, each once, in the
    iteration order of the set. *)
Variable list_set : list string -> list string.

(** The page fetcher and the wall clock.  Both are indexed by the number of
    earlier interactions of the crawl, so a URL may answer differently when
    asked again.  [fetch n u = None] when [page.goto], [page.content] or
    [page.inner_text] raises. *)
Variable fetch : nat -> string -> option Page.
Variable now : nat -> datetime.

(** The static fields of the record ([name], [description], [category],
    [address], [neighborhood], contact, hours and prices) and the eight
    field extractors, run one after the other on one page: the fields they
    leave, and [false] when one of them raises (the fields are then the
    ones written up to the exception). *)
Variable Fields : Type.
Variable extract_main_page_data : Page -> Fields -> Fields * bool.

Abbreviation urlparse := (Urllib.urlparse netloc_ok).

(** *** The scraper object *)

Record Data := {
  fields : Fields;
  registration_url : option string;
  re_enrollment_date : option datetime;
  new_registration_date : option datetime;
  crawled_pages : list string
}.

Record ProgramScraper := {
  url : string;
  domain : string;
  base_url : string;
  max_pages : Z;
  max_depth : Z;
  visited_urls : gset string;
  pages_crawled : Z;
  data : Data;
  (* bookkeeping of the embedding: interactions so far, and their log *)
  clock : nat;
  log : list Event
}.

Definition set_registration_url (v : option string) (d : Data) : Data :=
  {| fields := fields d; registration_url := v;
     re_enrollment_date := re_enrollment_date d;
     new_registration_date := new_registration_date d;
     crawled_pages := crawled_pages d |}.

Definition set_re_enrollment_date (v : option datetime) (d : Data) : Data :=
  {| fields := fields d; registration_url := registration_url d;
     re_enrollment_date := v;
     new_registration_date := new_registration_date d;
     crawled_pages := crawled_pages d |}.

Definition set_new_registration_date (v : option datetime) (d : Data) : Data :=
  {| fields := fields d; registration_url := registration_url d;
     re_enrollment_date := re_enrollment_date d;
     new_registration_date := v;
     crawled_pages := crawled_pages d |}.

Definition set_fields (v : Fields) (d : Data) : Data :=
  {| fields := v; registration_url := registration_url d;
     re_enrollment_date := re_enrollment_date d;
     new_registration_date := new_registration_date d;
     crawled_pages := crawled_pages d |}.

Definition append_crawled_page (u : string) (d : Data) : Data :=
  {| fields := fields d; registration_url := registration_url d;
     re_enrollment_date := re_enrollment_date d;
     new_registration_date := new_registration_date d;
     crawled_pages := crawled_pages d ++ [u] |}.

Definition with_data (f : Data -> Data) (self : ProgramScraper) : ProgramScraper :=
  {| url := url self; domain := domain self; base_url := base_url self;
     max_pages := max_pages self; max_depth := max_depth self;
     visited_urls := visited_urls self; pages_crawled := pages_crawled self;
     data := f (data self); clock := clock self; log := log self |}.

Definition mark_visited (u : string) (self : ProgramScraper) : ProgramScraper :=
  {| url := url self; domain := domain self; base_url := base_url self;
     max_pages := max_pages self; max_depth := max_depth self;
     visited_urls := {[u]} ∪ visited_urls self;
     pages_crawled := pages_crawled self + 1;
     data := data self; clock := clock self; log := log self |}.

Definition tick (self : ProgramScraper) : ProgramScraper :=
  {| url := url self; domain := domain self; base_url := base_url self;
     max_pages := max_pages self; max_depth := max_depth self;
     visited_urls := visited_urls self; pages_crawled := pages_crawled self;
     data := data self; clock := S (clock self); log := log self |}.

Definition record (e : Event) (self : ProgramScraper) : ProgramScraper :=
  {| url := url self; domain := domain self; base_url := base_url self;
     max_pages := max_pages self; max_depth := max_depth self;
     visited_urls := visited_urls self; pages_crawled := pages_crawled self;
     data := data self; clock := clock self; log := log self ++ [e] |}.

(** [ProgramScraper.__init__]; parsing the seed URL may raise. *)
Definition __init__ (u : string) (maxp maxd : Z) (f0 : Fields)
  : option ProgramScraper :=
  parsed ← urlparse u;
  Some {| url := u;
          domain := Urllib.netloc parsed;
          base_url := Urllib.scheme parsed +:+ "://" +:+ Urllib.netloc parsed;
          max_pages := maxp; max_depth := maxd;
          visited_urls := ∅; pages_crawled := 0;
          data := {| fields := f0; registration_url := None;
                     re_enrollment_date := None;
                     new_registration_date := None;
                     crawled_pages := [] |};
          clock := O; log := [] |}.

(** *** URL helpers *)

Definition slash (c : ascii) : bool := Py.is_char "/" c.

(** [_normalize_url]: the fragment and the trailing slashes of the path
    are dropped. *)
Definition _normalize_url (u : string) : option string :=
  parsed ← urlparse u;
  let normalized :=
    Urllib.scheme parsed +:+ "://" +:+ Urllib.netloc parsed
    +:+ Py.rstrip slash (Urllib.path parsed) in
  Some (if Py.truthy (Urllib.query parsed)
        then normalized +:+ "?" +:+ Urllib.query parsed
        else normalized).

(** [_is_same_domain]. *)
Definition _is_same_domain (self : ProgramScraper) (u : string) : option bool :=
  parsed ← urlparse u;
  Some (String.eqb (Urllib.netloc parsed) (domain self)
        || String.eqb (Urllib.netloc parsed) "").

Definition startswith_any (prefixes : list string) (s : string) : bool :=
  existsb (fun p => Py.startswith p s) prefixes.

Definition skip_extensions : list string :=
  [".pdf"; ".jpg"; ".jpeg"; ".png"; ".gif"; ".svg"; ".css"; ".js";
   ".zip"; ".doc"; ".docx"; ".xls"; ".xlsx"; ".mp3"; ".mp4"; ".avi"].

(** [_is_valid_page_url]. *)
Definition _is_valid_page_url (u : string) : bool :=
  if negb (Py.truthy u) then false
  else if startswith_any ["mailto:"; "tel:"; "javascript:"; "data:"; "#"] u
  then false
  else if existsb (fun ext => Py.endswith ext (Py.lower u)) skip_extensions
  then false
  else true.

(** The loop of [_extract_internal_links] over the anchors; [links] is the
    list built so far. *)
Fixpoint extract_links_loop (self : ProgramScraper) (current_url : string)
    (l : list Anchor) (links : list string) : option (list string) :=
  match l with
  | [] => Some links
  | anchor :: rest =>
      let h := Py.strip (href anchor) in
      let continue := extract_links_loop self current_url rest in
      let keep (full : option string) :=
        full_url ← full;
        same ← _is_same_domain self full_url;
        if same : bool then
          normalized ← _normalize_url full_url;
          if decide (normalized ∈ visited_urls self) then continue links
          else continue (links ++ [normalized])%list
        else continue links in
      if negb (_is_valid_page_url h) then continue links
      else if Py.startswith "/" h then keep (Some (base_url self +:+ h))
      else if Py.startswith "http" h then keep (Some h)
      else if negb (startswith_any ["mailto:"; "tel:"; "javascript:"] h)
      then keep (urljoin current_url h)
      else continue links
  end.

(** [_extract_internal_links]; [None] when a URL operation raises. *)
Definition _extract_internal_links (self : ProgramScraper) (soup : Page)
    (current_url : string) : option (list string) :=
  links ← extract_links_loop self current_url (anchors soup) [];
  Some (list_set links).

Definition registration_keywords : list string :=
  ["register"; "registration"; "enroll"; "enrollment"; "sign-up"; "signup";
   "classes"; "schedule"; "programs"; "sessions"; "calendar"; "book";
   "booking"].

(** [_is_registration_related]. *)
Definition _is_registration_related (u link_text : string) : bool :=
  let url_lower := Py.lower u in
  let text_lower := Py.lower link_text in
  existsb (fun kw => Py.contains kw url_lower || Py.contains kw text_lower)
          registration_keywords.

(** The first loop of [_prioritize_links]: the dictionary from normalized
    URL to link text, a later anchor replacing an earlier one. *)
Fixpoint link_texts_loop (self : ProgramScraper) (l : list Anchor)
    (link_texts : gmap string string) : option (gmap string string) :=
  match l with
  | [] => Some link_texts
  | anchor :: rest =>
      let h := Py.strip (href anchor) in
      let t := Py.strip (get_text anchor) in
      full_url ← (if Py.startswith "/" h then Some (base_url self +:+ h)
                  else if Py.startswith "http" h then Some h
                  else urljoin (url self) h);
      normalized ← _normalize_url full_url;
      link_texts_loop self rest (<[normalized := t]> link_texts)
  end.

(** The second loop of [_prioritize_links]: both lists grow by appending. *)
Fixpoint partition_loop (link_texts : gmap string string) (links : list string)
    (registration_links other_links : list string) : list string * list string :=
  match links with
  | [] => (registration_links, other_links)
  | link :: rest =>
      let link_text := default "" (link_texts !! link) in
      if _is_registration_related link link_text
      then partition_loop link_texts rest (registration_links ++ [link])%list other_links
      else partition_loop link_texts rest registration_links (other_links ++ [link])%list
  end.

(** [_prioritize_links]. *)
Definition _prioritize_links (self : ProgramScraper) (links : list string)
    (soup : Page) : option (list string) :=
  link_texts ← link_texts_loop self (anchors soup) ∅;
  let '(registration_links, other_links) := partition_loop link_texts links [] [] in
  Some (registration_links ++ other_links)%list.

(** [_crawl_page]: the page and the prioritized links, or nothing. *)
Definition _crawl_page (self : ProgramScraper) (u : string) (depth : Z)
  : ProgramScraper * option Page * list string :=
  if decide (u ∈ visited_urls self) then (self, None, [])
  else if max_pages self <=? pages_crawled self then (self, None, [])
  else if max_depth self <? depth then (self, None, [])
  else
    let self := mark_visited u self in
    let attempt :=
      soup ← fetch (clock self) u;
      links ← _extract_internal_links self soup u;
      prioritized_links ← _prioritize_links self links soup;
      Some (soup, prioritized_links) in
    match attempt with
    | Some (soup, prioritized_links) =>
        (with_data (append_crawled_page u) (record (Goto u depth true) (tick self)),
         Some soup, prioritized_links)
    | None => (record (Goto u depth false) (tick self), None, [])
    end.

(** *** Registration URL and registration dates *)

Definition url_keywords : list string :=
  ["register"; "enroll"; "sign-up"; "signup"; "sign up"].

(** The anchor loop of [_extract_registration_info]: the URL the first
    accepted anchor gives.  The origin the source recomputes from
    [urlparse(self.url)] is the string [__init__] stored in [base_url]. *)
Fixpoint find_registration_link (self : ProgramScraper) (l : list Anchor)
  : option string :=
  match l with
  | [] => None
  | link :: rest =>
      let h := Py.lower (href link) in
      let link_text := Py.lower (get_text link) in
      if Py.startswith "mailto:" h || Py.startswith "tel:" h
      then find_registration_link self rest
      else if existsb (fun kw => Py.contains kw h || Py.contains kw link_text)
                      url_keywords
      then
        let u := href link in
        if Py.startswith "/" u then Some (base_url self +:+ u)
        else if negb (Py.startswith "http" u) then
          if Py.contains ":" u then find_registration_link self rest
          else Some (Py.rstrip slash (url self) +:+ "/" +:+ u)
        else Some u
      else find_registration_link self rest
  end.

Definition months : gmap string Z :=
  list_to_map
    [("january", 1); ("jan", 1); ("february", 2); ("feb", 2); ("march", 3);
     ("mar", 3); ("april", 4); ("apr", 4); ("may", 5); ("june", 6);
     ("jun", 6); ("july", 7); ("jul", 7); ("august", 8); ("aug", 8);
     ("september", 9); ("sep", 9); ("sept", 9); ("october", 10); ("oct", 10);
     ("november", 11); ("nov", 11); ("december", 12); ("dec", 12)].

Definition date_patterns : list string :=
  ["(?:monday|tuesday|wednesday|thursday|friday|saturday|sunday),?\s*(january|february|march|april|may|june|july|august|september|october|november|december|jan|feb|mar|apr|may|jun|jul|aug|sep|sept|oct|nov|dec)\s+(\d{1,2})(?:st|nd|rd|th)?,?\s*(\d{4})";
   "(january|february|march|april|may|june|july|august|september|october|november|december|jan|feb|mar|apr|may|jun|jul|aug|sep|sept|oct|nov|dec)\s+(\d{1,2})(?:st|nd|rd|th)?,?\s*(\d{4})";
   "(\d{1,2})/(\d{1,2})/(\d{4})";
   "(\d{4})-(\d{2})-(\d{2})";
   "(?:monday|tuesday|wednesday|thursday|friday|saturday|sunday),?\s*(january|february|march|april|may|june|july|august|september|october|november|december|jan|feb|mar|apr|may|jun|jul|aug|sep|sept|oct|nov|dec)\s+(\d{1,2})(?:st|nd|rd|th)?(?!\s*,?\s*\d{4})";
   "(january|february|march|april|may|june|july|august|september|october|november|december|jan|feb|mar|apr|may|jun|jul|aug|sep|sept|oct|nov|dec)\s+(\d{1,2})(?:st|nd|rd|th)?(?!\s*,?\s*\d{4})"].

Definition re_enrollment_keywords : list string :=
  ["re-enrollment"; "reenrollment"; "re enrollment";
   "current students"; "returning students"; "current families";
   "priority registration"; "early registration"].

Definition new_registration_keywords : list string :=
  ["open enrollment"; "new enrollment"; "new students"; "new families";
   "general registration"; "public registration"; "returning students begins";
   "registration opens"; "registration begins"; "enrollment opens";
   "enrollment begins"; "sign up"; "register by"; "enroll by"].

(** The keyword list of [_scrape_registration_page]. *)
Definition new_registration_keywords_page : list string :=
  ["open enrollment"; "new enrollment"; "new students"; "new families";
   "general registration"; "public registration";
   "registration opens"; "registration begins"; "enrollment opens";
   "enrollment begins"; "sign up"; "register by"; "enroll by";
   "deadline"; "opens on"; "begins on"; "starts on"].

Definition general_keywords : list string :=
  ["registration"; "enrollment"; "deadline"; "opens"; "begins"; "start"].

(** The tail of one iteration of [parse_date_from_context]: the date is
    built and kept only when it is not before [today]. *)
Definition accept_date (today : datetime) (y m d : Z) : option datetime :=
  if m =? 0 then None
  else
    parsed_date ← Datetime.make y m d;
    if Datetime.ge parsed_date today then Some parsed_date else None.

(** One iteration of the pattern loop on the first match; [None] is
    [continue], taken also when [int] or [datetime] raises. *)
Definition parse_match (today : datetime) (m : list string) : option datetime :=
  match m with
  | [m0; m1; m2] =>
      if Py.isdigit m0 && (String.length m0 =? 4)%nat then
        y ← Py.int m0; mo ← Py.int m1; d ← Py.int m2;
        accept_date today y mo d
      else if Py.isdigit m2 && (String.length m2 =? 4)%nat then
        if Py.isdigit m0 then
          mo ← Py.int m0; d ← Py.int m1; y ← Py.int m2;
          accept_date today y mo d
        else
          let mo := default 0 (months !! Py.lower m0) in
          d ← Py.int m1; y ← Py.int m2;
          accept_date today y mo d
      else None
  | [m0; m1] =>
      let current_year := Datetime.year today in
      let mo := default 0 (months !! Py.lower m0) in
      d ← Py.int m1;
      test_date ← Datetime.make current_year mo d;
      let y := if Datetime.ge test_date today then current_year
               else current_year + 1 in
      accept_date today y mo d
  | _ => None
  end.

Fixpoint parse_date_loop (today : datetime) (patterns : list string)
    (context : string) : option datetime :=
  match patterns with
  | [] => None
  | pattern :: rest =>
      match re_findall pattern context with
      | [] => parse_date_loop today rest context
      | m :: _ =>
          match parse_match today m with
          | Some parsed_date => Some parsed_date
          | None => parse_date_loop today rest context
          end
      end
  end.

(** [parse_date_from_context]; the two copies in the source are the same
    function of [today] and the context. *)
Definition parse_date_from_context (today : datetime) (context : string)
  : option datetime :=
  parse_date_loop today date_patterns context.

(** A keyword loop: the date found after the first keyword that has one,
    in the 300 characters from the keyword on. *)
Fixpoint search_keywords (today : datetime) (text_lower : string)
    (keywords : list string) : option datetime :=
  match keywords with
  | [] => None
  | keyword :: rest =>
      match Py.find keyword text_lower with
      | None => search_keywords today text_lower rest
      | Some keyword_idx =>
          let context := Py.slice keyword_idx (keyword_idx + 300) text_lower in
          match parse_date_from_context today context with
          | Some found_date => Some found_date
          | None => search_keywords today text_lower rest
          end
      end
  end.

(** The loop over [general_keywords]: 100 characters before the keyword
    and 200 from it on. *)
Fixpoint search_general (today : datetime) (text_lower : string)
    (keywords : list string) : option datetime :=
  match keywords with
  | [] => None
  | keyword :: rest =>
      match Py.find keyword text_lower with
      | None => search_general today text_lower rest
      | Some keyword_idx =>
          let start := Nat.max 0 (keyword_idx - 100) in
          let context := Py.slice start (keyword_idx + 200) text_lower in
          match parse_date_from_context today context with
          | Some found_date => Some found_date
          | None => search_general today text_lower rest
          end
      end
  end.

Definition assign_if_found (set : option datetime -> Data -> Data)
    (found : option datetime) (self : ProgramScraper) : ProgramScraper :=
  match found with
  | Some found_date => with_data (set (Some found_date)) self
  | None => self
  end.

(** [_extract_registration_info].  The date fields hold the accepted date;
    the source stores its rendering [strftime('%Y-%m-%d')], never empty. *)
Definition _extract_registration_info (self : ProgramScraper) (soup : Page)
  : ProgramScraper :=
  let self :=
    match find_registration_link self (anchors soup) with
    | Some u => with_data (set_registration_url (Some u)) self
    | None => self
    end in
  let text_lower := Py.lower (text soup) in
  let today := now (clock self) in
  let self := tick self in
  let self :=
    assign_if_found set_re_enrollment_date
      (search_keywords today text_lower re_enrollment_keywords) self in
  assign_if_found set_new_registration_date
    (search_keywords today text_lower new_registration_keywords) self.

Definition is_set {A} (o : option A) : bool :=
  match o with Some _ => true | None => false end.

Definition url_is_set (o : option string) : bool :=
  match o with Some u => Py.truthy u | None => false end.

(** [_scrape_registration_page]: one direct visit of the registration URL. *)
Definition _scrape_registration_page (self : ProgramScraper) : ProgramScraper :=
  match registration_url (data self) with
  | None => self
  | Some reg_url =>
      if negb (Py.truthy reg_url) then self
      else
        match fetch (clock self) reg_url with
        | None => record (RegistrationPage reg_url false) (tick self)
        | Some soup =>
            let self := record (RegistrationPage reg_url true) (tick self) in
            let text_lower := Py.lower (text soup) in
            let today := now (clock self) in
            let self := tick self in
            let self :=
              if negb (is_set (re_enrollment_date (data self)))
              then assign_if_found set_re_enrollment_date
                     (search_keywords today text_lower re_enrollment_keywords) self
              else self in
            let self :=
              if negb (is_set (new_registration_date (data self)))
              then assign_if_found set_new_registration_date
                     (search_keywords today text_lower new_registration_keywords_page) self
              else self in
            if negb (is_set (new_registration_date (data self)))
            then assign_if_found set_new_registration_date
                   (search_general today text_lower general_keywords) self
            else self
        end
  end.

(** *** The crawl *)

(** The loop that appends the links not yet visited to the queue. *)
Fixpoint enqueue_links (self : ProgramScraper) (depth : Z) (links : list string)
    (to_crawl : list (string * Z)) : list (string * Z) :=
  match links with
  | [] => to_crawl
  | link :: rest =>
      if decide (link ∈ visited_urls self)
      then enqueue_links self depth rest to_crawl
      else enqueue_links self depth rest (to_crawl ++ [(link, depth + 1)])%list
  end.

(** The block under [if self.pages_crawled == 1]: the field extractors
    are run against the page.  They are called outside any [try] of the
    loop: [false] says that one of them raised, and [scrape] with it. *)
Definition extract_basic_data (self : ProgramScraper) (current_url : string)
    (soup : Page) : ProgramScraper * bool :=
  if pages_crawled self =? 1
  then
    let '(extracted, returned) :=
      extract_main_page_data soup (fields (data self)) in
    (record (MainPageData current_url) (with_data (set_fields extracted) self),
     returned)
  else (self, true).

(** The rest of the loop body on a page that was fetched with text: the
    registration information, then the links. *)
Definition process_page (crawl : bool) (self : ProgramScraper)
    (current_url : string) (depth : Z) (soup : Page) (links : list string)
    (to_crawl : list (string * Z)) : ProgramScraper * list (string * Z) :=
  let self :=
    record (RegistrationInfo current_url) (_extract_registration_info self soup) in
  let to_crawl :=
    if crawl && (depth <? max_depth self)
    then enqueue_links self depth links to_crawl
    else to_crawl in
  (self, to_crawl).

Definition both_dates_found (self : ProgramScraper) : bool :=
  is_set (re_enrollment_date (data self))
  && is_set (new_registration_date (data self)).

(** What one evaluation of the [while] loop leaves: the state at the next
    test of the loop condition, the state on leaving the loop, or the state
    when an exception leaves the loop and [scrape]. *)
Inductive Outcome :=
| Next (self : ProgramScraper) (to_crawl : list (string * Z))
| Done (self : ProgramScraper)
| Raise (self : ProgramScraper).

(** The end of the loop body: [break] when both dates are found. *)
Definition finish (self : ProgramScraper) (to_crawl : list (string * Z)) : Outcome :=
  if both_dates_found self then Done self else Next self to_crawl.

(** The loop condition and one run of the body of the [while] of [scrape]. *)
Definition scrape_iteration (crawl : bool) (self : ProgramScraper)
    (to_crawl : list (string * Z)) : Outcome :=
  match to_crawl with
  | [] => Done self
  | (current_url, depth) :: to_crawl =>
      if negb (pages_crawled self <? max_pages self) then Done self
      else if decide (current_url ∈ visited_urls self) then Next self to_crawl
      else
        let '(self, soup, links) := _crawl_page self current_url depth in
        match soup with
        | Some soup =>
            if Py.truthy (text soup)
            then
              let '(self, returned) := extract_basic_data self current_url soup in
              if returned : bool
              then
                let '(self, to_crawl) :=
                  process_page crawl self current_url depth soup links to_crawl in
                finish self to_crawl
              else Raise self
            else finish self to_crawl
        | None => finish self to_crawl
        end
  end.

(** How a call of [scrape] ends: it returns, or it raises. *)
Inductive Result :=
| Returned (self : ProgramScraper)
| Raised (self : ProgramScraper).

Definition result_self (r : Result) : ProgramScraper :=
  match r with Returned self => self | Raised self => self end.

(** The [while] loop, for at most [fuel] evaluations of its condition. *)
Fixpoint crawl_loop (fuel : nat) (crawl : bool) (self : ProgramScraper)
    (to_crawl : list (string * Z)) : option Result :=
  match fuel with
  | O => None
  | S fuel =>
      match scrape_iteration crawl self to_crawl with
      | Done self => Some (Returned self)
      | Raise self => Some (Raised self)
      | Next self to_crawl => crawl_loop fuel crawl self to_crawl
      end
  end.

(** The visit of the registration URL after the loop. *)
Definition check_registration_url (self : ProgramScraper) : ProgramScraper :=
  if url_is_set (registration_url (data self))
     && negb (is_set (re_enrollment_date (data self)))
     && negb (is_set (new_registration_date (data self)))
  then
    match registration_url (data self) with
    | Some reg_url =>
        if decide (reg_url ∈ visited_urls self) then self
        else _scrape_registration_page self
    | None => self
    end
  else self.

(** [scrape], once the browser is up: the scraper when the method returns
    ([self.data] is what it returns), or when it raises; [None] only when
    [fuel] evaluations of the loop condition are not enough. *)
Definition scrape (fuel : nat) (crawl : bool) (self : ProgramScraper)
  : option Result :=
  after_loop ← crawl_loop fuel crawl self [(url self, 0)];
  match after_loop with
  | Returned self => Some (Returned (check_registration_url self))
  | Raised self => Some (Raised self)
  end.

(** The states at the successive tests of the loop condition. *)
Inductive loop_reaches (crawl : bool) (self0 : ProgramScraper)
  : ProgramScraper -> list (string * Z) -> Prop :=
| reaches_start : loop_reaches crawl self0 self0 [(url self0, 0)]
| reaches_next self q self' q' :
    loop_reaches crawl self0 self q ->
    scrape_iteration crawl self q = Next self' q' ->
    loop_reaches crawl self0 self' q'.

(** Every state of the scraper during a crawl: at a test of the loop
    condition, on leaving the loop, after the final visit, and when an
    exception ends the crawl. *)
Inductive crawl_state (crawl : bool) (self0 : ProgramScraper)
  : ProgramScraper -> Prop :=
| state_in_loop self q :
    loop_reaches crawl self0 self q -> crawl_state crawl self0 self
| state_after_loop self q self' :
    loop_reaches crawl self0 self q ->
    scrape_iteration crawl self q = Done self' ->
    crawl_state crawl self0 self'
| state_returned self q self' :
    loop_reaches crawl self0 self q ->
    scrape_iteration crawl self q = Done self' ->
    crawl_state crawl self0 (check_registration_url self')
| state_raised self q self' :
    loop_reaches crawl self0 self q ->
    scrape_iteration crawl self q = Raise self' ->
    crawl_state crawl self0 self'.

(** *** Readings of the log *)

Definition attempt_of (e : Event) : option (string * Z * bool) :=
  match e with Goto u depth ok => Some (u, depth, ok) | _ => None end.

(** The page requests of the loop, oldest first: URL, depth and outcome. *)
Definition attempts (l : list Event) : list (string * Z * bool) :=
  omap attempt_of l.

Definition requested (l : list Event) : list string :=
  omap (fun e => match e with Goto u _ _ => Some u | _ => None end) l.

Definition succeeded (l : list Event) : list string :=
  omap (fun e => match e with Goto u _ true => Some u | _ => None end) l.

(** The requests that gave no page: the fetch raised, or the page came
    back and the extraction of its links raised. *)
Definition unsuccessful (l : list Event) : list string :=
  omap (fun e => match e with Goto u _ false => Some u | _ => None end) l.

(** The pages the field extractors ran against. *)
Definition main_page_runs (l : list Event) : list string :=
  omap (fun e => match e with MainPageData u => Some u | _ => None end) l.

(** The direct visits of the registration URL. *)
Definition registration_page_visits (l : list Event) : list (string * bool) :=
  omap (fun e => match e with RegistrationPage u ok => Some (u, ok) | _ => None end) l.

(** The part of the scraper the page budget and the crawl bookkeeping
    depend on. *)
Definition same_bookkeeping (a b : ProgramScraper) : Prop :=
  url a = url b /\ domain a = domain b /\ base_url a = base_url b
  /\ max_pages a = max_pages b /\ max_depth a = max_depth b
  /\ visited_urls a = visited_urls b
  /\ pages_crawled a = pages_crawled b
  /\ crawled_pages (data a) = crawled_pages (data b)
  /\ attempts (log a) = attempts (log b).

(** The bookkeeping invariant of a crawl started from [self0]. *)
Record bookkeeping (self0 self : ProgramScraper) : Prop := {
  bk_max_pages : max_pages self = max_pages self0;
  bk_max_depth : max_depth self = max_depth self0;
  bk_budget : pages_crawled self <= max_pages self0;
  bk_depth : Forall (fun a => a.1.2 <= max_depth self0) (attempts (log self));
  bk_count : pages_crawled self = Z.of_nat (length (attempts (log self)));
  bk_visited : Forall (fun a => a.1.1 ∈ visited_urls self) (attempts (log self));
  bk_crawled :
    crawled_pages (data self)
    = omap (fun a : string * Z * bool => if a.2 then Some a.1.1 else None)
           (attempts (log self));
  bk_once : NoDup ((fun a : string * Z * bool => a.1.1) <$> attempts (log self))
}.

Lemma same_bookkeeping_refl a : same_bookkeeping a a.
Proof. repeat split. Qed.

Lemma same_bookkeeping_trans a b c :
  same_bookkeeping a b -> same_bookkeeping b c -> same_bookkeeping a c.
Proof. unfold same_bookkeeping. intuition congruence. Qed.

Lemma bookkeeping_same self0 a b :
  same_bookkeeping a b -> bookkeeping self0 a -> bookkeeping self0 b.
Proof.
  intros (_ & _ & _ & Hp & Hd & Hv & Hn & Hc & Ha) [].
  split; rewrite <- ?Hp, <- ?Hd, <- ?Hv, <- ?Hn, <- ?Hc, <- ?Ha; assumption.
Qed.

Lemma attempts_app l1 l2 : attempts (l1 ++ l2) = (attempts l1 ++ attempts l2)%list.
Proof. apply omap_app. Qed.

Lemma assign_if_found_same set found self :
  (forall v d, crawled_pages (set v d) = crawled_pages d) ->
  same_bookkeeping self (assign_if_found set found self).
Proof.
  intros Hset. destruct found; [|apply same_bookkeeping_refl].
  repeat split. cbn. symmetry. apply Hset.
Qed.

Lemma extract_registration_info_same self soup :
  same_bookkeeping self (_extract_registration_info self soup).
Proof.
  unfold _extract_registration_info.
  eapply same_bookkeeping_trans; [|apply assign_if_found_same; reflexivity].
  eapply same_bookkeeping_trans; [|apply assign_if_found_same; reflexivity].
  destruct (find_registration_link _ _); repeat split.
Qed.

Lemma guarded_assign_same (b : bool) set found self x :
  (forall v d, crawled_pages (set v d) = crawled_pages d) ->
  same_bookkeeping self x ->
  same_bookkeeping self (if b then assign_if_found set found x else x).
Proof.
  intros Hset Hx. destruct b; [|exact Hx].
  eapply same_bookkeeping_trans; [exact Hx|now apply assign_if_found_same].
Qed.

Lemma scrape_registration_page_same self :
  same_bookkeeping self (_scrape_registration_page self).
Proof.
  unfold _scrape_registration_page.
  destruct (registration_url (data self)) as [reg_url|]; [|apply same_bookkeeping_refl].
  destruct (negb (Py.truthy reg_url)); [apply same_bookkeeping_refl|].
  destruct (fetch (clock self) reg_url) as [soup|]; cbv zeta.
  - do 3 (apply guarded_assign_same; [reflexivity|]).
    repeat split. cbn. rewrite attempts_app. cbn. now rewrite app_nil_r.
  - repeat split. cbn. rewrite attempts_app. cbn. now rewrite app_nil_r.
Qed.

Lemma check_registration_url_same self :
  same_bookkeeping self (check_registration_url self).
Proof.
  unfold check_registration_url.
  destruct (_ && _); [|apply same_bookkeeping_refl].
  destruct (registration_url (data self)); [|apply same_bookkeeping_refl].
  destruct (decide _); [apply same_bookkeeping_refl|apply scrape_registration_page_same].
Qed.

Definition outcome_self (o : Outcome) : ProgramScraper :=
  match o with Next self _ => self | Done self => self | Raise self => self end.

Lemma process_page_same crawl self current_url depth soup links to_crawl :
  same_bookkeeping self
    (process_page crawl self current_url depth soup links to_crawl).1.
Proof.
  unfold process_page. cbn [fst].
  eapply same_bookkeeping_trans; [apply extract_registration_info_same|].
  repeat split. cbn. rewrite attempts_app. cbn. now rewrite app_nil_r.
Qed.

Lemma extract_basic_data_same self current_url soup :
  same_bookkeeping self (extract_basic_data self current_url soup).1.
Proof.
  unfold extract_basic_data.
  destruct (pages_crawled self =? 1); [|apply same_bookkeeping_refl].
  destruct (extract_main_page_data soup (fields (data self))) as [extracted returned].
  repeat split. cbn. rewrite attempts_app. cbn. now rewrite app_nil_r.
Qed.

(** The scraper after the loop body has run on a fetched page with text,
    whether the field extractors returned or raised. *)
Definition processed (crawl : bool) (self : ProgramScraper) (current_url : string)
    (depth : Z) (soup : Page) (links : list string) (to_crawl : list (string * Z))
  : ProgramScraper :=
  let basic := extract_basic_data self current_url soup in
  if basic.2
  then (process_page crawl basic.1 current_url depth soup links to_crawl).1
  else basic.1.

Lemma processed_same crawl self current_url depth soup links to_crawl :
  same_bookkeeping self
    (processed crawl self current_url depth soup links to_crawl).
Proof.
  unfold processed. cbv zeta.
  pose proof (extract_basic_data_same self current_url soup) as Hb.
  destruct (extract_basic_data self current_url soup) as [s1 returned].
  cbn [fst snd] in *. destruct returned; [|exact Hb].
  eapply same_bookkeeping_trans; [exact Hb|apply process_page_same].
Qed.

(** What [_crawl_page] does to the scraper: nothing, or one counted
    request of a URL that was not visited, within the page and depth
    limits. *)
Lemma crawl_page_cases self u depth :
  ((u ∈ visited_urls self \/ max_pages self <= pages_crawled self
    \/ max_depth self < depth)
   /\ _crawl_page self u depth = (self, None, []))
  \/ ((u ∉ visited_urls self) /\ pages_crawled self < max_pages self
      /\ depth <= max_depth self
      /\ ((exists soup links,
             _crawl_page self u depth
             = (with_data (append_crawled_page u)
                  (record (Goto u depth true) (tick (mark_visited u self))),
                Some soup, links)
             /\ fetch (clock self) u = Some soup)
          \/ _crawl_page self u depth
             = (record (Goto u depth false) (tick (mark_visited u self)), None, []))).
Proof.
  unfold _crawl_page.
  destruct (decide (u ∈ visited_urls self)) as [|Hnv]; [left; tauto|].
  destruct (max_pages self <=? pages_crawled self) eqn:Hp; [left; split; [lia|easy]|].
  destruct (max_depth self <? depth) eqn:Hd; [left; split; [lia|easy]|].
  right. split; [exact Hnv|]. split; [lia|]. split; [lia|].
  cbn [clock mark_visited].
  destruct (fetch (clock self) u) as [soup|]; cbn; [|now right].
  destruct (_extract_internal_links _ soup u) as [links|]; cbn; [|now right].
  destruct (_prioritize_links _ links soup) as [pl|]; cbn; [|now right].
  left. now exists soup, pl.
Qed.

Lemma bookkeeping_request self0 self u depth ok :
  bookkeeping self0 self ->
  u ∉ visited_urls self -> pages_crawled self < max_pages self ->
  depth <= max_depth self ->
  bookkeeping self0
    ((if ok : bool then with_data (append_crawled_page u) else id)
       (record (Goto u depth ok) (tick (mark_visited u self)))).
Proof.
  intros [Hmp Hmd Hb Hdp Hc Hv Hcr Ho] Hnv Hlt Hle.
  assert (forall x : ProgramScraper,
             attempts (log ((if ok then with_data (append_crawled_page u) else id)
                              (record (Goto u depth ok) (tick (mark_visited u self)))))
             = (attempts (log self) ++ [(u, depth, ok)])%list) as Hlog.
  { intros _. destruct ok; cbn; now rewrite attempts_app. }
  specialize (Hlog self).
  split; rewrite ?Hlog.
  - now destruct ok.
  - now destruct ok.
  - destruct ok; cbn; lia.
  - apply Forall_app. split; [exact Hdp|]. constructor; [cbn; lia|constructor].
  - rewrite length_app. destruct ok; cbn; lia.
  - apply Forall_app. split.
    + eapply Forall_impl; [exact Hv|]. intros a Ha. destruct ok; cbn; set_solver.
    + constructor; [|constructor]. destruct ok; cbn; set_solver.
  - rewrite omap_app. destruct ok; cbn; rewrite ?Hcr; [reflexivity|].
    now rewrite app_nil_r.
  - rewrite fmap_app. cbn. apply NoDup_app. split; [exact Ho|]. split.
    + intros x Hx Hx'. apply list_elem_of_singleton in Hx'. subst x.
      apply list_elem_of_fmap in Hx as (a & -> & Ha).
      rewrite Forall_forall in Hv. apply Hnv. now apply Hv.
    + apply NoDup_singleton.
Qed.

Lemma crawl_page_bookkeeping self0 self u depth :
  bookkeeping self0 self ->
  bookkeeping self0 (_crawl_page self u depth).1.1.
Proof.
  intros Hb.
  destruct (crawl_page_cases self u depth)
    as [[_ ->]|(Hnv & Hlt & Hle & [(soup & links & -> & _)| ->])]; cbn [fst]; [exact Hb| |].
  - now apply (bookkeeping_request self0 self u depth true).
  - now apply (bookkeeping_request self0 self u depth false).
Qed.

Lemma iteration_bookkeeping crawl self0 self q :
  bookkeeping self0 self ->
  bookkeeping self0 (outcome_self (scrape_iteration crawl self q)).
Proof.
  intros Hb. unfold scrape_iteration.
  destruct q as [|[current_url depth] q]; [exact Hb|].
  destruct (negb _); [exact Hb|].
  destruct (decide _); [exact Hb|].
  pose proof (crawl_page_bookkeeping self0 self current_url depth Hb) as Hc.
  destruct (_crawl_page self current_url depth) as [[self1 soup] links].
  cbn [fst] in Hc.
  destruct soup as [soup0|]; [|unfold finish; now destruct (both_dates_found self1)].
  destruct (Py.truthy (text soup0));
    [|unfold finish; now destruct (both_dates_found self1)].
  pose proof (processed_same crawl self1 current_url depth soup0 links q) as Hs.
  unfold processed in Hs. cbv zeta in Hs.
  destruct (extract_basic_data self1 current_url soup0) as [self2 returned].
  cbn [fst snd] in Hs. destruct returned.
  - destruct (process_page _ _ _ _ _ _ _) as [self3 q3]. cbn [fst] in Hs.
    pose proof (bookkeeping_same self0 _ _ Hs Hc).
    unfold finish. now destruct (both_dates_found self3).
  - exact (bookkeeping_same self0 _ _ Hs Hc).
Qed.

Lemma loop_reaches_bookkeeping crawl self0 self q :
  bookkeeping self0 self0 ->
  loop_reaches crawl self0 self q -> bookkeeping self0 self.
Proof.
  intros H0. induction 1 as [|self q self' q' _ IH Hstep]; [exact H0|].
  pose proof (iteration_bookkeeping crawl self0 self q IH) as Hi.
  now rewrite Hstep in Hi.
Qed.

Lemma crawl_state_bookkeeping crawl self0 self :
  bookkeeping self0 self0 ->
  crawl_state crawl self0 self -> bookkeeping self0 self.
Proof.
  intros H0 [self1 q Hr|self1 q self' Hr Hstep|self1 q self' Hr Hstep
               |self1 q self' Hr Hstep].
  - now apply (loop_reaches_bookkeeping crawl self0 self1 q).
  - pose proof (iteration_bookkeeping crawl self0 self1 q
                  (loop_reaches_bookkeeping crawl self0 self1 q H0 Hr)) as Hi.
    now rewrite Hstep in Hi.
  - pose proof (iteration_bookkeeping crawl self0 self1 q
                  (loop_reaches_bookkeeping crawl self0 self1 q H0 Hr)) as Hi.
    rewrite Hstep in Hi.
    eapply bookkeeping_same; [apply check_registration_url_same|exact Hi].
  - pose proof (iteration_bookkeeping crawl self0 self1 q
                  (loop_reaches_bookkeeping crawl self0 self1 q H0 Hr)) as Hi.
    now rewrite Hstep in Hi.
Qed.

Lemma init_bookkeeping u maxp maxd f0 self0 :
  0 <= maxp ->
  __init__ u maxp maxd f0 = Some self0 -> bookkeeping self0 self0.
Proof.
  intros Hp Hi. unfold __init__ in Hi.
  destruct (urlparse u); [|discriminate]. cbn in Hi. injection Hi as <-.
  split; cbn; try reflexivity; try constructor. exact Hp.
Qed.

(** *** Termination of the loop *)

(** An evaluation of the loop that goes on either spends one page of the
    budget or shortens the queue. *)
Lemma iteration_progress crawl self q self' q' :
  scrape_iteration crawl self q = Next self' q' ->
  max_pages self' = max_pages self
  /\ ((pages_crawled self' = pages_crawled self /\ (length q' < length q)%nat)
      \/ (pages_crawled self' = pages_crawled self + 1
          /\ pages_crawled self < max_pages self)).
Proof.
  unfold scrape_iteration.
  destruct q as [|[current_url depth] q]; [discriminate|].
  destruct (negb _); [discriminate|].
  destruct (decide _); [intros [= <- <-]; split; [reflexivity|left; cbn; lia]|].
  destruct (crawl_page_cases self current_url depth)
    as [[_ ->]|(Hnv & Hlt & Hle & [(soup & links & -> & _)| ->])].
  - unfold finish. destruct (both_dates_found self); [discriminate|].
    intros [= <- <-]. split; [reflexivity|left; cbn; lia].
  - destruct (Py.truthy (text soup)).
    + match goal with |- context [extract_basic_data ?s ?v ?p] =>
        pose proof (processed_same crawl s v depth p links q) as Hs;
        unfold processed in Hs; cbv zeta in Hs;
        destruct (extract_basic_data s v p) as [self2 returned] end.
      cbn [fst snd] in Hs. destruct returned; [|discriminate].
      destruct (process_page _ _ _ _ _ _ _) as [self3 q3]. cbn [fst] in Hs.
      destruct Hs as (_ & _ & _ & Hmp & _ & _ & Hpc & _). cbn in Hmp, Hpc.
      unfold finish. destruct (both_dates_found self3); [discriminate|].
      intros [= <- <-]. split; [congruence|right; split; [congruence|exact Hlt]].
    + unfold finish. destruct (both_dates_found _); [discriminate|].
      intros [= <- <-]. split; [reflexivity|right; split; [reflexivity|exact Hlt]].
  - unfold finish. destruct (both_dates_found _); [discriminate|].
    intros [= <- <-]. split; [reflexivity|right; split; [reflexivity|exact Hlt]].
Qed.

Lemma crawl_loop_terminates crawl self q :
  exists fuel r, crawl_loop fuel crawl self q = Some r.
Proof.
  remember (Z.to_nat (max_pages self - pages_crawled self)) as n eqn:Hn.
  revert self q Hn.
  induction n as [n IHn] using lt_wf_ind. intros self q.
  remember (length q) as m eqn:Hm. revert self q Hm.
  induction m as [m IHm] using lt_wf_ind. intros self q Hm Hn.
  destruct (scrape_iteration crawl self q) as [self' q'|r|r] eqn:Hstep.
  - destruct (iteration_progress crawl self q self' q' Hstep) as (Hmp & [[Hp Hl]|[Hp Hlt]]).
    + destruct (IHm (length q') ltac:(lia) self' q' eq_refl) as (fuel & r & Hr).
      { rewrite Hmp, Hp. exact Hn. }
      exists (S fuel), r. cbn. now rewrite Hstep.
    + destruct (IHn (Z.to_nat (max_pages self' - pages_crawled self')) ltac:(lia)
                  self' q' eq_refl) as (fuel & r & Hr).
      exists (S fuel), r. cbn. now rewrite Hstep.
  - exists 1%nat, (Returned r). cbn. now rewrite Hstep.
  - exists 1%nat, (Raised r). cbn. now rewrite Hstep.
Qed.

(** [scrape] ends: it returns or it raises. *)
Lemma scrape_terminates crawl self :
  exists fuel r, scrape fuel crawl self = Some r.
Proof.
  destruct (crawl_loop_terminates crawl self [(url self, 0)]) as (fuel & r & Hr).
  unfold scrape. destruct r as [r|r].
  - exists fuel, (Returned (check_registration_url r)). now rewrite Hr.
  - exists fuel, (Raised r). now rewrite Hr.
Qed.

(** The evaluation of the loop that ended it. *)
Definition ends_with (o : Outcome) (r : Result) : Prop :=
  match r with Returned self => o = Done self | Raised self => o = Raise self end.

Lemma crawl_loop_reaches crawl self0 fuel self q r :
  loop_reaches crawl self0 self q ->
  crawl_loop fuel crawl self q = Some r ->
  exists self' q',
    loop_reaches crawl self0 self' q'
    /\ ends_with (scrape_iteration crawl self' q') r.
Proof.
  revert self q. induction fuel as [|fuel IH]; intros self q Hr; [discriminate|].
  cbn. destruct (scrape_iteration crawl self q) as [self' q'|r'|r'] eqn:Hstep.
  - apply IH. now apply (reaches_next crawl self0 self q).
  - intros [= <-]. now exists self, q.
  - intros [= <-]. now exists self, q.
Qed.

(** The scraper [scrape] ends with is a state of the crawl. *)
Lemma scrape_crawl_state crawl self0 fuel r :
  scrape fuel crawl self0 = Some r -> crawl_state crawl self0 (result_self r).
Proof.
  unfold scrape. destruct (crawl_loop _ _ _ _) as [r'|] eqn:Hl; [|discriminate].
  destruct (crawl_loop_reaches crawl self0 fuel self0 _ r' (reaches_start _ _) Hl)
    as (self' & q' & Hr & Hd).
  destruct r' as [r'|r']; cbn in Hd; intros [= <-]; cbn [result_self].
  - now apply (state_returned crawl self0 self' q').
  - now apply (state_raised crawl self0 self' q').
Qed.

(** *** Page budget, depth limit and the list of crawled pages *)

Lemma init_fields u maxp maxd f0 self0 :
  __init__ u maxp maxd f0 = Some self0 ->
  url self0 = u /\ max_pages self0 = maxp /\ max_depth self0 = maxd
  /\ visited_urls self0 = ∅ /\ pages_crawled self0 = 0 /\ log self0 = []
  /\ data self0 = {| fields := f0; registration_url := None;
                     re_enrollment_date := None; new_registration_date := None;
                     crawled_pages := [] |}.
Proof.
  unfold __init__. destruct (urlparse u); [|discriminate]. cbn.
  intros [= <-]. cbn. repeat split.
Qed.

Lemma goto_attempt v depth ok l :
  Goto v depth ok ∈ l <-> (v, depth, ok) ∈ attempts l.
Proof.
  unfold attempts. rewrite list_elem_of_omap. split.
  - intros H. now exists (Goto v depth ok).
  - intros (e & He & Ha). destruct e; cbn in Ha; try discriminate.
    now injection Ha as -> -> ->.
Qed.

Lemma requested_attempts l :
  requested l = (fun a : string * Z * bool => a.1.1) <$> attempts l.
Proof.
  induction l as [|e l IH]; [reflexivity|].
  destruct e; cbn; try exact IH. f_equal. exact IH.
Qed.

Lemma succeeded_attempts l :
  succeeded l
  = omap (fun a : string * Z * bool => if a.2 then Some a.1.1 else None) (attempts l).
Proof.
  induction l as [|e l IH]; [reflexivity|].
  destruct e as [v d [|]| | |]; cbn; try exact IH. f_equal. exact IH.
Qed.

Lemma unsuccessful_attempts l :
  unsuccessful l
  = omap (fun a : string * Z * bool => if a.2 then None else Some a.1.1) (attempts l).
Proof.
  induction l as [|e l IH]; [reflexivity|].
  destruct e as [v d [|]| | |]; cbn; try exact IH. f_equal. exact IH.
Qed.

Lemma requested_split l :
  length (requested l) = (length (succeeded l) + length (unsuccessful l))%nat.
Proof.
  unfold requested, succeeded, unsuccessful.
  induction l as [|e l IH]; [reflexivity|].
  destruct e as [v d [|]| | |]; cbn; lia.
Qed.

Lemma succeeded_requested v l : v ∈ succeeded l -> v ∈ requested l.
Proof.
  induction l as [|e l IH]; [easy|].
  destruct e as [w d [|]| | |]; cbn; try exact IH;
    rewrite ?elem_of_cons; intuition.
Qed.

Lemma unsuccessful_requested v l : v ∈ unsuccessful l -> v ∈ requested l.
Proof.
  induction l as [|e l IH]; [easy|].
  destruct e as [w d [|]| | |]; cbn; try exact IH;
    rewrite ?elem_of_cons; intuition.
Qed.

(** A URL requested once cannot have both given no page and succeeded. *)
Lemma unsuccessful_not_succeeded v l :
  NoDup (requested l) -> v ∈ unsuccessful l -> v ∉ succeeded l.
Proof.
  induction l as [|e l IH]; [easy|].
  destruct e as [w d [|]| | |]; cbn; try exact IH.
  - rewrite NoDup_cons. intros [Hw Hn] Hf Hs.
    apply elem_of_cons in Hs as [->|Hs]; [|now apply (IH Hn Hf)].
    apply Hw. now apply unsuccessful_requested.
  - rewrite NoDup_cons. intros [Hw Hn] Hf Hs.
    apply elem_of_cons in Hf as [->|Hf]; [|now apply (IH Hn Hf)].
    apply Hw. now apply succeeded_requested.
Qed.

(** C2: with a positive page limit and a non-negative depth limit, at
    every point of the crawl [pages_crawled] is at most [max_pages], and
    every page request of the loop is made for a queue entry whose depth is
    at most [max_depth]. *)
Theorem crawl_within_page_and_depth_limits
    crawl u maxp maxd f0 self0 self :
  0 < maxp -> 0 <= maxd ->
  __init__ u maxp maxd f0 = Some self0 ->
  crawl_state crawl self0 self ->
  pages_crawled self <= maxp
  /\ forall v depth ok, Goto v depth ok ∈ log self -> depth <= maxd.
Proof.
  intros Hp Hd Hi Hs.
  destruct (init_fields _ _ _ _ _ Hi) as (_ & Hmp & Hmd & _).
  assert (bookkeeping self0 self) as [_ _ Hb Hdp _ _ _ _].
  { apply (crawl_state_bookkeeping crawl); [|exact Hs].
    apply (init_bookkeeping u maxp maxd f0); [lia|exact Hi]. }
  split; [lia|].
  intros v depth ok Hg. apply goto_attempt in Hg.
  rewrite Forall_forall in Hdp. specialize (Hdp _ Hg). cbn in Hdp. lia.
Qed.

(** The links [_crawl_page] computes for a fetched page; [None] when the
    extraction or the prioritization raises. *)
Definition page_links (self : ProgramScraper) (u : string) (soup : Page)
  : option (list string) :=
  links ← _extract_internal_links self soup u;
  _prioritize_links self links soup.

(** The page [_crawl_page] hands back for a request that passes its three
    tests: the fetched page, unless the fetch or the work on the links
    raised. *)
Definition page_handed_back (self : ProgramScraper) (u : string) : option Page :=
  soup ← fetch (clock self) u;
  _ ← page_links (mark_visited u self) u soup;
  Some soup.

(** One counted request, from the fetch. *)
Lemma crawl_page_request self u depth :
  u ∉ visited_urls self -> pages_crawled self < max_pages self ->
  depth <= max_depth self ->
  exists self',
    _crawl_page self u depth
    = (self', page_handed_back self u,
       default [] (soup ← fetch (clock self) u;
                   page_links (mark_visited u self) u soup))
    /\ visited_urls self' = {[u]} ∪ visited_urls self
    /\ pages_crawled self' = pages_crawled self + 1
    /\ crawled_pages (data self')
       = (crawled_pages (data self)
          ++ if is_set (page_handed_back self u) then [u] else [])%list
    /\ log self'
       = (log self ++ [Goto u depth (is_set (page_handed_back self u))])%list.
Proof.
  intros Hnv Hlt Hle. unfold _crawl_page, page_handed_back, page_links.
  destruct (decide (u ∈ visited_urls self)); [contradiction|].
  destruct (max_pages self <=? pages_crawled self) eqn:Hp; [lia|].
  destruct (max_depth self <? depth) eqn:Hd; [lia|].
  cbn [clock mark_visited].
  destruct (fetch (clock self) u) as [soup|]; cbn [mbind option_bind];
    [|eexists; split; [reflexivity|cbn; now rewrite app_nil_r]].
  destruct (_extract_internal_links _ soup u) as [links|]; cbn [mbind option_bind];
    [|eexists; split; [reflexivity|cbn; now rewrite app_nil_r]].
  destruct (_prioritize_links _ links soup) as [pl|]; cbn [mbind option_bind];
    [|eexists; split; [reflexivity|cbn; now rewrite app_nil_r]].
  eexists. split; [reflexivity|]. now cbn.
Qed.

(** C10 (as the code has it): a request that passes the three tests of
    [_crawl_page] marks its URL as visited and counts it, whatever comes
    back; the URL joins [crawled_pages] only when the page was fetched and
    its links were extracted and prioritized without an exception.  So, in
    every state of a crawl, the crawled pages are the URLs of the requests
    that ran to their end, every request is counted, no URL is requested
    twice, a URL whose request gave no page is visited and is not among the
    crawled pages, and [crawled_pages] is at most as long as
    [pages_crawled], shorter exactly when some request gave no page. *)
Theorem crawled_pages_are_successful_fetches
    crawl u maxp maxd f0 self0 :
  0 < maxp ->
  __init__ u maxp maxd f0 = Some self0 ->
  (forall self v depth,
     v ∉ visited_urls self -> pages_crawled self < max_pages self ->
     depth <= max_depth self ->
     let self' := (_crawl_page self v depth).1.1 in
     let soup := (_crawl_page self v depth).1.2 in
     soup = (page ← fetch (clock self) v;
             _ ← page_links (mark_visited v self) v page;
             Some page)
     /\ v ∈ visited_urls self'
     /\ pages_crawled self' = pages_crawled self + 1
     /\ crawled_pages (data self')
        = (crawled_pages (data self) ++ if is_set soup then [v] else [])%list
     /\ log self' = (log self ++ [Goto v depth (is_set soup)])%list)
  /\ forall self,
       crawl_state crawl self0 self ->
       crawled_pages (data self) = succeeded (log self)
       /\ pages_crawled self = Z.of_nat (length (requested (log self)))
       /\ NoDup (requested (log self))
       /\ (forall v, v ∈ unsuccessful (log self) ->
             v ∈ visited_urls self /\ v ∉ crawled_pages (data self))
       /\ Z.of_nat (length (crawled_pages (data self))) <= pages_crawled self
       /\ (Z.of_nat (length (crawled_pages (data self))) < pages_crawled self
           <-> unsuccessful (log self) <> []).
Proof.
  intros Hp Hi. split.
  { intros self v depth Hnv Hlt Hle. cbv zeta.
    destruct (crawl_page_request self v depth Hnv Hlt Hle)
      as (self' & -> & Hv & Hc & Hcp & Hlog). cbn [fst snd].
    split; [reflexivity|].
    split; [rewrite Hv; apply elem_of_union_l; now apply elem_of_singleton|].
    now repeat split. }
  intros self Hs.
  assert (bookkeeping self0 self) as [_ _ _ _ Hc Hv Hcr Ho].
  { apply (crawl_state_bookkeeping crawl); [|exact Hs].
    apply (init_bookkeeping u maxp maxd f0); [lia|exact Hi]. }
  rewrite <- succeeded_attempts in Hcr. rewrite <- requested_attempts in Ho.
  assert (pages_crawled self = Z.of_nat (length (requested (log self)))) as Hn.
  { now rewrite requested_attempts, length_fmap. }
  pose proof (requested_split (log self)) as Hsplit.
  split; [exact Hcr|]. split; [exact Hn|]. split; [exact Ho|]. split; [|split].
  - intros v Hf. split.
    + rewrite unsuccessful_attempts in Hf.
      apply list_elem_of_omap in Hf as (a & Ha & Hf).
      rewrite Forall_forall in Hv. specialize (Hv _ Ha).
      destruct a as [[w d] [|]]; cbn in Hf; [discriminate|]. now injection Hf as <-.
    + rewrite Hcr. now apply unsuccessful_not_succeeded.
  - rewrite Hcr, Hn. lia.
  - rewrite Hcr, Hn, Hsplit.
    destruct (unsuccessful (log self)) as [|x l]; cbn [length]; split; intros H;
      [lia|easy|easy|lia].
Qed.

(** What the visited set does guarantee: the crawled pages are pairwise
    distinct as strings. *)
Lemma succeeded_NoDup l : NoDup (requested l) -> NoDup (succeeded l).
Proof.
  induction l as [|e l IH]; [constructor|].
  destruct e as [w d [|]| | |]; cbn; try exact IH.
  - rewrite !NoDup_cons. intros [Hw Hn]. split; [|now apply IH].
    intros Hs. apply Hw. now apply succeeded_requested.
  - rewrite NoDup_cons. intros [_ Hn]. now apply IH.
Qed.

Lemma crawled_pages_distinct crawl u maxp maxd f0 self0 self :
  0 < maxp ->
  __init__ u maxp maxd f0 = Some self0 ->
  crawl_state crawl self0 self ->
  NoDup (crawled_pages (data self)).
Proof.
  intros Hp Hi Hs.
  assert (bookkeeping self0 self) as [_ _ _ _ _ _ Hcr Ho].
  { apply (crawl_state_bookkeeping crawl); [|exact Hs].
    apply (init_bookkeeping u maxp maxd f0); [lia|exact Hi]. }
  rewrite <- succeeded_attempts in Hcr. rewrite <- requested_attempts in Ho.
  rewrite Hcr. now apply succeeded_NoDup.
Qed.

(** *** Accepted dates *)

Lemma ge_date_not_before a b :
  Datetime.ge a b = true -> Datetime.date_not_before a b.
Proof.
  unfold Datetime.ge, Datetime.date_not_before.
  destruct (Datetime.year a =? Datetime.year b) eqn:Hy; [|lia].
  destruct (Datetime.month a =? Datetime.month b) eqn:Hm; [|lia].
  destruct (Datetime.day a =? Datetime.day b) eqn:Hd; lia.
Qed.

Lemma accept_date_ge today y m d p :
  accept_date today y m d = Some p -> Datetime.ge p today = true.
Proof.
  unfold accept_date. destruct (m =? 0); [discriminate|].
  destruct (Datetime.make y m d) as [q|]; [|discriminate]. cbn.
  destruct (Datetime.ge q today) eqn:Hge; [|discriminate]. now intros [= <-].
Qed.

Ltac bind_case :=
  match goal with
  | |- context [mbind _ ?o] =>
      destruct o; cbn [mbind option_bind]; try discriminate
  end.

Lemma parse_match_ge today m p :
  parse_match today m = Some p -> Datetime.ge p today = true.
Proof.
  unfold parse_match.
  destruct m as [|m0 [|m1 [|m2 [|]]]]; try discriminate.
  - generalize (default 0 (months !! Py.lower m0)). intros mo.
    repeat bind_case. apply accept_date_ge.
  - generalize (default 0 (months !! Py.lower m0)). intros mo.
    destruct (_ && _).
    + repeat bind_case. apply accept_date_ge.
    + destruct (_ && _); [|discriminate].
      destruct (Py.isdigit m0); repeat bind_case; apply accept_date_ge.
Qed.

Lemma parse_date_loop_ge today patterns context p :
  parse_date_loop today patterns context = Some p -> Datetime.ge p today = true.
Proof.
  induction patterns as [|pattern rest IH]; [discriminate|]. cbn.
  destruct (re_findall pattern context) as [|m ms]; [exact IH|].
  destruct (parse_match today m) as [q|] eqn:Hm; [|exact IH].
  intros [= <-]. now apply (parse_match_ge today m).
Qed.

Lemma search_keywords_ge today text_lower keywords p :
  search_keywords today text_lower keywords = Some p -> Datetime.ge p today = true.
Proof.
  induction keywords as [|keyword rest IH]; [discriminate|].
  cbn [search_keywords]. cbv zeta.
  destruct (Py.find keyword text_lower) as [idx|]; [|exact IH].
  destruct (parse_date_from_context _ _) as [q|] eqn:Hq; [|exact IH].
  intros [= <-]. exact (parse_date_loop_ge today date_patterns _ q Hq).
Qed.

Lemma search_general_ge today text_lower keywords p :
  search_general today text_lower keywords = Some p -> Datetime.ge p today = true.
Proof.
  induction keywords as [|keyword rest IH]; [discriminate|].
  cbn [search_general]. cbv zeta.
  destruct (Py.find keyword text_lower) as [idx|]; [|exact IH].
  destruct (parse_date_from_context _ _) as [q|] eqn:Hq; [|exact IH].
  intros [= <-]. exact (parse_date_loop_ge today date_patterns _ q Hq).
Qed.

(** A date field after a step: what it held before, or a date that is not
    before [today]. *)
Definition kept_or_not_before (today : datetime) (before after : option datetime)
  : Prop :=
  after = before
  \/ exists d, after = Some d /\ Datetime.ge d today = true
               /\ Datetime.date_not_before d today.

Lemma extract_registration_info_dates self soup :
  let today := now (clock self) in
  let self' := _extract_registration_info self soup in
  kept_or_not_before today (re_enrollment_date (data self))
                     (re_enrollment_date (data self'))
  /\ kept_or_not_before today (new_registration_date (data self))
                        (new_registration_date (data self')).
Proof.
  cbv zeta. unfold _extract_registration_info.
  assert (clock match find_registration_link self (anchors soup) with
                | Some u => with_data (set_registration_url (Some u)) self
                | None => self
                end = clock self) as -> by now destruct (find_registration_link _ _).
  pose proof (search_keywords_ge (now (clock self)) (Py.lower (text soup))
                re_enrollment_keywords) as H1.
  pose proof (search_keywords_ge (now (clock self)) (Py.lower (text soup))
                new_registration_keywords) as H2.
  revert H1 H2.
  generalize (search_keywords (now (clock self)) (Py.lower (text soup))
                re_enrollment_keywords).
  generalize (search_keywords (now (clock self)) (Py.lower (text soup))
                new_registration_keywords).
  intros o2 o1 H1 H2.
  destruct o1 as [d1|], o2 as [d2|], (find_registration_link _ _); cbn; split;
    try (now left);
    right; eexists; (split; [reflexivity|]);
    eauto using ge_date_not_before.
Qed.

Lemma scrape_registration_page_dates self :
  let today := now (S (clock self)) in
  let self' := _scrape_registration_page self in
  kept_or_not_before today (re_enrollment_date (data self))
                     (re_enrollment_date (data self'))
  /\ kept_or_not_before today (new_registration_date (data self))
                        (new_registration_date (data self')).
Proof.
  cbv zeta. unfold _scrape_registration_page.
  destruct self as [u dmn b mp md v pc [f ru r0 n0 cp] ck lg].
  cbn [data registration_url clock].
  destruct ru as [reg_url|]; [|split; now left].
  destruct (negb (Py.truthy reg_url)); [split; now left|].
  destruct (fetch ck reg_url) as [soup|]; [|split; now left].
  cbn [clock tick record].
  pose proof (search_keywords_ge (now (S ck)) (Py.lower (text soup))
                re_enrollment_keywords) as H1.
  pose proof (search_keywords_ge (now (S ck)) (Py.lower (text soup))
                new_registration_keywords_page) as H2.
  pose proof (search_general_ge (now (S ck)) (Py.lower (text soup))
                general_keywords) as H3.
  revert H1 H2 H3.
  generalize (search_keywords (now (S ck)) (Py.lower (text soup))
                re_enrollment_keywords).
  generalize (search_keywords (now (S ck)) (Py.lower (text soup))
                new_registration_keywords_page).
  generalize (search_general (now (S ck)) (Py.lower (text soup))
                general_keywords).
  intros o3 o2 o1 H1 H2 H3.
  destruct r0 as [r0|], n0 as [n0|], o1 as [d1|], o2 as [d2|], o3 as [d3|];
    cbn; split;
    try (now left);
    right; eexists; (split; [reflexivity|]);
    eauto using ge_date_not_before.
Qed.

(** C3: a date accepted from a context is never before the current date;
    whatever the extraction on a crawled page or on the registration page
    stores into [re_enrollment_date] or [new_registration_date] is such a
    date; and the match "March 1, 2020" examined in 2025 gives no date. *)
Theorem stored_dates_are_not_in_the_past :
  (forall today context d,
      parse_date_from_context today context = Some d ->
      Datetime.ge d today = true /\ Datetime.date_not_before d today)
  /\ (forall self soup,
        kept_or_not_before (now (clock self))
          (re_enrollment_date (data self))
          (re_enrollment_date (data (_extract_registration_info self soup)))
        /\ kept_or_not_before (now (clock self))
             (new_registration_date (data self))
             (new_registration_date (data (_extract_registration_info self soup))))
  /\ (forall self,
        kept_or_not_before (now (S (clock self)))
          (re_enrollment_date (data self))
          (re_enrollment_date (data (_scrape_registration_page self)))
        /\ kept_or_not_before (now (S (clock self)))
             (new_registration_date (data self))
             (new_registration_date (data (_scrape_registration_page self))))
  /\ (forall today,
        Datetime.year today = 2025 ->
        parse_match today ["march"; "1"; "2020"] = None).
Proof.
  split; [|split; [|split]].
  - intros today context d H.
    pose proof (parse_date_loop_ge today date_patterns context d H).
    split; [assumption|now apply ge_date_not_before].
  - intros self soup. apply extract_registration_info_dates.
  - intros self. apply scrape_registration_page_dates.
  - intros [y m d us] Hy. cbn in Hy. subst y. vm_compute. reflexivity.
Qed.

(** *** What one run of the registration extractor writes *)

Definition or_previous {A} (found previous : option A) : option A :=
  match found with Some x => Some x | None => previous end.

Lemma extract_registration_info_writes self soup :
  let self' := _extract_registration_info self soup in
  let today := now (clock self) in
  let text_lower := Py.lower (text soup) in
  registration_url (data self')
  = or_previous (find_registration_link self (anchors soup))
                (registration_url (data self))
  /\ re_enrollment_date (data self')
     = or_previous (search_keywords today text_lower re_enrollment_keywords)
                   (re_enrollment_date (data self))
  /\ new_registration_date (data self')
     = or_previous (search_keywords today text_lower new_registration_keywords)
                   (new_registration_date (data self))
  /\ fields (data self') = fields (data self)
  /\ log self' = log self
  /\ clock self' = S (clock self).
Proof.
  cbv zeta. unfold _extract_registration_info.
  destruct self as [u dmn b mp md v pc [f ru r0 n0 cp] ck lg].
  generalize (find_registration_link
                {| url := u; domain := dmn; base_url := b; max_pages := mp;
                   max_depth := md; visited_urls := v; pages_crawled := pc;
                   data := {| fields := f; registration_url := ru;
                              re_enrollment_date := r0;
                              new_registration_date := n0;
                              crawled_pages := cp |};
                   clock := ck; log := lg |} (anchors soup)).
  intros o0. cbn [clock data].
  destruct o0 as [u0|]; cbn [clock with_data];
    generalize (search_keywords (now ck) (Py.lower (text soup)) re_enrollment_keywords);
    generalize (search_keywords (now ck) (Py.lower (text soup)) new_registration_keywords);
    intros o2 o1; destruct o1, o2; cbn; repeat split.
Qed.

(** An anchor the registration-URL scan accepts: not [mailto:] or [tel:],
    a keyword in the address or the text, and an address that starts with a
    slash or with [http], or has no colon. *)
Definition accepted_link (link : Anchor) : bool :=
  let h := Py.lower (href link) in
  let link_text := Py.lower (get_text link) in
  negb (Py.startswith "mailto:" h || Py.startswith "tel:" h)
  && existsb (fun kw => Py.contains kw h || Py.contains kw link_text) url_keywords
  && (Py.startswith "/" (href link) || Py.startswith "http" (href link)
      || negb (Py.contains ":" (href link))).

(** The absolute URL the scan makes of an accepted anchor. *)
Definition link_target (self : ProgramScraper) (link : Anchor) : string :=
  let u := href link in
  if Py.startswith "/" u then base_url self +:+ u
  else if Py.startswith "http" u then u
  else Py.rstrip slash (url self) +:+ "/" +:+ u.

Lemma find_registration_link_first self l :
  find_registration_link self l = link_target self <$> List.find accepted_link l.
Proof.
  induction l as [|link rest IH]; [reflexivity|].
  cbn [find_registration_link List.find]. cbv zeta. rewrite IH. clear IH.
  change (accepted_link link) with
    (negb (Py.startswith "mailto:" (Py.lower (href link))
           || Py.startswith "tel:" (Py.lower (href link)))
     && existsb (fun kw => Py.contains kw (Py.lower (href link))
                           || Py.contains kw (Py.lower (get_text link)))
                url_keywords
     && (Py.startswith "/" (href link) || Py.startswith "http" (href link)
         || negb (Py.contains ":" (href link)))).
  destruct (Py.startswith "mailto:" _ || Py.startswith "tel:" _); [reflexivity|].
  cbn [negb andb].
  destruct (existsb _ url_keywords); [|reflexivity]. cbn [andb].
  destruct (Py.startswith "/" (href link)) eqn:H1.
  { cbn. unfold link_target. cbv zeta. now rewrite H1. }
  cbn [orb negb].
  destruct (Py.startswith "http" (href link)) eqn:H2.
  { cbn. unfold link_target. cbv zeta. now rewrite H1, H2. }
  cbn [orb negb].
  destruct (Py.contains ":" (href link)); [reflexivity|].
  cbn. unfold link_target. cbv zeta. now rewrite H1, H2.
Qed.

(** C5 (as the code has it): on every processed page the registration URL
    becomes the target of the first accepted anchor of that page, in
    document order, also when a URL was already set; a page with no
    accepted anchor leaves it as it was. *)
Theorem registration_url_is_first_match_of_latest_page self soup :
  registration_url (data (_extract_registration_info self soup))
  = match List.find accepted_link (anchors soup) with
    | Some link => Some (link_target self link)
    | None => registration_url (data self)
    end.
Proof.
  destruct (extract_registration_info_writes self soup) as (-> & _).
  rewrite find_registration_link_first.
  now destruct (List.find accepted_link (anchors soup)).
Qed.

(** The effect of the field extractors on the scraper. *)
Lemma extract_basic_data_writes self current_url soup :
  let basic := extract_basic_data self current_url soup in
  let extracted := extract_main_page_data soup (fields (data self)) in
  log basic.1
  = (log self
     ++ if pages_crawled self =? 1 then [MainPageData current_url] else [])%list
  /\ fields (data basic.1)
     = (if pages_crawled self =? 1 then extracted.1 else fields (data self))
  /\ basic.2 = (if pages_crawled self =? 1 then extracted.2 else true)
  /\ registration_url (data basic.1) = registration_url (data self)
  /\ re_enrollment_date (data basic.1) = re_enrollment_date (data self)
  /\ new_registration_date (data basic.1) = new_registration_date (data self)
  /\ clock basic.1 = clock self.
Proof.
  cbv zeta. unfold extract_basic_data.
  destruct (pages_crawled self =? 1); [|cbn; rewrite app_nil_r; now repeat split].
  destruct (extract_main_page_data soup (fields (data self))) as [extracted returned].
  cbn. now repeat split.
Qed.

(** The effect of the rest of the loop body on a fetched page. *)
Lemma process_page_writes crawl self current_url depth soup links to_crawl :
  let self' := (process_page crawl self current_url depth soup links to_crawl).1 in
  log self' = (log self ++ [RegistrationInfo current_url])%list
  /\ fields (data self') = fields (data self)
  /\ clock self' = S (clock self).
Proof.
  cbv zeta. unfold process_page. cbn [fst record log data clock].
  destruct (extract_registration_info_writes self soup)
    as (_ & _ & _ & -> & -> & ->).
  now repeat split.
Qed.

(** The effect of the loop body on a fetched page with text. *)
Lemma processed_writes crawl self current_url depth soup links to_crawl :
  let self' := processed crawl self current_url depth soup links to_crawl in
  let extracted := extract_main_page_data soup (fields (data self)) in
  let returned := (extract_basic_data self current_url soup).2 in
  log self'
  = (log self
     ++ (if pages_crawled self =? 1 then [MainPageData current_url] else [])
     ++ if returned then [RegistrationInfo current_url] else [])%list
  /\ fields (data self')
     = (if pages_crawled self =? 1 then extracted.1 else fields (data self))
  /\ returned = (if pages_crawled self =? 1 then extracted.2 else true).
Proof.
  cbv zeta. unfold processed. cbv zeta.
  destruct (extract_basic_data_writes self current_url soup)
    as (Hl & Hf & Hr & _). cbv zeta in Hl, Hf, Hr.
  destruct (extract_basic_data self current_url soup) as [s1 returned].
  cbn [fst snd] in *. split; [|split; [|exact Hr]].
  - destruct returned; [|now rewrite Hl, app_nil_r].
    destruct (process_page_writes crawl s1 current_url depth soup links to_crawl)
      as (Hl' & _). cbv zeta in Hl'. now rewrite Hl', Hl, <- app_assoc.
  - destruct returned; [|exact Hf].
    destruct (process_page_writes crawl s1 current_url depth soup links to_crawl)
      as (_ & Hf' & _). cbv zeta in Hf'. now rewrite Hf', Hf.
Qed.

(** *** One evaluation of the loop, case by case *)

(** Either no page is requested and the scraper is unchanged, or the head
    of the queue is requested: the request gives no page, or the page comes
    back and is processed when it has text, up to the exception of a field
    extractor. *)
Lemma iteration_cases crawl self q :
  ((q = [] \/ max_pages self <= pages_crawled self
    \/ exists u depth rest,
         q = (u, depth) :: rest
         /\ (u ∈ visited_urls self \/ max_depth self < depth))
   /\ (scrape_iteration crawl self q = Done self
       \/ exists e rest,
            q = e :: rest /\ scrape_iteration crawl self q = Next self rest))
  \/ exists u depth rest,
       q = (u, depth) :: rest
       /\ (u ∉ visited_urls self) /\ pages_crawled self < max_pages self
       /\ depth <= max_depth self
       /\ ((_crawl_page self u depth
            = (record (Goto u depth false) (tick (mark_visited u self)), None, [])
            /\ scrape_iteration crawl self q
               = finish (record (Goto u depth false) (tick (mark_visited u self))) rest)
           \/ exists soup links,
                fetch (clock self) u = Some soup
                /\ _crawl_page self u depth
                   = (with_data (append_crawled_page u)
                        (record (Goto u depth true) (tick (mark_visited u self))),
                      Some soup, links)
                /\ let s1 := with_data (append_crawled_page u)
                               (record (Goto u depth true) (tick (mark_visited u self))) in
                   let basic := extract_basic_data s1 u soup in
                   scrape_iteration crawl self q
                   = if Py.truthy (text soup)
                     then if basic.2
                          then finish
                                 (process_page crawl basic.1 u depth soup links rest).1
                                 (process_page crawl basic.1 u depth soup links rest).2
                          else Raise basic.1
                     else finish s1 rest).
Proof.
  unfold scrape_iteration.
  destruct q as [|[u depth] rest]; [left; split; [now left|now left]|].
  destruct (negb _) eqn:Hp; [left; split; [right; left; lia|now left]|].
  destruct (decide _) as [Hv|Hv].
  { left. split; [right; right; exists u, depth, rest; tauto|].
    right. now exists (u, depth), rest. }
  destruct (crawl_page_cases self u depth)
    as [[Hg Hc]|(Hnv & Hlt & Hle & [(soup & links & Hc & Hf)|Hc])]; rewrite Hc.
  - left. split.
    + destruct Hg as [Hg|[Hg|Hg]]; [easy|right; left; lia|].
      right; right; exists u, depth, rest; tauto.
    + unfold finish. destruct (both_dates_found self); [now left|].
      right. now exists (u, depth), rest.
  - right. exists u, depth, rest. repeat (split; [easy|]).
    right. exists soup, links. split; [exact Hf|]. split; [exact Hc|].
    cbv zeta. destruct (Py.truthy (text soup)); [|reflexivity].
    destruct (extract_basic_data _ u soup) as [s2 returned]. cbn [fst snd].
    destruct returned; [|reflexivity].
    now destruct (process_page _ _ _ _ _ _ _).
  - right. exists u, depth, rest. repeat (split; [easy|]). left. now split.
Qed.

(** The scraper one evaluation of the loop leaves when the page came back
    with text. *)
Lemma outcome_processed crawl self u depth soup links rest :
  let basic := extract_basic_data self u soup in
  outcome_self
    (if basic.2
     then finish (process_page crawl basic.1 u depth soup links rest).1
                 (process_page crawl basic.1 u depth soup links rest).2
     else Raise basic.1)
  = processed crawl self u depth soup links rest.
Proof.
  cbv zeta. unfold processed. cbv zeta.
  destruct (extract_basic_data self u soup).2; [|reflexivity].
  unfold finish. now destruct (both_dates_found _).
Qed.

(** The visit after the loop adds at most its own event to the log and
    leaves the static fields alone. *)
Lemma check_registration_url_log self :
  let self' := check_registration_url self in
  fields (data self') = fields (data self)
  /\ registration_url (data self') = registration_url (data self)
  /\ (self' = self
      \/ exists reg_url ok,
           registration_url (data self) = Some reg_url
           /\ log self' = (log self ++ [RegistrationPage reg_url ok])%list).
Proof.
  cbv zeta. unfold check_registration_url.
  destruct (_ && _); [|now repeat split; try left].
  destruct (registration_url (data self)) as [reg_url|] eqn:Hu;
    [|now repeat split; try left].
  destruct (decide _); [rewrite Hu; now repeat split; try left|].
  unfold _scrape_registration_page. rewrite Hu.
  destruct (negb (Py.truthy reg_url)); [rewrite Hu; now repeat split; try left|].
  destruct self as [u dmn b mp md v pc [f ru r0 n0 cp] ck lg].
  cbn [data registration_url clock] in *. subst ru.
  destruct (fetch ck reg_url) as [soup|].
  2:{ cbn. repeat split. right. now exists reg_url, false. }
  cbn [clock tick record].
  generalize (search_keywords (now (S ck)) (Py.lower (text soup))
                re_enrollment_keywords).
  generalize (search_keywords (now (S ck)) (Py.lower (text soup))
                new_registration_keywords_page).
  generalize (search_general (now (S ck)) (Py.lower (text soup))
                general_keywords).
  intros o3 o2 o1.
  destruct r0, n0, o1, o2, o3; cbn; repeat split; right; now exists reg_url, true.
Qed.

(** *** The field extractors run on the seed page only *)

(** The page [_crawl_page] hands back for the seed: the seed was fetched
    and its links were extracted and prioritized without an exception. *)
Definition seed_page (self0 : ProgramScraper) : option Page :=
  (_crawl_page self0 (url self0) 0).1.2.

(** The page the first evaluation of the loop processes: the page handed
    back for the seed, when its body has text. *)
Definition processed_seed_page (self0 : ProgramScraper) : option Page :=
  match seed_page self0 with
  | Some soup => if Py.truthy (text soup) then Some soup else None
  | None => None
  end.

Definition outcome_queue (o : Outcome) : list (string * Z) :=
  match o with Next _ q => q | Done _ => [] | Raise _ => [] end.

Definition is_raise (o : Outcome) : bool :=
  match o with Raise _ => true | _ => false end.

(** Whether the field extractors return on the page the first evaluation
    of the loop processes. *)
Definition seed_extraction_returns (self0 : ProgramScraper) : bool :=
  match processed_seed_page self0 with
  | Some soup => (extract_main_page_data soup (fields (data self0))).2
  | None => true
  end.

(** The state of the field extraction once the seed has been requested. *)
Definition main_page_done (self0 self : ProgramScraper) (q : list (string * Z))
  : Prop :=
  1 <= pages_crawled self
  /\ match processed_seed_page self0 with
     | Some soup =>
         main_page_runs (log self) = [url self0]
         /\ fields (data self)
            = (extract_main_page_data soup (fields (data self0))).1
     | None =>
         main_page_runs (log self) = []
         /\ fields (data self) = fields (data self0)
         /\ requested (log self) = [url self0]
         /\ q = []
     end.

Lemma finish_self self q : outcome_self (finish self q) = self.
Proof. unfold finish. now destruct (both_dates_found self). Qed.

Lemma finish_queue_nil self : outcome_queue (finish self []) = [].
Proof. unfold finish. now destruct (both_dates_found self). Qed.

Lemma finish_returns self q : is_raise (finish self q) = false.
Proof. unfold finish. now destruct (both_dates_found self). Qed.

Lemma main_page_runs_app l1 l2 :
  main_page_runs (l1 ++ l2) = (main_page_runs l1 ++ main_page_runs l2)%list.
Proof. apply omap_app. Qed.

Lemma requested_app l1 l2 :
  requested (l1 ++ l2) = (requested l1 ++ requested l2)%list.
Proof. apply omap_app. Qed.

(** The first evaluation of the loop: the seed is requested, and the field
    extractors run when the page is handed back with text; the evaluation
    raises exactly when they do. *)
Lemma first_iteration_done crawl self0 :
  visited_urls self0 = ∅ -> pages_crawled self0 = 0 -> log self0 = [] ->
  0 < max_pages self0 -> 0 <= max_depth self0 ->
  let o := scrape_iteration crawl self0 [(url self0, 0)] in
  main_page_done self0 (outcome_self o) (outcome_queue o)
  /\ is_raise o = negb (seed_extraction_returns self0)
  /\ (is_raise o = true -> requested (log (outcome_self o)) = [url self0]).
Proof.
  intros Hv Hp Hl Hmp Hmd. cbv zeta. unfold seed_extraction_returns.
  destruct (iteration_cases crawl self0 [(url self0, 0)])
    as [[Hg _]|(u & depth & rest & [= <- <- <-] & Hnv & Hlt & Hle & Hcase)].
  { exfalso. destruct Hg as [Hg|[Hg|(u & depth & rest & [= <- <- <-] & Hg)]];
      [discriminate|lia|]. rewrite Hv in Hg. destruct Hg; [set_solver|lia]. }
  unfold main_page_done, processed_seed_page, seed_page.
  destruct Hcase as [[Hc ->]|(soup & links & Hf & Hc & ->)]; rewrite Hc; cbn [fst snd].
  - rewrite finish_self, finish_queue_nil, finish_returns. cbn. rewrite Hl. cbn.
    split; [split; [lia|easy]|]. split; [reflexivity|discriminate].
  - cbv zeta. destruct (Py.truthy (text soup)).
    + rewrite outcome_processed.
      match goal with |- context [processed ?c ?s ?v ?d ?p ?l ?t] =>
        destruct (processed_writes c s v d p l t) as (Hlog & Hfields & Hret);
        destruct (processed_same c s v d p l t) as (_ & _ & _ & _ & _ & _ & Hpc & _)
      end.
      cbv zeta in Hlog, Hfields, Hret. rewrite Hlog, Hfields, Hret, <- Hpc.
      cbn [pages_crawled with_data record tick mark_visited log data fields
           append_crawled_page].
      rewrite Hp, Hl. change (0 + 1 =? 1) with true. cbv beta iota.
      destruct (extract_main_page_data soup (fields (data self0))) as [extracted returned].
      cbn [fst snd]. destruct returned.
      * rewrite finish_returns. cbn. split; [split; [lia|easy]|].
        split; [reflexivity|discriminate].
      * cbn. split; [split; [lia|easy]|]. split; reflexivity.
    + rewrite finish_self, finish_queue_nil, finish_returns. cbn. rewrite Hl. cbn.
      split; [split; [lia|easy]|]. split; [reflexivity|discriminate].
Qed.

(** A later evaluation of the loop leaves the fields alone and does not
    raise. *)
Lemma later_iteration_done crawl self0 self q :
  main_page_done self0 self q ->
  let o := scrape_iteration crawl self q in
  main_page_done self0 (outcome_self o) (outcome_queue o) /\ is_raise o = false.
Proof.
  intros [Hp Hd]. cbv zeta.
  destruct (iteration_cases crawl self q)
    as [[_ [->|(e & rest & -> & ->)]]
       |(u & depth & rest & -> & Hnv & Hlt & Hle & Hcase)].
  - split; [|reflexivity].
    split; [exact Hp|]. destruct (processed_seed_page self0); [exact Hd|]. cbn.
    destruct Hd as (? & ? & ? & _). now repeat split.
  - split; [|reflexivity].
    split; [exact Hp|]. destruct (processed_seed_page self0); [exact Hd|].
    now destruct Hd as (_ & _ & _ & ?).
  - unfold main_page_done in *.
    destruct (processed_seed_page self0) as [soup0|];
      [|now destruct Hd as (_ & _ & _ & ?)].
    destruct Hd as [Hr Hfl].
    destruct Hcase as [[_ ->]|(soup & links & Hf & _ & ->)].
    + rewrite finish_self, finish_returns. cbn. rewrite main_page_runs_app, Hr. cbn.
      split; [split; [lia|easy]|reflexivity].
    + cbv zeta. destruct (Py.truthy (text soup)).
      * match goal with |- context [extract_basic_data ?s ?v ?p] =>
          destruct (processed_writes crawl s v depth p links rest)
            as (Hlog & Hfields & Hret);
          pose proof (processed_same crawl s v depth p links rest) as Hsame end.
        cbv zeta in Hlog, Hfields, Hret. rewrite outcome_processed.
        destruct Hsame as (_ & _ & _ & _ & _ & _ & Hpc & _).
        rewrite Hlog, Hfields, <- Hpc, Hret.
        cbn [pages_crawled with_data record tick mark_visited log data fields
             append_crawled_page].
        destruct (pages_crawled self + 1 =? 1) eqn:H1; [lia|].
        rewrite finish_returns, !main_page_runs_app, Hr. cbn.
        split; [split; [lia|easy]|reflexivity].
      * rewrite finish_self, finish_returns. cbn. rewrite main_page_runs_app, Hr. cbn.
        split; [split; [lia|easy]|reflexivity].
Qed.

Lemma loop_reaches_main_page crawl self0 self q :
  visited_urls self0 = ∅ -> pages_crawled self0 = 0 -> log self0 = [] ->
  0 < max_pages self0 -> 0 <= max_depth self0 ->
  loop_reaches crawl self0 self q ->
  (self = self0 /\ q = [(url self0, 0)])
  \/ (main_page_done self0 self q /\ seed_extraction_returns self0 = true).
Proof.
  intros Hv Hp Hl Hmp Hmd.
  induction 1 as [|self q self' q' _ IH Hstep]; [now left|]. right.
  destruct IH as [[-> ->]|[IH Hret]].
  - destruct (first_iteration_done crawl self0 Hv Hp Hl Hmp Hmd) as (H & Hraise & _).
    cbv zeta in H, Hraise. rewrite Hstep in H, Hraise. cbn in H, Hraise.
    split; [exact H|]. now destruct (seed_extraction_returns self0).
  - destruct (later_iteration_done crawl self0 self q IH) as (H & _).
    cbv zeta in H. rewrite Hstep in H. now split.
Qed.

(** The page handed back for the seed of a new scraper, from the fetch. *)
Lemma seed_page_handed_back u maxp maxd f0 self0 :
  0 < maxp -> 0 <= maxd ->
  __init__ u maxp maxd f0 = Some self0 ->
  seed_page self0
  = (page ← fetch 0 u;
     _ ← page_links (mark_visited u self0) u page;
     Some page).
Proof.
  intros Hmp Hmd Hi.
  destruct (init_fields _ _ _ _ _ Hi) as (Hu & Hp & Hd & Hv & Hpc & _).
  assert (clock self0 = O) as Hc.
  { unfold __init__ in Hi. destruct (urlparse u); [|discriminate].
    cbn in Hi. now injection Hi as <-. }
  unfold seed_page. rewrite Hu.
  destruct (crawl_page_request self0 u 0) as (self' & -> & _);
    [rewrite Hv; set_solver|lia|lia|].
  cbn [fst snd]. unfold page_handed_back. now rewrite Hc.
Qed.

(** C4 (as the code has it): the field extractors run at most once, and
    only against the seed page, which is the first page the crawl requests.
    They run when [_crawl_page] hands the seed page back, which takes the
    fetch of the seed and the extraction and the prioritization of its
    links to go through without an exception, and the page has text; then
    [scrape] returns when they return and raises when one of them raises.
    Otherwise they never run, the crawl requests no other page, and
    [scrape] returns. *)
Theorem field_extractors_run_on_the_seed_page_only
    crawl u maxp maxd f0 self0 :
  0 < maxp -> 0 <= maxd ->
  __init__ u maxp maxd f0 = Some self0 ->
  seed_page self0
  = (page ← fetch 0 u;
     _ ← page_links (mark_visited u self0) u page;
     Some page)
  /\ (exists fuel r, scrape fuel crawl self0 = Some r)
  /\ forall fuel r,
       scrape fuel crawl self0 = Some r ->
       let self := result_self r in
       match seed_page self0 with
       | Some soup =>
           if Py.truthy (text soup)
           then
             main_page_runs (log self) = [u]
             /\ fields (data self) = (extract_main_page_data soup f0).1
             /\ (if (extract_main_page_data soup f0).2
                 then r = Returned self
                 else r = Raised self /\ requested (log self) = [u])
           else
             main_page_runs (log self) = []
             /\ fields (data self) = f0
             /\ requested (log self) = [u]
             /\ r = Returned self
       | None =>
           main_page_runs (log self) = []
           /\ fields (data self) = f0
           /\ requested (log self) = [u]
           /\ r = Returned self
       end.
Proof.
  intros Hmp Hmd Hi.
  split; [now apply (seed_page_handed_back u maxp maxd f0)|].
  split; [apply scrape_terminates|].
  intros fuel r Hr. cbv zeta.
  destruct (init_fields _ _ _ _ _ Hi) as (Hu & Hp & Hd & Hv & Hpc & Hl & Hdata).
  unfold scrape in Hr.
  destruct (crawl_loop _ _ _ _) as [r'|] eqn:Hloop; [|discriminate].
  destruct (crawl_loop_reaches crawl self0 fuel self0 _ r' (reaches_start _ _) Hloop)
    as (self' & q' & Hreach & Hends).
  assert (main_page_done self0 (result_self r') []
          /\ (if seed_extraction_returns self0
              then r' = Returned (result_self r')
              else r' = Raised (result_self r')
                   /\ requested (log (result_self r')) = [url self0]))
    as [[_ Hmain] Hkind].
  { destruct (loop_reaches_main_page crawl self0 self' q' Hv Hpc Hl
                ltac:(lia) ltac:(lia) Hreach) as [[-> ->]|[Hm Hret]].
    - destruct (first_iteration_done crawl self0 Hv Hpc Hl
                  ltac:(lia) ltac:(lia)) as (H & Hraise & Hreq).
      cbv zeta in H, Hraise, Hreq.
      destruct r' as [r'|r']; cbn [ends_with] in Hends; rewrite Hends in H, Hraise, Hreq;
        cbn in H, Hraise, Hreq; cbn [result_self]; (split; [exact H|]).
      + now destruct (seed_extraction_returns self0).
      + destruct (seed_extraction_returns self0); [discriminate|].
        split; [reflexivity|now apply Hreq].
    - destruct (later_iteration_done crawl self0 self' q' Hm) as (H & Hraise).
      cbv zeta in H, Hraise.
      destruct r' as [r'|r']; cbn [ends_with] in Hends; rewrite Hends in H, Hraise;
        cbn in H, Hraise; [|discriminate]. cbn [result_self]. split; [exact H|].
      now rewrite Hret. }
  unfold seed_extraction_returns in Hkind.
  unfold processed_seed_page in Hmain, Hkind.
  rewrite Hdata, Hu in Hmain. cbn [fields] in Hmain.
  rewrite Hdata, Hu in Hkind. cbn [fields] in Hkind.
  destruct r' as [r'|r']; injection Hr as <-; cbn [result_self] in *.
  - destruct (check_registration_url_log r') as (Hf & _ & Hlog).
    cbv zeta in Hf, Hlog. rewrite Hf.
    assert (main_page_runs (log (check_registration_url r')) = main_page_runs (log r')
            /\ requested (log (check_registration_url r')) = requested (log r'))
      as [-> ->].
    { destruct Hlog as [->|(reg_url & ok & _ & ->)]; [easy|].
      rewrite main_page_runs_app, requested_app. cbn. now rewrite !app_nil_r. }
    destruct (seed_page self0) as [soup|]; [|now destruct Hmain as (? & ? & ? & _)].
    destruct (Py.truthy (text soup)); [|now destruct Hmain as (? & ? & ? & _)].
    destruct Hmain as [? ?].
    destruct (extract_main_page_data soup f0).2; [easy|].
    now destruct Hkind.
  - destruct (seed_page self0) as [soup|]; [|discriminate].
    destruct (Py.truthy (text soup)); [|discriminate].
    destruct Hmain as [? ?].
    destruct (extract_main_page_data soup f0).2; [discriminate|].
    destruct Hkind as [_ ?]. now repeat split.
Qed.

(** *** The visit of the registration URL after the loop *)

Lemma registration_page_visits_app l1 l2 :
  registration_page_visits (l1 ++ l2)
  = (registration_page_visits l1 ++ registration_page_visits l2)%list.
Proof. apply omap_app. Qed.

Lemma iteration_no_registration_page crawl self q :
  registration_page_visits (log (outcome_self (scrape_iteration crawl self q)))
  = registration_page_visits (log self).
Proof.
  destruct (iteration_cases crawl self q)
    as [[_ [->|(e & rest & -> & ->)]]
       |(u & depth & rest & -> & Hnv & Hlt & Hle & Hcase)]; [reflexivity..|].
  destruct Hcase as [[_ ->]|(soup & links & Hf & _ & ->)].
  - rewrite finish_self. cbn. rewrite registration_page_visits_app. cbn.
    now rewrite app_nil_r.
  - cbv zeta. destruct (Py.truthy (text soup)).
    + rewrite outcome_processed.
      match goal with |- context [processed ?c ?s ?v ?d ?p ?l ?t] =>
        destruct (processed_writes c s v d p l t) as (-> & _) end.
      cbn [log with_data record tick mark_visited].
      destruct (_ =? 1), (extract_basic_data _ _ _).2;
        rewrite !registration_page_visits_app; cbn; now rewrite !app_nil_r.
    + rewrite finish_self. cbn. rewrite registration_page_visits_app. cbn.
      now rewrite app_nil_r.
Qed.

Lemma loop_reaches_no_registration_page crawl self0 self q :
  loop_reaches crawl self0 self q ->
  registration_page_visits (log self) = registration_page_visits (log self0).
Proof.
  induction 1 as [|self q self' q' _ IH Hstep]; [reflexivity|].
  pose proof (iteration_no_registration_page crawl self q) as H.
  rewrite Hstep in H. cbn in H. congruence.
Qed.

(** The registration URL to visit after the loop, when the visit is due:
    a URL is set, both dates are missing, and the URL is not among the
    visited ones. *)
Definition fallback_due (self : ProgramScraper) : option string :=
  match registration_url (data self) with
  | Some reg_url =>
      if Py.truthy reg_url
         && negb (is_set (re_enrollment_date (data self)))
         && negb (is_set (new_registration_date (data self)))
         && bool_decide (reg_url ∉ visited_urls self)
      then Some reg_url else None
  | None => None
  end.

Lemma check_registration_url_due self :
  check_registration_url self
  = match fallback_due self with
    | Some _ => _scrape_registration_page self
    | None => self
    end.
Proof.
  unfold check_registration_url, fallback_due, url_is_set.
  destruct (registration_url (data self)) as [reg_url|]; [|reflexivity].
  destruct (Py.truthy reg_url); [|reflexivity].
  destruct (negb (is_set (re_enrollment_date _))); [|reflexivity].
  destruct (negb (is_set (new_registration_date _))); [|reflexivity]. cbn [andb].
  destruct (decide (reg_url ∈ visited_urls self)) as [Hv|Hv].
  - rewrite bool_decide_eq_false_2; [reflexivity|tauto].
  - now rewrite bool_decide_eq_true_2.
Qed.

(** The single visit: one request of the registration URL and, when the
    page comes back, the two keyword passes followed by the generic one. *)
Lemma scrape_registration_page_due self reg_url :
  fallback_due self = Some reg_url ->
  let self' := _scrape_registration_page self in
  let today := now (S (clock self)) in
  match fetch (clock self) reg_url with
  | Some soup =>
      log self' = (log self ++ [RegistrationPage reg_url true])%list
      /\ re_enrollment_date (data self')
         = search_keywords today (Py.lower (text soup)) re_enrollment_keywords
      /\ new_registration_date (data self')
         = or_previous
             (search_keywords today (Py.lower (text soup))
                new_registration_keywords_page)
             (search_general today (Py.lower (text soup)) general_keywords)
  | None => self' = record (RegistrationPage reg_url false) (tick self)
  end.
Proof.
  unfold fallback_due, _scrape_registration_page.
  destruct self as [u dmn b mp md v pc [f ru r0 n0 cp] ck lg].
  cbn [data registration_url re_enrollment_date new_registration_date clock
       visited_urls].
  destruct ru as [ru|]; [|discriminate].
  destruct (Py.truthy ru) eqn:Ht; [|discriminate].
  destruct r0; [discriminate|]. destruct n0; [discriminate|]. cbn [is_set negb andb].
  destruct (bool_decide _); [|discriminate]. intros [= ->]. cbv zeta.
  cbn [negb]. destruct (fetch ck reg_url) as [soup|]; [|reflexivity].
  cbn [clock tick record].
  generalize (search_keywords (now (S ck)) (Py.lower (text soup))
                re_enrollment_keywords).
  generalize (search_keywords (now (S ck)) (Py.lower (text soup))
                new_registration_keywords_page).
  generalize (search_general (now (S ck)) (Py.lower (text soup))
                general_keywords).
  intros o3 o2 o1. destruct o1, o2, o3; cbn; repeat split.
Qed.

(** C6 (as the code has it): [scrape] ends, and no registration URL is
    visited inside the loop.  When the loop is left without an exception,
    a registration URL is set, is not among the visited URLs and both
    dates are missing, that URL is requested exactly once and, if the page
    comes back, the dates are searched in it, with the generic-keyword pass
    last; in every other case, also when only one date is missing, nothing
    is requested.  When a field extractor raises, [scrape] raises from
    inside the loop and nothing is requested after it. *)
Theorem registration_page_is_visited_when_both_dates_are_missing
    crawl u maxp maxd f0 self0 :
  __init__ u maxp maxd f0 = Some self0 ->
  (exists fuel r, scrape fuel crawl self0 = Some r)
  /\ forall fuel r,
       scrape fuel crawl self0 = Some r ->
       match r with
       | Raised self =>
           crawl_loop fuel crawl self0 [(url self0, 0)] = Some (Raised self)
           /\ registration_page_visits (log self) = []
       | Returned self =>
           exists after_loop,
             crawl_loop fuel crawl self0 [(url self0, 0)]
             = Some (Returned after_loop)
             /\ registration_page_visits (log after_loop) = []
             /\ match fallback_due after_loop with
                | None => self = after_loop
                | Some reg_url =>
                    let today := now (S (clock after_loop)) in
                    match fetch (clock after_loop) reg_url with
                    | Some soup =>
                        registration_page_visits (log self) = [(reg_url, true)]
                        /\ re_enrollment_date (data self)
                           = search_keywords today (Py.lower (text soup))
                               re_enrollment_keywords
                        /\ new_registration_date (data self)
                           = or_previous
                               (search_keywords today (Py.lower (text soup))
                                  new_registration_keywords_page)
                               (search_general today (Py.lower (text soup))
                                  general_keywords)
                    | None =>
                        registration_page_visits (log self) = [(reg_url, false)]
                        /\ data self = data after_loop
                    end
                end
       end.
Proof.
  intros Hi. split; [apply scrape_terminates|].
  intros fuel r Hr.
  destruct (init_fields _ _ _ _ _ Hi) as (_ & _ & _ & _ & _ & Hl & _).
  unfold scrape in Hr.
  destruct (crawl_loop _ _ _ _) as [r'|] eqn:Hloop; [|discriminate].
  destruct (crawl_loop_reaches crawl self0 fuel self0 _ r' (reaches_start _ _) Hloop)
    as (self' & q' & Hreach & Hends).
  assert (registration_page_visits (log (result_self r')) = []) as Hnone.
  { pose proof (iteration_no_registration_page crawl self' q') as H.
    destruct r' as [r'|r']; cbn [ends_with] in Hends; rewrite Hends in H;
      cbn [outcome_self result_self] in *; rewrite H;
      rewrite (loop_reaches_no_registration_page crawl self0 self' q' Hreach);
      now rewrite Hl. }
  destruct r' as [r'|r']; injection Hr as <-; cbn [result_self] in Hnone;
    [|now split].
  exists r'. split; [reflexivity|]. split; [exact Hnone|].
  rewrite check_registration_url_due.
  destruct (fallback_due r') as [reg_url|] eqn:Hdue; [|reflexivity].
  pose proof (scrape_registration_page_due r' reg_url Hdue) as H. cbv zeta in H.
  cbv zeta. destruct (fetch (clock r') reg_url) as [soup|].
  - destruct H as (Hlog & Hre & Hnew).
    rewrite Hlog, registration_page_visits_app, Hnone. now repeat split.
  - rewrite H. cbn. rewrite registration_page_visits_app, Hnone. now split.
Qed.

(** *** Dates are rewritten by every processed page *)

(** A date found on a page replaces the date an earlier page gave. *)
Lemma extract_registration_info_replaces_date self soup d :
  search_keywords (now (clock self)) (Py.lower (text soup)) re_enrollment_keywords
  = Some d ->
  re_enrollment_date (data (_extract_registration_info self soup)) = Some d.
Proof.
  intros H. destruct (extract_registration_info_writes self soup) as (_ & -> & _).
  now rewrite H.
Qed.

(** *** Link prioritization *)

(** The test [_prioritize_links] applies to a link, with the dictionary of
    link texts it has built. *)
Definition related_in (link_texts : gmap string string) (link : string) : bool :=
  _is_registration_related link (default "" (link_texts !! link)).

Lemma partition_loop_filter link_texts links regs others :
  partition_loop link_texts links regs others
  = ((regs ++ List.filter (related_in link_texts) links)%list,
     (others ++ List.filter (fun l => negb (related_in link_texts l)) links)%list).
Proof using Type.
  revert regs others. induction links as [|link rest IH]; intros regs others.
  - cbn. now rewrite !app_nil_r.
  - cbn [partition_loop List.filter]. cbv zeta. fold (related_in link_texts link).
    destruct (related_in link_texts link); rewrite IH; cbn [negb];
      now rewrite <- ?app_assoc.
Qed.

Lemma prioritize_links_filter self links soup out :
  _prioritize_links self links soup = Some out ->
  exists link_texts,
    link_texts_loop self (anchors soup) ∅ = Some link_texts
    /\ out = (List.filter (related_in link_texts) links
              ++ List.filter (fun l => negb (related_in link_texts l)) links)%list.
Proof using Type.
  unfold _prioritize_links.
  destruct (link_texts_loop self (anchors soup) ∅) as [link_texts|]; [|discriminate].
  cbn. rewrite partition_loop_filter. cbn. intros [= <-]. now exists link_texts.
Qed.

Lemma filter_partition_elem (f : string -> bool) l x :
  x ∈ (List.filter f l ++ List.filter (fun y => negb (f y)) l)%list <-> x ∈ l.
Proof using Type.
  rewrite elem_of_app, !list_elem_of_In, !filter_In. split.
  - intros [[H _]|[H _]]; exact H.
  - intros H. destruct (f x) eqn:Hf; [left|right]; (split; [exact H|]);
      reflexivity.
Qed.



(** *** URL normalization *)

Lemma append_cons c a b : String c a +:+ b = String c (a +:+ b).
Proof. reflexivity. Qed.

Lemma append_nil_l b : "" +:+ b = b.
Proof. reflexivity. Qed.

Lemma has_char_app p a b :
  Py.has_char p (a +:+ b) = Py.has_char p a || Py.has_char p b.
Proof.
  induction a as [|c a IH]; [reflexivity|].
  rewrite append_cons. cbn. now rewrite IH, orb_assoc.
Qed.

Lemma break_append p s :
  s = (Py.break p s).1 +:+ (Py.break p s).2.
Proof.
  induction s as [|c s IH]; [reflexivity|]. cbn.
  destruct (p c); [reflexivity|].
  destruct (Py.break p s) as [a b]. cbn in *. rewrite append_cons. now f_equal.
Qed.

Lemma break_fst_clean p s : Py.has_char p (Py.break p s).1 = false.
Proof.
  induction s as [|c s IH]; [reflexivity|]. cbn.
  destruct (p c) eqn:Hc; [reflexivity|].
  destruct (Py.break p s) as [a b]. cbn in *. now rewrite Hc.
Qed.

Definition starts_with_char (p : ascii -> bool) (s : string) : Prop :=
  match s with EmptyString => True | String c _ => p c = true end.

Lemma break_snd_starts p s : starts_with_char p (Py.break p s).2.
Proof.
  induction s as [|c s IH]; [exact I|]. cbn.
  destruct (p c) eqn:Hc; [exact Hc|].
  now destruct (Py.break p s) as [a b].
Qed.

Lemma break_app p a b :
  Py.has_char p a = false -> starts_with_char p b ->
  Py.break p (a +:+ b) = (a, b).
Proof.
  intros Ha Hb. induction a as [|c a IH].
  - rewrite append_nil_l. destruct b as [|c b]; [reflexivity|]. cbn in *. now rewrite Hb.
  - rewrite append_cons. cbn in *. apply orb_false_iff in Ha as [Hc Ha]. rewrite Hc.
    now rewrite (IH Ha).
Qed.

Lemma rstrip_prefix p s : exists t, s = Py.rstrip p s +:+ t.
Proof.
  induction s as [|c s [t IH]]; [now exists ""|]. cbn.
  destruct (Py.rstrip p s) as [|d r] eqn:Hr.
  - destruct (p c).
    + now exists (String c s).
    + exists s. rewrite append_cons, append_nil_l. reflexivity.
  - exists t. rewrite append_cons. f_equal. exact IH.
Qed.

Lemma rstrip_cons p c s :
  Py.rstrip p (String c s)
  = match Py.rstrip p s with
    | EmptyString => if p c then EmptyString else String c EmptyString
    | r' => String c r'
    end.
Proof. reflexivity. Qed.

Lemma rstrip_idem p s : Py.rstrip p (Py.rstrip p s) = Py.rstrip p s.
Proof.
  induction s as [|c s IH]; [reflexivity|]. rewrite rstrip_cons.
  destruct (Py.rstrip p s) as [|d r] eqn:Hr.
  - destruct (p c) eqn:Hc; [reflexivity|]. cbn. now rewrite Hc.
  - rewrite rstrip_cons, IH. reflexivity.
Qed.

Lemma has_char_prefix p a t : Py.has_char p (a +:+ t) = false -> Py.has_char p a = false.
Proof. rewrite has_char_app. now intros [? _]%orb_false_iff. Qed.

Lemma has_char_rstrip p q s :
  Py.has_char p s = false -> Py.has_char p (Py.rstrip q s) = false.
Proof.
  destruct (rstrip_prefix q s) as [t Ht]. intros H. rewrite Ht in H.
  now apply has_char_prefix in H.
Qed.

Lemma rstrip_starts p q s :
  starts_with_char p s -> starts_with_char p (Py.rstrip q s).
Proof.
  destruct (rstrip_prefix q s) as [t Ht].
  destruct (Py.rstrip q s) as [|c r]; [easy|].
  rewrite Ht, append_cons. easy.
Qed.

Lemma remove_chars_clean p s : Py.has_char p (Py.remove_chars p s) = false.
Proof.
  induction s as [|c s IH]; [reflexivity|]. cbn.
  destruct (p c) eqn:Hc; [exact IH|]. cbn. now rewrite Hc.
Qed.

Lemma remove_chars_id p s : Py.has_char p s = false -> Py.remove_chars p s = s.
Proof.
  induction s as [|c s IH]; [reflexivity|]. cbn.
  intros [Hc Hs]%orb_false_iff. rewrite Hc. now rewrite IH.
Qed.

Lemma has_char_drop p n s : Py.has_char p s = false -> Py.has_char p (Py.drop n s) = false.
Proof.
  revert s. induction n as [|n IH]; intros [|c s]; cbn; try easy.
  intros [_ Hs]%orb_false_iff. now apply IH.
Qed.

Lemma has_char_take p n s : Py.has_char p s = false -> Py.has_char p (Py.take n s) = false.
Proof.
  revert s. induction n as [|n IH]; intros [|c s]; cbn; try easy.
  intros [Hc Hs]%orb_false_iff. rewrite Hc. now apply IH.
Qed.

Lemma has_char_break p q s :
  Py.has_char p s = false ->
  Py.has_char p (Py.break q s).1 = false /\ Py.has_char p (Py.break q s).2 = false.
Proof.
  intros H. rewrite (break_append q s), has_char_app in H.
  now apply orb_false_iff in H.
Qed.

Lemma split1_break c s :
  Py.split1 c s = ((Py.break (Py.is_char c) s).1, Py.drop 1 (Py.break (Py.is_char c) s).2).
Proof. unfold Py.split1. now destruct (Py.break _ s). Qed.

Lemma break_clean p s : Py.has_char p s = false -> Py.break p s = (s, EmptyString).
Proof.
  induction s as [|c s IH]; [reflexivity|]. cbn.
  intros [Hc Hs]%orb_false_iff. rewrite Hc. now rewrite IH.
Qed.

(** Splitting at a character that does not occur leaves the text whole. *)
Lemma split1_or_whole c s :
  (if Py.has_char (Py.is_char c) s then Py.split1 c s else (s, EmptyString))
  = Py.split1 c s.
Proof.
  destruct (Py.has_char (Py.is_char c) s) eqn:H; [reflexivity|].
  rewrite split1_break, break_clean; [reflexivity|exact H].
Qed.

Lemma take_app a b : Py.take (String.length a) (a +:+ b) = a.
Proof. induction a as [|c a IH]; [now destruct b|]. rewrite append_cons. cbn. now rewrite IH. Qed.

Lemma drop_app a b : Py.drop (String.length a) (a +:+ b) = b.
Proof. induction a as [|c a IH]; [reflexivity|]. rewrite append_cons. cbn. exact IH. Qed.

Lemma find_char_app c a b :
  Py.has_char (Py.is_char c) a = false ->
  Py.find (String c EmptyString) (a +:+ String c b) = Some (String.length a).
Proof.
  intros Ha. induction a as [|d a IH].
  - rewrite append_nil_l. cbn. unfold Py.is_char. now rewrite Ascii.eqb_refl.
  - rewrite append_cons. cbn in Ha. apply orb_false_iff in Ha as [Hd Ha].
    cbn. unfold Py.is_char in Hd. rewrite Hd. cbn. now rewrite (IH Ha).
Qed.

(* ---- characters ---- *)

Ltac all_chars_cases c :=
  destruct c as [[] [] [] [] [] [] [] []]; vm_compute; try reflexivity;
  try (intros; discriminate); auto.

Lemma lower_char_idem c : Py.lower_char (Py.lower_char c) = Py.lower_char c.
Proof. all_chars_cases c. Qed.

Lemma scheme_char_lower c :
  Urllib.scheme_char c = true -> Urllib.scheme_char (Py.lower_char c) = true.
Proof. all_chars_cases c. Qed.

Lemma alpha_lower c :
  Py.is_ascii_alpha c = true -> Py.is_ascii_alpha (Py.lower_char c) = true.
Proof. all_chars_cases c. Qed.

Lemma scheme_char_plain c :
  Urllib.scheme_char c = true ->
  Urllib.unsafe_char c = false /\ Py.is_char ":" c = false.
Proof. all_chars_cases c. Qed.

Lemma alpha_not_c0 c :
  Py.is_ascii_alpha c = true -> Urllib.c0_or_space c = false.
Proof. all_chars_cases c. Qed.

Lemma lower_idem s : Py.lower (Py.lower s) = Py.lower s.
Proof.
  induction s as [|c s IH]; [reflexivity|]. cbn. now rewrite lower_char_idem, IH.
Qed.

Lemma all_scheme_lower s :
  Py.all_chars Urllib.scheme_char s = true ->
  Py.all_chars Urllib.scheme_char (Py.lower s) = true.
Proof.
  induction s as [|c s IH]; [reflexivity|]. cbn.
  intros [Hc Hs]%andb_true_iff. now rewrite scheme_char_lower, IH.
Qed.

Lemma all_chars_exclude (p q : ascii -> bool) s :
  (forall c, p c = true -> q c = false) ->
  Py.all_chars p s = true -> Py.has_char q s = false.
Proof.
  intros Hpq. induction s as [|c s IH]; [reflexivity|]. cbn.
  intros [Hc Hs]%andb_true_iff. now rewrite (Hpq c Hc), IH.
Qed.

Lemma append_nil_r s : s +:+ "" = s.
Proof. induction s as [|c s IH]; [reflexivity|]. rewrite append_cons. now f_equal. Qed.

Lemma drop_app_cons a c b : Py.drop (S (String.length a)) (a +:+ String c b) = b.
Proof.
  induction a as [|d a IH]; [reflexivity|]. rewrite append_cons. exact IH.
Qed.

(* ---- split_scheme ---- *)

Lemma split_scheme_cases s :
  Urllib.split_scheme s = (EmptyString, s)
  \/ exists n c0 r,
       s = String c0 r
       /\ Py.is_ascii_alpha c0 = true
       /\ Py.all_chars Urllib.scheme_char (Py.take (S n) s) = true
       /\ Urllib.split_scheme s = (Py.lower (Py.take (S n) s), Py.drop (S (S n)) s).
Proof.
  unfold Urllib.split_scheme.
  destruct (Py.find ":" s) as [[|n]|]; [now left| |now left].
  destruct s as [|c0 r]; [now left|].
  destruct (Py.is_ascii_alpha c0) eqn:Ha; [|now left].
  destruct (Py.all_chars _ _) eqn:Hs; [|now left].
  right. now exists n, c0, r.
Qed.

Lemma split_scheme_rest_clean p s :
  Py.has_char p s = false -> Py.has_char p (Urllib.split_scheme s).2 = false.
Proof.
  intros H. destruct (split_scheme_cases s) as [->|(n & c0 & r & _ & _ & _ & ->)];
    [exact H|]. cbn [snd]. now apply has_char_drop.
Qed.

Lemma split_scheme_scheme s :
  (Urllib.split_scheme s).1 <> EmptyString ->
  exists c0 r,
    (Urllib.split_scheme s).1 = String c0 r
    /\ Py.is_ascii_alpha c0 = true
    /\ Py.all_chars Urllib.scheme_char (Urllib.split_scheme s).1 = true
    /\ Py.lower (Urllib.split_scheme s).1 = (Urllib.split_scheme s).1.
Proof.
  destruct (split_scheme_cases s) as [->|(n & c0 & r & -> & Ha & Hs & ->)]; [easy|].
  intros _. cbn [fst]. rewrite lower_idem.
  exists (Py.lower_char c0), (Py.lower (Py.take n r)).
  split; [reflexivity|]. split; [now apply alpha_lower|].
  split; [now apply all_scheme_lower|reflexivity].
Qed.

Lemma append_assoc a b c : (a +:+ b) +:+ c = a +:+ (b +:+ c).
Proof.
  induction a as [|d a IH]; [reflexivity|]. rewrite !append_cons. now f_equal.
Qed.

Lemma last_segment_break_append url :
  url = (Urllib.last_segment_break url).1 +:+ (Urllib.last_segment_break url).2.
Proof.
  induction url as [|c r IH]; [reflexivity|]. cbn.
  destruct (Py.has_char (Py.is_char "/") r); [|reflexivity].
  destruct (Urllib.last_segment_break r) as [dir seg]. cbn in *.
  rewrite append_cons. now f_equal.
Qed.

Lemma splitparams_prefix url : exists t, url = (Urllib.splitparams url).1 +:+ t.
Proof.
  unfold Urllib.splitparams.
  pose proof (last_segment_break_append url) as H.
  destruct (Urllib.last_segment_break url) as [dir seg]. cbn [fst snd] in H.
  destruct (Py.has_char (Py.is_char ";") seg); [|exists ""; now rewrite append_nil_r].
  rewrite split1_break. cbn [fst].
  exists (Py.break (Py.is_char ";") seg).2.
  rewrite append_assoc, <- break_append. exact H.
Qed.

Lemma starts_prefix p a t :
  starts_with_char p (a +:+ t) -> a <> EmptyString -> starts_with_char p a.
Proof. destruct a as [|c a]; [easy|]. now rewrite append_cons. Qed.

Definition render (sch loc pth qry : string) : string :=
  let normalized := sch +:+ "://" +:+ loc +:+ pth in
  if Py.truthy qry then normalized +:+ "?" +:+ qry else normalized.

(** What a successful parse with a scheme and a network location tells
    about the components. *)
Lemma urlparse_facts u p :
  urlparse u = Some p ->
  Urllib.netloc p <> EmptyString ->
  Py.has_char Urllib.netloc_delim (Urllib.netloc p) = false
  /\ netloc_ok (Urllib.netloc p) = true
  /\ starts_with_char slash (Urllib.path p)
  /\ Py.has_char (Py.is_char "#") (Urllib.path p) = false
  /\ Py.has_char (Py.is_char "?") (Urllib.path p) = false
  /\ Py.has_char (Py.is_char "#") (Urllib.query p) = false
  /\ Py.has_char Urllib.unsafe_char (Urllib.netloc p) = false
  /\ Py.has_char Urllib.unsafe_char (Urllib.path p) = false
  /\ Py.has_char Urllib.unsafe_char (Urllib.query p) = false
  /\ (Urllib.scheme p <> EmptyString ->
      exists c0 r,
        Urllib.scheme p = String c0 r
        /\ Py.is_ascii_alpha c0 = true
        /\ Py.all_chars Urllib.scheme_char (Urllib.scheme p) = true
        /\ Py.lower (Urllib.scheme p) = Urllib.scheme p).
Proof.
  unfold Urllib.urlparse.
  pose proof (remove_chars_clean Urllib.unsafe_char
                (Py.lstrip Urllib.c0_or_space u)) as Hclean.
  fold (Urllib.sanitize u) in Hclean.
  pose proof (split_scheme_scheme (Urllib.sanitize u)) as Hsch.
  pose proof (split_scheme_rest_clean _ _ Hclean) as Hr1.
  destruct (Urllib.split_scheme (Urllib.sanitize u)) as [sch r1].
  cbn [fst snd] in Hsch, Hr1.
  destruct (Py.startswith "//" r1) eqn:Hss.
  2:{ cbn [Py.truthy andb]. rewrite split1_or_whole.
      destruct (Py.split1 "#" r1) as [r3 frag]. rewrite split1_or_whole.
      destruct (Py.split1 "?" r3) as [pth0 qry].
      match goal with |- context [if ?b then Urllib.splitparams ?x else ?y] =>
        destruct (if b then Urllib.splitparams x else y) as [pth prm] end.
      now intros [= <-]. }
  pose proof (break_fst_clean Urllib.netloc_delim (Py.drop 2 r1)) as Hloc.
  pose proof (break_snd_starts Urllib.netloc_delim (Py.drop 2 r1)) as Hr2s.
  pose proof (has_char_break Urllib.unsafe_char Urllib.netloc_delim (Py.drop 2 r1)
                (has_char_drop _ 2 _ Hr1)) as [Hlu Hr2u].
  destruct (Py.break Urllib.netloc_delim (Py.drop 2 r1)) as [loc r2].
  cbn [fst snd] in Hloc, Hr2s, Hlu, Hr2u.
  destruct (Py.truthy loc && negb (netloc_ok loc)) eqn:Hok; [discriminate|].
  rewrite split1_or_whole, (split1_break "#" r2).
  pose proof (break_fst_clean (Py.is_char "#") r2) as Hr3h.
  pose proof (break_append (Py.is_char "#") r2) as Hr2a.
  pose proof (has_char_break Urllib.unsafe_char (Py.is_char "#") r2 Hr2u) as [Hr3u _].
  generalize dependent (Py.break (Py.is_char "#") r2). intros [r3 r3'].
  cbn [fst snd]. intros Hr3h Hr2a Hr3u.
  rewrite split1_or_whole, (split1_break "?" r3).
  pose proof (break_fst_clean (Py.is_char "?") r3) as Hp0q.
  pose proof (break_append (Py.is_char "?") r3) as Hr3a.
  pose proof (has_char_break Urllib.unsafe_char (Py.is_char "?") r3 Hr3u) as [Hp0u Hq0u].
  pose proof (has_char_break (Py.is_char "#") (Py.is_char "?") r3 Hr3h) as [Hp0h Hq0h].
  generalize dependent (Py.break (Py.is_char "?") r3). intros [pth0 q0].
  cbn [fst snd]. intros Hp0q Hr3a Hp0u Hq0u Hp0h Hq0h.
  assert (exists t, pth0 = (if Urllib.in_list sch Urllib.uses_params
                               && Py.has_char (Py.is_char ";") pth0
                            then Urllib.splitparams pth0
                            else (pth0, EmptyString)).1 +:+ t) as [t Ht].
  { destruct (Urllib.in_list sch Urllib.uses_params
              && Py.has_char (Py.is_char ";") pth0); [apply splitparams_prefix|].
    exists "". cbn. now rewrite append_nil_r. }
  match goal with |- context [if ?b then Urllib.splitparams ?x else ?y] =>
    destruct (if b then Urllib.splitparams x else y) as [pth prm] end.
  cbn [fst] in Ht.
  intros [= <-]. cbn [Urllib.netloc Urllib.path Urllib.query Urllib.scheme].
  intros Hne.
  assert (Py.truthy loc = true) as Htl by (destruct loc; easy).
  rewrite Htl in Hok. cbn in Hok. apply negb_false_iff in Hok.
  rewrite Ht in Hp0q, Hp0u, Hp0h.
  apply has_char_prefix in Hp0q, Hp0u, Hp0h.
  repeat (split; [first [assumption | idtac]|]); try assumption.
  - destruct pth as [|c pth']; [exact I|].
    subst pth0 r3 r2. rewrite !append_cons in Hr2s.
    cbn [starts_with_char] in Hr2s |- *. cbn [Py.has_char] in Hp0q, Hp0h.
    apply orb_false_iff in Hp0q as [Hq _]. apply orb_false_iff in Hp0h as [Hh _].
    unfold Urllib.netloc_delim in Hr2s. unfold slash.
    rewrite Hq, Hh in Hr2s. now rewrite !orb_false_r in Hr2s.
  - exact (has_char_drop _ 1 q0 Hq0h).
  - exact (has_char_drop _ 1 q0 Hq0u).
Qed.


Lemma lstrip_id p c r : p c = false -> Py.lstrip p (String c r) = String c r.
Proof. intros H. cbn. now rewrite H. Qed.

(** Parsing back a text assembled from a scheme, a network location, a
    path without parameters and a query gives these components again. *)
Lemma urlparse_render sch loc pth qry c0 r :
  sch = String c0 r -> Py.is_ascii_alpha c0 = true ->
  Py.all_chars Urllib.scheme_char sch = true -> Py.lower sch = sch ->
  loc <> EmptyString -> netloc_ok loc = true ->
  Py.has_char Urllib.netloc_delim loc = false ->
  starts_with_char slash pth ->
  Py.has_char (Py.is_char "#") pth = false ->
  Py.has_char (Py.is_char "?") pth = false ->
  Py.has_char (Py.is_char ";") pth = false ->
  Py.has_char (Py.is_char "#") qry = false ->
  Py.has_char Urllib.unsafe_char loc = false ->
  Py.has_char Urllib.unsafe_char pth = false ->
  Py.has_char Urllib.unsafe_char qry = false ->
  urlparse (render sch loc pth qry)
  = Some {| Urllib.scheme := sch; Urllib.netloc := loc; Urllib.path := pth;
            Urllib.params := EmptyString; Urllib.query := qry;
            Urllib.fragment := EmptyString |}.
Proof.
  intros -> Ha Hall Hlow Hne Hok Hld Hps Hph Hpq Hpp Hqh Hlu Hpu Hqu.
  set (sch := String c0 r) in *.
  set (tail := if Py.truthy qry then pth +:+ "?" +:+ qry else pth).
  assert (render sch loc pth qry = sch +:+ String ":" ("//" +:+ loc +:+ tail)) as Hr.
  { unfold render, tail. destruct (Py.truthy qry); cbv zeta;
      now rewrite ?append_assoc. }
  assert (Py.has_char Urllib.unsafe_char tail = false) as Htu.
  { unfold tail. destruct (Py.truthy qry); [|exact Hpu].
    rewrite !has_char_app, Hpu, Hqu. reflexivity. }
  assert (Py.has_char (Py.is_char "#") tail = false) as Hth.
  { unfold tail. destruct (Py.truthy qry); [|exact Hph].
    rewrite !has_char_app, Hph, Hqh. reflexivity. }
  assert (starts_with_char Urllib.netloc_delim tail) as Hts.
  { unfold tail. destruct pth as [|c pth'].
    - destruct (Py.truthy qry); [reflexivity|exact I].
    - assert (Urllib.netloc_delim c = true) as Hc.
      { cbn [starts_with_char] in Hps. unfold slash in Hps.
        unfold Urllib.netloc_delim. now rewrite Hps. }
      destruct (Py.truthy qry); [rewrite append_cons|]; exact Hc. }
  pose proof (all_chars_exclude _ Urllib.unsafe_char sch
                (fun c H => proj1 (scheme_char_plain c H)) Hall) as Hsu.
  pose proof (all_chars_exclude _ (Py.is_char ":") sch
                (fun c H => proj2 (scheme_char_plain c H)) Hall) as Hsc.
  unfold Urllib.urlparse.
  assert (Urllib.sanitize (render sch loc pth qry) = render sch loc pth qry) as ->.
  { unfold Urllib.sanitize. rewrite Hr. unfold sch at 1. rewrite append_cons.
    rewrite lstrip_id by now apply alpha_not_c0.
    rewrite <- append_cons. fold sch. apply remove_chars_id.
    rewrite has_char_app, Hsu. cbn [orb].
    change (Py.has_char Urllib.unsafe_char ("://" +:+ loc +:+ tail) = false).
    now rewrite !has_char_app, Hlu, Htu. }
  assert (Urllib.split_scheme (render sch loc pth qry)
          = (sch, "//" +:+ loc +:+ tail)) as ->.
  { unfold Urllib.split_scheme. rewrite Hr.
    rewrite (find_char_app ":" sch _ Hsc).
    change (String.length sch) with (S (String.length r)). cbv beta iota.
    change (S (String.length r)) with (String.length sch).
    rewrite take_app, drop_app_cons, Hall, Hlow.
    unfold sch at 1. rewrite append_cons. cbv beta iota. now rewrite Ha. }
  change (Py.startswith "//" ("//" +:+ loc +:+ tail)) with true.
  change (Py.drop 2 ("//" +:+ loc +:+ tail)) with (loc +:+ tail).
  rewrite (break_app _ loc tail Hld Hts).
  assert (Py.truthy loc = true) as -> by (destruct loc; easy).
  rewrite Hok. cbn [negb andb]. rewrite Hth.
  assert ((if Py.has_char (Py.is_char "?") tail then Py.split1 "?" tail
           else (tail, EmptyString)) = (pth, qry)) as ->.
  { rewrite split1_or_whole, split1_break. unfold tail.
    destruct qry as [|q qry']; cbn [Py.truthy].
    - now rewrite (break_clean _ pth Hpq).
    - change (pth +:+ "?" +:+ String q qry') with (pth +:+ String "?" (String q qry')).
      rewrite (break_app _ pth (String "?" (String q qry')) Hpq); easy. }
  now rewrite Hpp, andb_false_r.
Qed.

(** Normalizing twice is normalizing once, for a URL with a scheme and a
    network location whose path has no semicolon. *)
Lemma normalize_url_idempotent u p v :
  urlparse u = Some p ->
  Urllib.scheme p <> EmptyString -> Urllib.netloc p <> EmptyString ->
  Py.has_char (Py.is_char ";") (Urllib.path p) = false ->
  _normalize_url u = Some v ->
  _normalize_url v = Some v.
Proof.
  intros Hp Hs Hn Hsemi. unfold _normalize_url at 1. rewrite Hp. cbn [mbind option_bind].
  fold (render (Urllib.scheme p) (Urllib.netloc p)
          (Py.rstrip slash (Urllib.path p)) (Urllib.query p)).
  intros [= <-].
  destruct (urlparse_facts u p Hp Hn)
    as (Hld & Hok & Hps & Hph & Hpq & Hqh & Hlu & Hpu & Hqu & Hsch).
  destruct (Hsch Hs) as (c0 & r & Hc & Ha & Hall & Hlow).
  unfold _normalize_url.
  rewrite (urlparse_render _ _ _ _ c0 r Hc Ha Hall Hlow Hn Hok Hld);
    try (now apply has_char_rstrip); try assumption.
  - cbn [mbind option_bind Urllib.scheme Urllib.netloc Urllib.path Urllib.query].
    now rewrite rstrip_idem.
  - now apply rstrip_starts.
Qed.

(** *** The queue of the crawl *)

(** One evaluation of the loop either leaves the bookkeeping alone or
    makes one counted request of the head of the queue. *)
Lemma iteration_static crawl self q :
  same_bookkeeping self (outcome_self (scrape_iteration crawl self q))
  \/ exists u depth ok s,
       same_bookkeeping
         ((if ok : bool then with_data (append_crawled_page u) else id)
            (record (Goto u depth ok) (tick (mark_visited u self)))) s
       /\ outcome_self (scrape_iteration crawl self q) = s
       /\ (u, depth) ∈ q /\ u ∉ visited_urls self.
Proof.
  destruct (iteration_cases crawl self q)
    as [[_ [->|(e & rest & -> & ->)]]
       |(u & depth & rest & -> & Hnv & Hlt & Hle & Hcase)].
  - left. apply same_bookkeeping_refl.
  - left. apply same_bookkeeping_refl.
  - right. destruct Hcase as [[_ ->]|(soup & links & Hf & _ & ->)].
    + exists u, depth, false. eexists. rewrite finish_self.
      split; [apply same_bookkeeping_refl|]. split; [reflexivity|].
      split; [apply list_elem_of_here|exact Hnv].
    + exists u, depth, true. eexists. cbv zeta.
      split; [|split; [reflexivity|split; [apply list_elem_of_here|exact Hnv]]].
      destruct (Py.truthy (text soup));
        [rewrite outcome_processed; apply processed_same
        |rewrite finish_self; apply same_bookkeeping_refl].
Qed.

(** The fields that [__init__] sets and no step of the loop writes. *)
Lemma iteration_fixed crawl self q :
  let self' := outcome_self (scrape_iteration crawl self q) in
  url self' = url self /\ domain self' = domain self
  /\ base_url self' = base_url self /\ max_pages self' = max_pages self
  /\ max_depth self' = max_depth self.
Proof.
  cbv zeta.
  destruct (iteration_static crawl self q)
    as [H|(u & depth & ok & s & H & -> & _)].
  - destruct H as (-> & -> & -> & -> & -> & _). repeat split.
  - destruct H as (<- & <- & <- & <- & <- & _). destruct ok; repeat split.
Qed.

Lemma loop_reaches_fixed crawl self0 self q :
  loop_reaches crawl self0 self q ->
  url self = url self0 /\ domain self = domain self0
  /\ base_url self = base_url self0 /\ max_pages self = max_pages self0
  /\ max_depth self = max_depth self0.
Proof.
  induction 1 as [|self q self' q' _ IH Hstep]; [repeat split|].
  pose proof (iteration_fixed crawl self q) as H. cbv zeta in H.
  rewrite Hstep in H. cbn [outcome_self] in H.
  destruct IH as (<- & <- & <- & <- & <-). exact H.
Qed.

(** The loop of [enqueue_links] appends, in the order of the links, the
    ones that are not visited, one level below the page. *)
Lemma enqueue_links_filter self depth links to_crawl :
  enqueue_links self depth links to_crawl
  = (to_crawl
     ++ ((fun link => (link, depth + 1))
           <$> filter (fun link => link ∉ visited_urls self) links))%list.
Proof.
  revert to_crawl. induction links as [|link rest IH]; intros to_crawl.
  - cbn. now rewrite app_nil_r.
  - cbn [enqueue_links]. destruct (decide (link ∈ visited_urls self)) as [Hv|Hv].
    + rewrite IH, filter_cons_False; [reflexivity|]. now intros H.
    + rewrite IH, filter_cons_True by exact Hv. cbn. now rewrite <- app_assoc.
Qed.

Lemma process_page_queue crawl self current_url depth soup links to_crawl :
  (process_page crawl self current_url depth soup links to_crawl).2
  = if crawl && (depth <? max_depth self)
    then enqueue_links
           (process_page crawl self current_url depth soup links to_crawl).1
           depth links to_crawl
    else to_crawl.
Proof.
  pose proof (process_page_same crawl self current_url depth soup links to_crawl)
    as (_ & _ & _ & _ & Hd & _).
  unfold process_page in *. cbn [fst snd] in *. now rewrite <- Hd.
Qed.

(** What [_crawl_page] hands to the loop: the links of the page, taken
    with the page already marked as visited, then prioritized. *)
Lemma crawl_page_links self u depth s soup links :
  _crawl_page self u depth = (s, Some soup, links) ->
  exists discovered,
    _extract_internal_links (mark_visited u self) soup u = Some discovered
    /\ _prioritize_links (mark_visited u self) discovered soup = Some links.
Proof.
  unfold _crawl_page.
  destruct (decide _); [discriminate|].
  destruct (_ <=? _); [discriminate|].
  destruct (_ <? _); [discriminate|].
  cbn [clock mark_visited].
  destruct (fetch (clock self) u) as [soup0|]; cbn [mbind option_bind]; [|discriminate].
  destruct (_extract_internal_links _ soup0 u) as [discovered|] eqn:He;
    cbn [mbind option_bind]; [|discriminate].
  destruct (_prioritize_links _ discovered soup0) as [pl|] eqn:Hp;
    cbn [mbind option_bind]; [|discriminate].
  intros [= _ <- <-]. now exists discovered.
Qed.

Lemma finish_next self q self' q' :
  finish self q = Next self' q' ->
  self' = self /\ q' = q /\ both_dates_found self = false.
Proof.
  unfold finish. destruct (both_dates_found self); [discriminate|].
  intros H. now inversion H.
Qed.

(** How the queue changes over one evaluation of the loop that goes on:
    the head is taken off, and the links of a processed page are appended
    when crawling is on and the page is above the depth limit. *)
Lemma iteration_queue crawl self q self' q' :
  scrape_iteration crawl self q = Next self' q' ->
  exists u depth rest,
    q = (u, depth) :: rest
    /\ (q' = rest
        \/ (crawl = true /\ depth < max_depth self /\ (u ∉ visited_urls self)
            /\ exists s soup links,
                 _crawl_page self u depth = (s, Some soup, links)
                 /\ q' = enqueue_links self' depth links rest)).
Proof.
  intros Hstep.
  destruct (iteration_cases crawl self q)
    as [[_ [H|(e & rest & -> & H)]]
       |(u & depth & rest & -> & Hnv & Hlt & Hle & Hcase)].
  - rewrite H in Hstep. discriminate.
  - rewrite H in Hstep. injection Hstep as <- <-. destruct e as [u depth].
    exists u, depth, rest. split; [reflexivity|now left].
  - exists u, depth, rest. split; [reflexivity|].
    destruct Hcase as [[_ H]|(soup & links & Hf & Hc & H)].
    + rewrite H in Hstep. apply finish_next in Hstep as (_ & -> & _). now left.
    + cbv zeta in H. rewrite H in Hstep. clear H.
      destruct (Py.truthy (text soup)).
      * match type of Hstep with context [extract_basic_data ?s ?v ?p] =>
          destruct (extract_basic_data_same s v p) as (_ & _ & _ & _ & Hmd & _);
          destruct (extract_basic_data s v p) as [s2 returned] end.
        cbn [fst snd] in Hstep, Hmd. destruct returned; [|discriminate].
        apply finish_next in Hstep as (-> & -> & _).
        rewrite process_page_queue, <- Hmd.
        cbn [max_depth with_data record tick mark_visited].
        destruct crawl; [|now left]. cbn [andb].
        destruct (depth <? max_depth self) eqn:Hd; [|now left].
        right. split; [reflexivity|]. split; [lia|]. split; [exact Hnv|].
        eexists _, soup, links. split; [exact Hc|reflexivity].
      * apply finish_next in Hstep as (_ & -> & _). now left.
Qed.

Lemma iteration_attempts crawl self q :
  let self' := outcome_self (scrape_iteration crawl self q) in
  (attempts (log self') = attempts (log self)
   /\ visited_urls self' = visited_urls self)
  \/ exists u depth rest ok,
       q = (u, depth) :: rest /\ (u ∉ visited_urls self)
       /\ attempts (log self') = (attempts (log self) ++ [(u, depth, ok)])%list
       /\ visited_urls self' = {[u]} ∪ visited_urls self.
Proof.
  cbv zeta.
  destruct (iteration_cases crawl self q)
    as [[_ [->|(e & rest & -> & ->)]]
       |(u & depth & rest & -> & Hnv & Hlt & Hle & Hcase)].
  - now left.
  - now left.
  - right. destruct Hcase as [[_ ->]|(soup & links & Hf & _ & ->)].
    + exists u, depth, rest, false. rewrite finish_self. cbn.
      rewrite attempts_app. now repeat split.
    + exists u, depth, rest, true. cbv zeta.
      assert (attempts (log (with_data (append_crawled_page u)
                (record (Goto u depth true) (tick (mark_visited u self)))))
              = (attempts (log self) ++ [(u, depth, true)])%list) as Ha.
      { cbn. now rewrite attempts_app. }
      destruct (Py.truthy (text soup)).
      * rewrite outcome_processed.
        match goal with |- context [processed ?c ?s ?v ?d ?p ?l ?t] =>
          destruct (processed_same c s v d p l t)
            as (_ & _ & _ & _ & _ & Hv & _ & _ & Hat) end.
        rewrite <- Hat, <- Hv, Ha. now repeat split.
      * rewrite finish_self, Ha. now repeat split.
Qed.

(** *** Termination, whatever the fuel *)

Lemma crawl_loop_more_fuel fuel k crawl self q r :
  crawl_loop fuel crawl self q = Some r ->
  crawl_loop (fuel + k) crawl self q = Some r.
Proof.
  revert self q. induction fuel as [|fuel IH]; intros self q; [discriminate|].
  cbn [crawl_loop Nat.add].
  destruct (scrape_iteration crawl self q) as [self' q'|r'|r']; [apply IH|easy..].
Qed.

(** An evaluation of the loop raises only from the field extractors, on
    the first counted page, right after the page came back. *)
Lemma iteration_raise crawl self q self' :
  scrape_iteration crawl self q = Raise self' ->
  pages_crawled self = 0
  /\ exists u depth rest soup,
       q = (u, depth) :: rest
       /\ fetch (clock self) u = Some soup
       /\ Py.truthy (text soup) = true
       /\ (extract_main_page_data soup (fields (data self))).2 = false
       /\ log self' = (log self ++ [Goto u depth true; MainPageData u])%list.
Proof.
  intros Hstep.
  destruct (iteration_cases crawl self q)
    as [[_ [H|(e & rest & -> & H)]]
       |(u & depth & rest & -> & Hnv & Hlt & Hle & Hcase)];
    [rewrite H in Hstep; discriminate..|].
  destruct Hcase as [[_ H]|(soup & links & Hf & Hc & H)].
  { rewrite H in Hstep. unfold finish in Hstep.
    now destruct (both_dates_found _). }
  cbv zeta in H. rewrite H in Hstep. clear H.
  destruct (Py.truthy (text soup)) eqn:Ht;
    [|unfold finish in Hstep; now destruct (both_dates_found _)].
  match type of Hstep with context [extract_basic_data ?s ?v ?p] =>
    destruct (extract_basic_data_writes s v p) as (Hlog & _ & Hret & _);
    destruct (extract_basic_data s v p) as [s2 returned] end.
  cbv zeta in Hlog, Hret. cbn [fst snd] in *.
  destruct returned;
    [unfold finish in Hstep; now destruct (both_dates_found _)|].
  injection Hstep as <-.
  cbn [pages_crawled with_data record tick mark_visited log data fields
       append_crawled_page] in Hlog, Hret.
  destruct (pages_crawled self + 1 =? 1) eqn:H1; [|discriminate].
  split; [lia|]. exists u, depth, rest, soup.
  split; [reflexivity|]. split; [exact Hf|]. split; [exact Ht|].
  split; [now symmetry|]. now rewrite Hlog, <- app_assoc.
Qed.

(** X1: [scrape] ends on every site and from every state of the
    scraper: the loop is left after finitely many evaluations, by a return
    or by an exception, and any larger number of allowed evaluations gives
    the same result.  It raises only from the field extractors: the last
    things the log then holds are the request of the page, which came
    back, and the start of the extractors on it. *)
Theorem scrape_ends_on_every_site crawl self :
  (exists fuel r,
     forall fuel', (fuel <= fuel')%nat -> scrape fuel' crawl self = Some r)
  /\ forall fuel self',
       scrape fuel crawl self = Some (Raised self') ->
       pages_crawled self' = 1
       /\ exists l u depth,
            log self' = (l ++ [Goto u depth true; MainPageData u])%list.
Proof.
  split.
  - destruct (crawl_loop_terminates crawl self [(url self, 0)]) as (fuel & r & Hr).
    exists fuel.
    exists (match r with
            | Returned s => Returned (check_registration_url s)
            | Raised s => Raised s
            end).
    intros fuel' Hle.
    replace fuel' with (fuel + (fuel' - fuel))%nat by lia.
    unfold scrape. rewrite (crawl_loop_more_fuel _ _ _ _ _ _ Hr).
    now destruct r.
  - intros fuel self' Hr. unfold scrape in Hr.
    destruct (crawl_loop _ _ _ _) as [r'|] eqn:Hloop; [|discriminate].
    destruct r' as [r'|r']; [discriminate|]. injection Hr as ->.
    destruct (crawl_loop_reaches crawl self fuel self _ _ (reaches_start _ _) Hloop)
      as (s & q & _ & Hends).
    cbn [ends_with] in Hends.
    destruct (iteration_raise crawl s q self' Hends)
      as (Hpc & u & depth & rest & soup & -> & _ & _ & _ & Hlog).
    split.
    + pose proof (iteration_attempts crawl s ((u, depth) :: rest)) as Ha.
      pose proof (iteration_static crawl s ((u, depth) :: rest)) as Hs.
      rewrite Hends in Hs. cbn [outcome_self] in Hs.
      destruct Hs as [Hs|(v & d & ok & s' & Hs & <- & _)].
      * destruct Hs as (_ & _ & _ & _ & _ & _ & _ & _ & Hat).
        rewrite Hlog, attempts_app in Hat. cbn in Hat.
        apply (f_equal length) in Hat. rewrite length_app in Hat. cbn in Hat. lia.
      * destruct Hs as (_ & _ & _ & _ & _ & _ & Hp & _).
        rewrite <- Hp. destruct ok; cbn; lia.
    + now exists (log s), u, depth.
Qed.

(** *** Breadth-first order *)

(** The depths of the page requests of the loop, oldest first. *)
Definition request_depths (l : list Event) : list Z :=
  (fun a : string * Z * bool => a.1.2) <$> attempts l.

(** The queue holds at most two consecutive levels, the lower one first,
    and every request made so far was for a page of the lower level or
    above it. *)
Record breadth_first (level : Z) (self : ProgramScraper)
    (q : list (string * Z)) : Prop := {
  bf_requests : Forall (fun d => 0 <= d <= level) (request_depths (log self));
  bf_sorted : StronglySorted Z.le (request_depths (log self));
  bf_queue : Forall (fun e : string * Z => level <= e.2 <= level + 1) q;
  bf_queue_sorted : StronglySorted Z.le (q.*2)
}.

Lemma iteration_request_depths crawl level self q :
  0 <= level ->
  breadth_first level self q ->
  let self' := outcome_self (scrape_iteration crawl self q) in
  StronglySorted Z.le (request_depths (log self'))
  /\ Forall (fun d => 0 <= d) (request_depths (log self'))
  /\ forall u depth rest,
       q = (u, depth) :: rest ->
       Forall (fun d => 0 <= d <= depth) (request_depths (log self')).
Proof.
  intros Hl [Hr Hs Hq Hqs]. cbv zeta.
  pose proof (iteration_attempts crawl self q) as Ha. cbv zeta in Ha.
  unfold request_depths in *.
  destruct Ha as [[Ha _]|(u & depth & rest & ok & -> & _ & Ha & _)]; rewrite Ha.
  - split; [exact Hs|]. split.
    + eapply Forall_impl; [exact Hr|]. cbn. intros; lia.
    + intros u depth rest ->. apply Forall_cons in Hq as [Hd _]. cbn in Hd.
      eapply Forall_impl; [exact Hr|]. cbn. intros; lia.
  - apply Forall_cons in Hq as [Hd _]. cbn in Hd.
    rewrite fmap_app. cbn [fmap list_fmap fst snd]. split; [|split].
    + apply StronglySorted_app_2; [|exact Hs|repeat constructor].
      intros x1 x2 H1 H2. apply list_elem_of_singleton in H2 as ->.
      rewrite Forall_forall in Hr. specialize (Hr _ H1). cbn in Hr. lia.
    + apply Forall_app. split.
      * eapply Forall_impl; [exact Hr|]. cbn. intros; lia.
      * repeat constructor. lia.
    + intros u' depth' rest' [= <- <- <-]. apply Forall_app. split.
      * eapply Forall_impl; [exact Hr|]. cbn. intros; lia.
      * repeat constructor; lia.
Qed.

Lemma sorted_same_level (l : list string) (d : Z) :
  StronglySorted Z.le (((fun link => (link, d)) <$> l).*2).
Proof.
  induction l as [|x l IH]; [constructor|].
  cbn. constructor; [exact IH|].
  apply Forall_forall. intros y Hy.
  apply list_elem_of_fmap in Hy as ([a b] & -> & Hy).
  apply list_elem_of_fmap in Hy as (z & [= -> ->] & _). cbn. lia.
Qed.

Lemma iteration_breadth_first crawl level self q self' q' :
  0 <= level ->
  breadth_first level self q ->
  scrape_iteration crawl self q = Next self' q' ->
  exists level', 0 <= level' /\ breadth_first level' self' q'.
Proof.
  intros Hl Hb Hstep.
  pose proof (iteration_request_depths crawl level self q Hl Hb) as Hd.
  cbv zeta in Hd. rewrite Hstep in Hd. cbn [outcome_self] in Hd.
  destruct Hd as (Hs & _ & Hf).
  destruct (iteration_queue crawl self q self' q' Hstep)
    as (u & depth & rest & -> & Hq').
  specialize (Hf u depth rest eq_refl).
  destruct Hb as [_ _ Hq Hqs].
  apply Forall_cons in Hq as [Hd Hq]. cbn in Hd.
  cbn [fmap list_fmap snd] in Hqs.
  apply StronglySorted_cons in Hqs as [Hhd Hqs].
  assert (Forall (fun e : string * Z => depth <= e.2 <= depth + 1) rest) as Hrest.
  { apply Forall_forall. intros e He.
    rewrite Forall_forall in Hq. specialize (Hq _ He). cbn in Hq.
    rewrite Forall_forall in Hhd.
    assert (e.2 ∈ rest.*2) as Hin by (apply list_elem_of_fmap; now exists e).
    specialize (Hhd _ Hin). lia. }
  exists depth. split; [lia|].
  destruct Hq' as [->|(_ & _ & _ & s & soup & links & _ & ->)].
  - now split.
  - rewrite enqueue_links_filter. split; [exact Hf|exact Hs| |].
    + apply Forall_app. split; [exact Hrest|].
      apply Forall_fmap, Forall_forall. intros x _. cbn. lia.
    + rewrite fmap_app. apply StronglySorted_app_2; [|exact Hqs|apply sorted_same_level].
      intros x1 x2 H1 H2.
      apply list_elem_of_fmap in H1 as (e & -> & He).
      rewrite Forall_forall in Hrest. specialize (Hrest _ He). cbn in Hrest.
      apply list_elem_of_fmap in H2 as ([a b] & -> & H2).
      apply list_elem_of_fmap in H2 as (z & [= -> ->] & _). cbn. lia.
Qed.

Lemma loop_reaches_breadth_first crawl self0 self q :
  log self0 = [] ->
  loop_reaches crawl self0 self q ->
  exists level, 0 <= level /\ breadth_first level self q.
Proof.
  intros Hlog. induction 1 as [|self q self' q' _ IH Hstep].
  - exists 0. split; [lia|]. split; unfold request_depths; rewrite ?Hlog; cbn.
    + constructor.
    + constructor.
    + repeat constructor; cbn; lia.
    + repeat constructor.
  - destruct IH as (level & Hl & Hb).
    now apply (iteration_breadth_first crawl level self q).
Qed.

Lemma same_bookkeeping_depths a b :
  same_bookkeeping a b -> request_depths (log a) = request_depths (log b).
Proof.
  intros (_ & _ & _ & _ & _ & _ & _ & _ & H). unfold request_depths. now rewrite H.
Qed.

(** X2: the crawl is breadth-first.  The depths of the successive page
    requests of a crawl never decrease, and none is negative. *)
Theorem requests_are_made_in_breadth_first_order
    crawl u maxp maxd f0 self0 self :
  __init__ u maxp maxd f0 = Some self0 ->
  crawl_state crawl self0 self ->
  StronglySorted Z.le (request_depths (log self))
  /\ Forall (fun d => 0 <= d) (request_depths (log self)).
Proof.
  intros Hi Hs.
  destruct (init_fields _ _ _ _ _ Hi) as (_ & _ & _ & _ & _ & Hlog & _).
  assert (forall s q, loop_reaches crawl self0 s q ->
            let s' := outcome_self (scrape_iteration crawl s q) in
            StronglySorted Z.le (request_depths (log s'))
            /\ Forall (fun d => 0 <= d) (request_depths (log s'))) as Hout.
  { intros s q Hr.
    destruct (loop_reaches_breadth_first crawl self0 s q Hlog Hr) as (level & Hl & Hb).
    pose proof (iteration_request_depths crawl level s q Hl Hb) as H.
    cbv zeta in *. tauto. }
  destruct Hs as [self1 q Hr|self1 q self' Hr Hstep|self1 q self' Hr Hstep
                   |self1 q self' Hr Hstep].
  - destruct (loop_reaches_breadth_first crawl self0 self1 q Hlog Hr)
      as (level & Hl & [Hq Hsort _ _]).
    split; [exact Hsort|]. eapply Forall_impl; [exact Hq|]. cbn. intros; lia.
  - specialize (Hout self1 q Hr). cbv zeta in Hout. now rewrite Hstep in Hout.
  - specialize (Hout self1 q Hr). cbv zeta in Hout. rewrite Hstep in Hout.
    cbn [outcome_self] in Hout.
    now rewrite <- (same_bookkeeping_depths _ _ (check_registration_url_same self')).
  - specialize (Hout self1 q Hr). cbv zeta in Hout. now rewrite Hstep in Hout.
Qed.

(** *** The depth of the queued pages *)

Lemma loop_reaches_queue_depth crawl self0 self q :
  0 <= max_depth self0 ->
  loop_reaches crawl self0 self q ->
  Forall (fun e : string * Z => e.2 <= max_depth self0) q.
Proof.
  intros Hd. induction 1 as [|self q self' q' Hr IH Hstep].
  - repeat constructor. exact Hd.
  - destruct (loop_reaches_fixed crawl self0 self q Hr) as (_ & _ & _ & _ & Hmd).
    destruct (iteration_queue crawl self q self' q' Hstep)
      as (u & depth & rest & -> & Hq').
    apply Forall_cons in IH as [_ IH].
    destruct Hq' as [->|(_ & Hlt & _ & s & soup & links & _ & ->)]; [exact IH|].
    rewrite enqueue_links_filter. apply Forall_app. split; [exact IH|].
    apply Forall_fmap, Forall_forall. intros x _. cbn. lia.
Qed.

(** X3: with a depth limit that is not negative, every entry of the queue
    has a depth between 0 and [max_depth] at every test of the loop
    condition, so the depth test of [_crawl_page] never turns away an entry
    the loop hands it. *)
Theorem queued_pages_are_within_the_depth_limit
    crawl u maxp maxd f0 self0 self q :
  0 <= maxd ->
  __init__ u maxp maxd f0 = Some self0 ->
  loop_reaches crawl self0 self q ->
  Forall (fun e : string * Z => 0 <= e.2 <= maxd) q
  /\ forall v depth rest,
       q = (v, depth) :: rest -> (max_depth self <? depth) = false.
Proof.
  intros Hd Hi Hr.
  destruct (init_fields _ _ _ _ _ Hi) as (_ & _ & Hmd & _ & _ & Hlog & _).
  pose proof (loop_reaches_queue_depth crawl self0 self q) as Hq.
  rewrite Hmd in Hq. specialize (Hq Hd Hr).
  destruct (loop_reaches_breadth_first crawl self0 self q Hlog Hr)
    as (level & Hl & [_ _ Hb _]).
  destruct (loop_reaches_fixed crawl self0 self q Hr) as (_ & _ & _ & _ & Hsame).
  split.
  - rewrite Forall_forall in *. intros e He.
    specialize (Hq _ He). specialize (Hb _ He). cbn in *. lia.
  - intros v depth rest ->. apply Forall_cons in Hq as [Hq _]. cbn in Hq. lia.
Qed.

(** *** The visited set *)

Lemma iteration_visited crawl self q :
  visited_urls self = list_to_set (requested (log self)) ->
  let self' := outcome_self (scrape_iteration crawl self q) in
  visited_urls self' = list_to_set (requested (log self')).
Proof.
  intros Hv. cbv zeta.
  pose proof (iteration_attempts crawl self q) as Ha. cbv zeta in Ha.
  rewrite !requested_attempts in *.
  destruct Ha as [[Ha ->]|(u & depth & rest & ok & _ & _ & Ha & ->)]; rewrite Ha.
  - exact Hv.
  - rewrite fmap_app, list_to_set_app_L, Hv. cbn [fmap list_fmap fst].
    rewrite list_to_set_singleton_L. apply (comm_L (∪)).
Qed.

Lemma loop_reaches_visited crawl self0 self q :
  visited_urls self0 = ∅ -> log self0 = [] ->
  loop_reaches crawl self0 self q ->
  visited_urls self = list_to_set (requested (log self)).
Proof.
  intros Hv Hlog. induction 1 as [|self q self' q' _ IH Hstep].
  - now rewrite Hv, Hlog.
  - pose proof (iteration_visited crawl self q IH) as H. cbv zeta in H.
    now rewrite Hstep in H.
Qed.

(** X4: [visited_urls] is exactly the set of the URLs the loop has
    requested, whether the request succeeded or failed; the direct visit of
    the registration URL after the loop adds nothing to it. *)
Theorem visited_urls_are_the_requested_urls
    crawl u maxp maxd f0 self0 self :
  __init__ u maxp maxd f0 = Some self0 ->
  crawl_state crawl self0 self ->
  forall v, v ∈ visited_urls self <-> v ∈ requested (log self).
Proof.
  intros Hi Hs.
  destruct (init_fields _ _ _ _ _ Hi) as (_ & _ & _ & Hv & _ & Hlog & _).
  assert (visited_urls self = list_to_set (requested (log self))) as ->.
  { destruct Hs as [self1 q Hr|self1 q self' Hr Hstep|self1 q self' Hr Hstep
                   |self1 q self' Hr Hstep].
    - now apply (loop_reaches_visited crawl self0 self1 q).
    - pose proof (iteration_visited crawl self1 q
                    (loop_reaches_visited crawl self0 self1 q Hv Hlog Hr)) as H.
      cbv zeta in H. now rewrite Hstep in H.
    - pose proof (iteration_visited crawl self1 q
                    (loop_reaches_visited crawl self0 self1 q Hv Hlog Hr)) as H.
      cbv zeta in H. rewrite Hstep in H. cbn [outcome_self] in H.
      destruct (check_registration_url_same self')
        as (_ & _ & _ & _ & _ & <- & _ & _ & Ha).
      now rewrite !requested_attempts, <- Ha, <- requested_attempts.
    - pose proof (iteration_visited crawl self1 q
                    (loop_reaches_visited crawl self0 self1 q Hv Hlog Hr)) as H.
      cbv zeta in H. now rewrite Hstep in H. }
  intros v. apply elem_of_list_to_set.
Qed.

(** *** A crawl of one page *)

(** The queue and the requests when no link is ever queued. *)
Definition seed_only (self0 self : ProgramScraper) (q : list (string * Z))
  : Prop :=
  (q = [(url self0, 0)] /\ attempts (log self) = [])
  \/ (q = []
      /\ (attempts (log self) = []
          \/ exists ok, attempts (log self) = [(url self0, 0, ok)])).

Lemma iteration_seed_only crawl self0 self q :
  crawl = false \/ max_depth self <= 0 ->
  seed_only self0 self q ->
  let o := scrape_iteration crawl self q in
  seed_only self0 (outcome_self o) [] /\ outcome_queue o = [].
Proof.
  intros Hmode Hs. cbv zeta.
  pose proof (iteration_attempts crawl self q) as Ha. cbv zeta in Ha.
  assert (outcome_queue (scrape_iteration crawl self q) = []) as Hq.
  { destruct (scrape_iteration crawl self q) as [self' q'|r|r] eqn:Hstep;
      [|reflexivity..].
    cbn. destruct (iteration_queue crawl self q self' q' Hstep)
      as (u & depth & rest & -> & Hq').
    destruct Hs as [[[= -> -> ->] _]|[[=] _]].
    destruct Hq' as [->|(Hc & Hlt & _)]; [reflexivity|].
    destruct Hmode; [congruence|lia]. }
  split; [|exact Hq]. right. split; [reflexivity|].
  destruct Ha as [[Ha _]|(u & depth & rest & ok & -> & _ & Ha & _)]; rewrite Ha.
  - destruct Hs as [[_ ->]|[_ H]]; [now left|exact H].
  - destruct Hs as [[[= -> -> ->] ->]|[[=] _]]. right. now exists ok.
Qed.

Lemma loop_reaches_seed_only crawl self0 self q :
  crawl = false \/ max_depth self0 <= 0 ->
  log self0 = [] ->
  loop_reaches crawl self0 self q -> seed_only self0 self q.
Proof.
  intros Hmode Hlog. induction 1 as [|self q self' q' Hr IH Hstep].
  - left. now rewrite Hlog.
  - destruct (loop_reaches_fixed crawl self0 self q Hr) as (_ & _ & _ & _ & Hmd).
    rewrite <- Hmd in Hmode.
    pose proof (iteration_seed_only crawl self0 self q Hmode IH) as H.
    cbv zeta in H. rewrite Hstep in H. cbn in H. destruct H as [H ->]. exact H.
Qed.

(** X5: with [crawl=False], or with a depth limit of 0 or less, no link
    is ever queued, and the only page the loop can request is the seed. *)
Theorem one_page_crawl_requests_only_the_seed
    crawl u maxp maxd f0 self0 self :
  crawl = false \/ maxd <= 0 ->
  __init__ u maxp maxd f0 = Some self0 ->
  crawl_state crawl self0 self ->
  requested (log self) = [] \/ requested (log self) = [u].
Proof.
  intros Hmode Hi Hs.
  destruct (init_fields _ _ _ _ _ Hi) as (Hu & _ & Hmd & _ & _ & Hlog & _).
  rewrite <- Hmd in Hmode.
  assert (forall s, seed_only self0 s [] ->
            requested (log s) = [] \/ requested (log s) = [u]) as Hdone.
  { intros s [[[=] _]|[_ [H|[ok H]]]]; rewrite requested_attempts, H;
      [now left|right]. cbn. now rewrite Hu. }
  assert (forall s q, loop_reaches crawl self0 s q ->
            seed_only self0 (outcome_self (scrape_iteration crawl s q)) []) as Hout.
  { intros s q Hr.
    destruct (loop_reaches_fixed crawl self0 s q Hr) as (_ & _ & _ & _ & Hsame).
    rewrite <- Hsame in Hmode.
    pose proof (iteration_seed_only crawl self0 s q Hmode
                  (loop_reaches_seed_only crawl self0 s q
                     ltac:(rewrite <- Hsame; exact Hmode) Hlog Hr)) as H.
    cbv zeta in H. tauto. }
  destruct Hs as [self1 q Hr|self1 q self' Hr Hstep|self1 q self' Hr Hstep
                   |self1 q self' Hr Hstep].
  - destruct (loop_reaches_seed_only crawl self0 self1 q Hmode Hlog Hr)
      as [[_ H]|[_ [H|[ok H]]]]; rewrite requested_attempts, H;
      [now left|now left|right]. cbn. now rewrite Hu.
  - specialize (Hout self1 q Hr). rewrite Hstep in Hout. now apply Hdone.
  - specialize (Hout self1 q Hr). rewrite Hstep in Hout. cbn [outcome_self] in Hout.
    destruct (check_registration_url_same self')
      as (_ & _ & _ & _ & _ & _ & _ & _ & Ha).
    rewrite requested_attempts, <- Ha, <- requested_attempts. now apply Hdone.
  - specialize (Hout self1 q Hr). rewrite Hstep in Hout. now apply Hdone.
Qed.

(** *** The loop goes on only while a date is missing *)

Lemma iteration_next_dates crawl self q self' q' :
  scrape_iteration crawl self q = Next self' q' ->
  self' = self \/ both_dates_found self' = false.
Proof.
  intros Hstep.
  destruct (iteration_cases crawl self q)
    as [[_ [H|(e & rest & -> & H)]]
       |(u & depth & rest & -> & Hnv & Hlt & Hle & Hcase)].
  - rewrite H in Hstep. discriminate.
  - rewrite H in Hstep. left. now inversion Hstep.
  - right. destruct Hcase as [[_ H]|(soup & links & Hf & Hc & H)].
    + rewrite H in Hstep. now apply finish_next in Hstep as (-> & _ & ?).
    + cbv zeta in H. rewrite H in Hstep. clear H.
      destruct (Py.truthy (text soup));
        [destruct (extract_basic_data _ u soup).2; [|discriminate]|];
        now apply finish_next in Hstep as (-> & _ & ?).
Qed.

(** X6: at every test of the loop condition of a crawl at least one of the
    two dates is still missing: the loop is left right after the page on
    which the second date is found, with pages still queued or not. *)
Theorem loop_goes_on_only_while_a_date_is_missing
    crawl u maxp maxd f0 self0 self q :
  __init__ u maxp maxd f0 = Some self0 ->
  loop_reaches crawl self0 self q ->
  both_dates_found self = false.
Proof.
  intros Hi Hr.
  destruct (init_fields _ _ _ _ _ Hi) as (_ & _ & _ & _ & _ & _ & Hdata).
  induction Hr as [|self q self' q' _ IH Hstep].
  - unfold both_dates_found. now rewrite Hdata.
  - destruct (iteration_next_dates crawl self q self' q' Hstep) as [->|H];
      [exact IH|exact H].
Qed.

(** *** The links stay on the domain of the seed *)

(** A link the crawler may follow: the normal form of a URL that
    [_is_same_domain] accepts. *)
Definition internal_link (self : ProgramScraper) (v : string) : Prop :=
  exists full_url,
    _is_same_domain self full_url = Some true
    /\ _normalize_url full_url = Some v.

Lemma same_domain_of_domain a b u :
  domain a = domain b -> _is_same_domain a u = _is_same_domain b u.
Proof. intros H. unfold _is_same_domain. now rewrite H. Qed.

Lemma internal_link_of_domain a b v :
  domain a = domain b -> internal_link a v -> internal_link b v.
Proof.
  intros H (full_url & Hs & Hn). exists full_url.
  now rewrite <- (same_domain_of_domain a b full_url H).
Qed.

Lemma extract_links_loop_internal self current_url l links out :
  extract_links_loop self current_url l links = Some out ->
  exists added,
    out = (links ++ added)%list
    /\ Forall (fun v => internal_link self v /\ v ∉ visited_urls self) added.
Proof.
  revert links. induction l as [|anchor rest IH]; intros links.
  - cbn. intros [= <-]. exists []. split; [now rewrite app_nil_r|constructor].
  - cbn [extract_links_loop]. cbv zeta.
    assert (forall full : option string,
      (full_url ← full;
       same ← _is_same_domain self full_url;
       if same : bool then
         normalized ← _normalize_url full_url;
         if decide (normalized ∈ visited_urls self)
         then extract_links_loop self current_url rest links
         else extract_links_loop self current_url rest (links ++ [normalized])%list
       else extract_links_loop self current_url rest links) = Some out ->
      exists added,
        out = (links ++ added)%list
        /\ Forall (fun v => internal_link self v /\ v ∉ visited_urls self) added)
      as Hkeep.
    { intros [full_url|]; cbn [mbind option_bind]; [|discriminate].
      destruct (_is_same_domain self full_url) as [[|]|] eqn:Hs;
        cbn [mbind option_bind]; [|apply IH|discriminate].
      destruct (_normalize_url full_url) as [normalized|] eqn:Hn;
        cbn [mbind option_bind]; [|discriminate].
      destruct (decide (normalized ∈ visited_urls self)) as [Hv|Hv]; [apply IH|].
      intros H. apply IH in H as (added & -> & Hadded).
      exists (normalized :: added). split; [now rewrite <- app_assoc|].
      constructor; [|exact Hadded]. split; [now exists full_url|exact Hv]. }
    destruct (negb (_is_valid_page_url _)); [apply IH|].
    destruct (Py.startswith "/" _); [apply Hkeep|].
    destruct (Py.startswith "http" _); [apply Hkeep|].
    destruct (negb (startswith_any _ _)); [apply Hkeep|apply IH].
Qed.

(** X7: the links the anchor loop of [_extract_internal_links] collects
    are added behind the ones already collected, and each of them is the
    normal form of a URL of the scraper's domain (or of one with no network
    location) and is not in [visited_urls]. *)
Theorem extracted_links_are_internal_and_unvisited
    self current_url soup links :
  extract_links_loop self current_url (anchors soup) [] = Some links ->
  Forall (fun v =>
            (exists full_url p,
                urlparse full_url = Some p
                /\ (Urllib.netloc p = domain self \/ Urllib.netloc p = "")
                /\ _normalize_url full_url = Some v)
            /\ v ∉ visited_urls self) links.
Proof.
  intros H. apply extract_links_loop_internal in H as (added & -> & Ha).
  cbn [app]. eapply Forall_impl; [exact Ha|]. cbn.
  intros v [(full_url & Hs & Hn) Hv]. split; [|exact Hv].
  unfold _is_same_domain in Hs.
  destruct (urlparse full_url) as [p|] eqn:Hp; [|discriminate].
  cbn in Hs. injection Hs as Hs. exists full_url, p.
  split; [exact Hp|]. split; [|exact Hn].
  apply orb_true_iff in Hs as [Hs|Hs]; apply String.eqb_eq in Hs;
    [now left|now right].
Qed.

Definition seed_or_internal (self0 : ProgramScraper) (v : string) : Prop :=
  v = url self0 \/ internal_link self0 v.

Lemma iteration_internal crawl self0 self q :
  (forall l x, x ∈ list_set l -> x ∈ l) ->
  domain self = domain self0 ->
  Forall (fun e : string * Z => seed_or_internal self0 e.1) q ->
  Forall (seed_or_internal self0) (requested (log self)) ->
  let o := scrape_iteration crawl self q in
  Forall (seed_or_internal self0) (requested (log (outcome_self o)))
  /\ Forall (fun e : string * Z => seed_or_internal self0 e.1) (outcome_queue o).
Proof.
  intros Hset Hdom Hq Hlog. cbv zeta. split.
  - pose proof (iteration_attempts crawl self q) as Ha. cbv zeta in Ha.
    rewrite !requested_attempts in *.
    destruct Ha as [[-> _]|(u & depth & rest & ok & -> & _ & -> & _)]; [exact Hlog|].
    rewrite fmap_app. apply Forall_app. split; [exact Hlog|].
    apply Forall_cons in Hq as [Hu _]. cbn. constructor; [exact Hu|constructor].
  - destruct (scrape_iteration crawl self q) as [self' q'|r|r] eqn:Hstep;
      [|constructor..].
    cbn [outcome_queue].
    destruct (iteration_queue crawl self q self' q' Hstep)
      as (u & depth & rest & -> & Hq').
    apply Forall_cons in Hq as [_ Hq].
    destruct Hq' as [->|(_ & _ & _ & s & soup & links & Hc & ->)]; [exact Hq|].
    rewrite enqueue_links_filter. apply Forall_app. split; [exact Hq|].
    apply Forall_fmap, Forall_forall. intros x Hx. cbn. right.
    apply list_elem_of_filter in Hx as [_ Hx].
    apply crawl_page_links in Hc as (discovered & He & Hp).
    apply prioritize_links_filter in Hp as (link_texts & _ & ->).
    apply filter_partition_elem in Hx.
    unfold _extract_internal_links in He.
    destruct (extract_links_loop _ u (anchors soup) []) as [l0|] eqn:Hl0;
      [|discriminate].
    cbn in He. injection He as <-. apply Hset in Hx.
    apply extract_links_loop_internal in Hl0 as (added & -> & Hadded).
    cbn [app] in Hx. rewrite Forall_forall in Hadded.
    destruct (Hadded _ Hx) as [Hint _].
    apply (internal_link_of_domain (mark_visited u self)); [exact Hdom|exact Hint].
Qed.

Lemma loop_reaches_internal crawl self0 self q :
  (forall l x, x ∈ list_set l -> x ∈ l) ->
  log self0 = [] ->
  loop_reaches crawl self0 self q ->
  Forall (seed_or_internal self0) (requested (log self))
  /\ Forall (fun e : string * Z => seed_or_internal self0 e.1) q.
Proof.
  intros Hset Hlog. induction 1 as [|self q self' q' Hr IH Hstep].
  - rewrite Hlog. split; [constructor|]. constructor; [now left|constructor].
  - destruct (loop_reaches_fixed crawl self0 self q Hr) as (_ & Hdom & _).
    destruct IH as [IH1 IH2].
    pose proof (iteration_internal crawl self0 self q Hset Hdom IH2 IH1) as H.
    cbv zeta in H. now rewrite Hstep in H.
Qed.

(** A reference with a scheme and no slashes after the colon has no
    network location: it counts as internal for every scraper, and its
    normal form puts the two slashes in. *)
Lemma scheme_without_slashes self rest :
  Py.startswith "//" rest = false ->
  Py.has_char (Py.is_char "#") rest = false ->
  Py.has_char (Py.is_char "?") rest = false ->
  Py.has_char (Py.is_char ";") rest = false ->
  Py.has_char Urllib.unsafe_char rest = false ->
  _is_same_domain self ("https:" +:+ rest) = Some true
  /\ _normalize_url ("https:" +:+ rest)
     = Some ("https://" +:+ Py.rstrip slash rest).
Proof.
  intros Hs Hh Hq Hp Hu.
  assert (urlparse ("https:" +:+ rest)
          = Some {| Urllib.scheme := "https"; Urllib.netloc := "";
                    Urllib.path := rest; Urllib.params := "";
                    Urllib.query := ""; Urllib.fragment := "" |}) as Hparse.
  { unfold Urllib.urlparse.
    assert (Urllib.sanitize ("https:" +:+ rest) = "https:" +:+ rest) as ->.
    { unfold Urllib.sanitize. cbn [append Py.lstrip].
      change (Urllib.c0_or_space "h") with false. cbv beta iota.
      apply remove_chars_id. cbn. exact Hu. }
    assert (Urllib.split_scheme ("https:" +:+ rest) = ("https", rest)) as ->
      by reflexivity.
    rewrite Hs, Hh, Hq, Hp. reflexivity. }
  unfold _is_same_domain, _normalize_url. rewrite Hparse.
  cbn [mbind option_bind Urllib.netloc Urllib.scheme Urllib.path Urllib.query
       Py.truthy]. split; [|reflexivity].
  now rewrite String.eqb_refl, orb_true_r.
Qed.

(** X8: what the same-domain test does for the crawl.  When
    [list(set(links))] returns only elements of [links], every URL the
    loop requests is the seed or the normal form of a URL whose network
    location is the domain of the seed or is empty.  An empty network
    location does not mean the seed's host: a reference that is "https:"
    and a text with no two slashes at its start passes the test of every
    scraper, and its normal form is "https://" and that text. *)
Theorem requested_urls_passed_the_same_domain_test
    crawl u maxp maxd f0 self0 :
  (forall l x, x ∈ list_set l -> x ∈ l) ->
  __init__ u maxp maxd f0 = Some self0 ->
  (forall self v,
     crawl_state crawl self0 self ->
     v ∈ requested (log self) ->
     v = u
     \/ exists full_url p,
          urlparse full_url = Some p
          /\ (Urllib.netloc p = domain self0 \/ Urllib.netloc p = "")
          /\ _normalize_url full_url = Some v)
  /\ (forall self rest,
        Py.startswith "//" rest = false ->
        Py.has_char (Py.is_char "#") rest = false ->
        Py.has_char (Py.is_char "?") rest = false ->
        Py.has_char (Py.is_char ";") rest = false ->
        Py.has_char Urllib.unsafe_char rest = false ->
        _is_same_domain self ("https:" +:+ rest) = Some true
        /\ _normalize_url ("https:" +:+ rest)
           = Some ("https://" +:+ Py.rstrip slash rest)).
Proof.
  intros Hset Hi. split; [|exact scheme_without_slashes].
  intros self v Hs.
  destruct (init_fields _ _ _ _ _ Hi) as (Hu & _ & _ & _ & _ & Hlog & _).
  assert (Forall (seed_or_internal self0) (requested (log self))) as Hall.
  { assert (forall s q, loop_reaches crawl self0 s q ->
              Forall (seed_or_internal self0)
                (requested (log (outcome_self (scrape_iteration crawl s q)))))
      as Hout.
    { intros s q Hr.
      destruct (loop_reaches_fixed crawl self0 s q Hr) as (_ & Hdom & _).
      destruct (loop_reaches_internal crawl self0 s q Hset Hlog Hr) as [H1 H2].
      now destruct (iteration_internal crawl self0 s q Hset Hdom H2 H1) as [H _]. }
    destruct Hs as [self1 q Hr|self1 q self' Hr Hstep|self1 q self' Hr Hstep
                   |self1 q self' Hr Hstep].
    - now destruct (loop_reaches_internal crawl self0 self1 q Hset Hlog Hr).
    - specialize (Hout self1 q Hr). now rewrite Hstep in Hout.
    - specialize (Hout self1 q Hr). rewrite Hstep in Hout. cbn [outcome_self] in Hout.
      destruct (check_registration_url_same self')
        as (_ & _ & _ & _ & _ & _ & _ & _ & Ha).
      now rewrite requested_attempts, <- Ha, <- requested_attempts.
    - specialize (Hout self1 q Hr). now rewrite Hstep in Hout. }
  intros Hv. rewrite Forall_forall in Hall.
  destruct (Hall v Hv) as [->|(full_url & Hsd & Hn)]; [now left|right].
  unfold _is_same_domain in Hsd.
  destruct (urlparse full_url) as [p|] eqn:Hp; [|discriminate].
  cbn in Hsd. injection Hsd as Hsd. exists full_url, p.
  split; [exact Hp|]. split; [|exact Hn].
  apply orb_true_iff in Hsd as [Hsd|Hsd]; apply String.eqb_eq in Hsd;
    [now left|now right].
Qed.

(** *** The direct visit of the registration URL *)

(** X9: [_scrape_registration_page] is outside the bookkeeping of the
    crawl and fills gaps only: the visited set, the page counter, the list
    of crawled pages, the registration URL and the static fields stay as
    they are, and a date that is already present is kept. *)
Theorem registration_page_visit_only_fills_missing_dates self :
  let self' := _scrape_registration_page self in
  visited_urls self' = visited_urls self
  /\ pages_crawled self' = pages_crawled self
  /\ crawled_pages (data self') = crawled_pages (data self)
  /\ registration_url (data self') = registration_url (data self)
  /\ fields (data self') = fields (data self)
  /\ (forall d, re_enrollment_date (data self) = Some d ->
        re_enrollment_date (data self') = Some d)
  /\ (forall d, new_registration_date (data self) = Some d ->
        new_registration_date (data self') = Some d).
Proof.
  cbv zeta. unfold _scrape_registration_page.
  destruct self as [u dmn b mp md v pc [f ru r0 n0 cp] ck lg].
  cbn [data registration_url clock].
  destruct ru as [reg_url|]; [|now repeat split].
  destruct (negb (Py.truthy reg_url)); [now repeat split|].
  destruct (fetch ck reg_url) as [soup|]; [|now repeat split].
  cbn [clock tick record].
  generalize (search_keywords (now (S ck)) (Py.lower (text soup))
                re_enrollment_keywords).
  generalize (search_keywords (now (S ck)) (Py.lower (text soup))
                new_registration_keywords_page).
  generalize (search_general (now (S ck)) (Py.lower (text soup))
                general_keywords).
  intros o3 o2 o1.
  destruct r0, n0, o1, o2, o3; cbn; repeat split; intros; congruence.
Qed.

(** *** Dates of the current day, and dates without a year *)

(** The calendar date of [a] is after the calendar date of [b]. *)
Definition date_after (a b : datetime) : Prop :=
  Datetime.year b < Datetime.year a
  \/ (Datetime.year a = Datetime.year b /\ Datetime.month b < Datetime.month a)
  \/ (Datetime.year a = Datetime.year b /\ Datetime.month a = Datetime.month b
      /\ Datetime.day b < Datetime.day a).

Lemma make_fields y m d p :
  Datetime.make y m d = Some p ->
  Datetime.year p = y /\ Datetime.month p = m /\ Datetime.day p = d
  /\ Datetime.micros p = 0.
Proof.
  unfold Datetime.make. destruct (_ && _); [|discriminate].
  intros [= <-]. now repeat split.
Qed.

Lemma accept_date_made today y m d p :
  accept_date today y m d = Some p ->
  Datetime.make y m d = Some p /\ Datetime.ge p today = true.
Proof.
  unfold accept_date. destruct (m =? 0); [discriminate|].
  destruct (Datetime.make y m d) as [q|]; [|discriminate]. cbn.
  destruct (Datetime.ge q today) eqn:Hge; [|discriminate]. now intros [= <-].
Qed.

(** A date a match gives is a midnight that is not before [today]. *)
Lemma parse_match_midnight today m p :
  parse_match today m = Some p ->
  Datetime.micros p = 0 /\ Datetime.ge p today = true.
Proof.
  assert (forall y mo d, accept_date today y mo d = Some p ->
            Datetime.micros p = 0 /\ Datetime.ge p today = true) as Hacc.
  { intros y mo d H. apply accept_date_made in H as [H Hge].
    apply make_fields in H as (_ & _ & _ & Hm). now split. }
  unfold parse_match.
  destruct m as [|m0 [|m1 [|m2 [|]]]]; try discriminate.
  - generalize (default 0 (months !! Py.lower m0)). intros mo.
    repeat bind_case. apply Hacc.
  - generalize (default 0 (months !! Py.lower m0)). intros mo.
    destruct (_ && _).
    + repeat bind_case. apply Hacc.
    + destruct (_ && _); [|discriminate].
      destruct (Py.isdigit m0); repeat bind_case; apply Hacc.
Qed.

Lemma parse_date_loop_midnight today patterns context p :
  parse_date_loop today patterns context = Some p ->
  Datetime.micros p = 0 /\ Datetime.ge p today = true.
Proof.
  induction patterns as [|pattern rest IH]; [discriminate|]. cbn.
  destruct (re_findall pattern context) as [|m ms]; [exact IH|].
  destruct (parse_match today m) as [q|] eqn:Hm; [|exact IH].
  intros [= <-]. now apply (parse_match_midnight today m).
Qed.

(** X10: a date is compared with the current date and time, and the date
    itself is a midnight.  So once the clock is past midnight, every date
    [parse_date_from_context] accepts lies on a later calendar day than
    today: a date of the current day is turned down. *)
Theorem dates_of_the_current_day_are_turned_down today context d :
  0 < Datetime.micros today ->
  parse_date_from_context today context = Some d ->
  Datetime.micros d = 0 /\ date_after d today.
Proof.
  intros Hus H. apply parse_date_loop_midnight in H as [Hm Hge].
  split; [exact Hm|].
  unfold Datetime.ge in Hge. unfold date_after.
  destruct (Datetime.year d =? Datetime.year today) eqn:Hy; [|lia].
  destruct (Datetime.month d =? Datetime.month today) eqn:Hmo; [|lia].
  destruct (Datetime.day d =? Datetime.day today) eqn:Hd; lia.
Qed.

(** X11: a match without a year is read as the next occurrence of that
    month and day.  The day has to exist in the current year; the date
    gets the current year when that day is not before now, and the next
    year otherwise. *)
Theorem a_date_without_year_is_the_next_occurrence today m0 m1 p :
  parse_match today [m0; m1] = Some p ->
  exists test_date,
    Datetime.make (Datetime.year today) (Datetime.month p) (Datetime.day p)
    = Some test_date
    /\ Datetime.year p
       = (if Datetime.ge test_date today then Datetime.year today
          else Datetime.year today + 1).
Proof.
  unfold parse_match.
  generalize (default 0 (months !! Py.lower m0)). intros mo.
  destruct (Py.int m1) as [d|]; cbn [mbind option_bind]; [|discriminate].
  destruct (Datetime.make (Datetime.year today) mo d) as [test_date|] eqn:Ht;
    cbn [mbind option_bind]; [|discriminate].
  intros H. apply accept_date_made in H as [H _].
  apply make_fields in H as (Hy & Hm & Hd & _).
  exists test_date. rewrite Hm, Hd, Hy. now split.
Qed.

(** *** The registration URL is never empty *)

Lemma truthy_app_r a b : Py.truthy b = true -> Py.truthy (a +:+ b) = true.
Proof.
  destruct b as [|c b]; [discriminate|]. intros _.
  destruct a as [|c' a]; [now rewrite append_nil_l|now rewrite append_cons].
Qed.

Lemma startswith_truthy p s :
  Py.truthy p = true -> Py.startswith p s = true -> Py.truthy s = true.
Proof. destruct p, s; cbn; congruence. Qed.

Lemma link_target_truthy self link : Py.truthy (link_target self link) = true.
Proof.
  unfold link_target. cbv zeta.
  destruct (Py.startswith "/" (href link)) eqn:H1.
  { apply truthy_app_r. now apply (startswith_truthy "/"). }
  destruct (Py.startswith "http" (href link)) eqn:H2.
  { now apply (startswith_truthy "http"). }
  apply truthy_app_r.
  change ("/" +:+ href link) with (String "/" (href link)). reflexivity.
Qed.

Definition never_empty (o : option string) : Prop :=
  forall v, o = Some v -> Py.truthy v = true.

Lemma extract_registration_info_never_empty self soup :
  never_empty (registration_url (data self)) ->
  never_empty (registration_url (data (_extract_registration_info self soup))).
Proof.
  intros Hn.
  destruct (extract_registration_info_writes self soup) as (-> & _).
  rewrite find_registration_link_first.
  destruct (List.find accepted_link (anchors soup)) as [link|]; cbn; [|exact Hn].
  intros v [= <-]. apply link_target_truthy.
Qed.

Lemma iteration_never_empty crawl self q :
  never_empty (registration_url (data self)) ->
  never_empty
    (registration_url (data (outcome_self (scrape_iteration crawl self q)))).
Proof.
  intros Hn.
  destruct (iteration_cases crawl self q)
    as [[_ [->|(e & rest & -> & ->)]]
       |(u & depth & rest & -> & Hnv & Hlt & Hle & Hcase)]; [exact Hn|exact Hn|].
  destruct Hcase as [[_ ->]|(soup & links & Hf & _ & ->)].
  - rewrite finish_self. exact Hn.
  - cbv zeta. destruct (Py.truthy (text soup)); [|rewrite finish_self; exact Hn].
    rewrite outcome_processed. unfold processed. cbv zeta.
    match goal with |- context [extract_basic_data ?s ?v ?p] =>
      destruct (extract_basic_data_writes s v p) as (_ & _ & _ & Hu & _);
      destruct (extract_basic_data s v p) as [s2 returned] end.
    cbv zeta in Hu. cbn [fst snd] in *.
    assert (never_empty (registration_url (data s2))) as Hn2 by now rewrite Hu.
    destruct returned; [|exact Hn2].
    unfold process_page. cbn [fst record data].
    now apply extract_registration_info_never_empty.
Qed.

(** X12: in every state of a crawl the registration URL, when there is
    one, is not the empty string, so the test of [registration_url] before
    the direct visit is a test for its presence. *)
Theorem registration_url_is_never_empty
    crawl u maxp maxd f0 self0 self :
  __init__ u maxp maxd f0 = Some self0 ->
  crawl_state crawl self0 self ->
  (forall v, registration_url (data self) = Some v -> Py.truthy v = true)
  /\ url_is_set (registration_url (data self))
     = is_set (registration_url (data self)).
Proof.
  intros Hi Hs.
  destruct (init_fields _ _ _ _ _ Hi) as (_ & _ & _ & _ & _ & _ & Hdata).
  assert (forall s q, loop_reaches crawl self0 s q ->
            never_empty (registration_url (data s))) as Hloop.
  { intros s q Hr. induction Hr as [|s q s' q' _ IH Hstep].
    - rewrite Hdata. intros v [=].
    - pose proof (iteration_never_empty crawl s q IH) as H.
      now rewrite Hstep in H. }
  assert (never_empty (registration_url (data self))) as Hn.
  { destruct Hs as [self1 q Hr|self1 q self' Hr Hstep|self1 q self' Hr Hstep
                   |self1 q self' Hr Hstep].
    - now apply (Hloop self1 q).
    - pose proof (iteration_never_empty crawl self1 q (Hloop self1 q Hr)) as H.
      now rewrite Hstep in H.
    - pose proof (iteration_never_empty crawl self1 q (Hloop self1 q Hr)) as H.
      rewrite Hstep in H. cbn [outcome_self] in H.
      destruct (check_registration_url_log self') as (_ & Hu & _).
      cbv zeta in Hu. now rewrite Hu.
    - pose proof (iteration_never_empty crawl self1 q (Hloop self1 q Hr)) as H.
      now rewrite Hstep in H. }
  split; [exact Hn|].
  destruct (registration_url (data self)) as [v|]; [|reflexivity].
  cbn. now apply Hn.
Qed.

(** *** The fragment never reaches the normal form *)

Lemma lstrip_app_stop p a c b :
  p c = false ->
  Py.lstrip p (a +:+ String c b) = Py.lstrip p a +:+ String c b.
Proof.
  intros Hc. induction a as [|x a IH].
  - rewrite !append_nil_l. cbn. now rewrite Hc.
  - rewrite append_cons. cbn [Py.lstrip].
    destruct (p x); [exact IH|now rewrite append_cons].
Qed.

Lemma remove_chars_app p a b :
  Py.remove_chars p (a +:+ b) = Py.remove_chars p a +:+ Py.remove_chars p b.
Proof.
  induction a as [|x a IH]; [now rewrite !append_nil_l|].
  rewrite append_cons. cbn [Py.remove_chars].
  destruct (p x); [exact IH|now rewrite append_cons, IH].
Qed.

Lemma sanitize_fragment u f :
  Urllib.sanitize (u +:+ String "#" f)
  = Urllib.sanitize u +:+ String "#" (Py.remove_chars Urllib.unsafe_char f).
Proof.
  unfold Urllib.sanitize.
  rewrite lstrip_app_stop by reflexivity. now rewrite remove_chars_app.
Qed.

Lemma all_chars_app p a b :
  Py.all_chars p (a +:+ b) = Py.all_chars p a && Py.all_chars p b.
Proof.
  induction a as [|x a IH]; [now rewrite append_nil_l|].
  rewrite append_cons. cbn. now rewrite IH, andb_assoc.
Qed.

Lemma take_app_within n a b :
  (n <= String.length a)%nat -> Py.take n (a +:+ b) = Py.take n a.
Proof.
  revert a. induction n as [|n IH]; intros a Hn; [reflexivity|].
  destruct a as [|x a]; [cbn in Hn; lia|].
  rewrite append_cons. cbn. rewrite IH; [reflexivity|cbn in Hn; lia].
Qed.

Lemma drop_app_within n a b :
  (n <= String.length a)%nat -> Py.drop n (a +:+ b) = Py.drop n a +:+ b.
Proof.
  revert a. induction n as [|n IH]; intros a Hn; [reflexivity|].
  destruct a as [|x a]; [cbn in Hn; lia|].
  rewrite append_cons. cbn. apply IH. cbn in Hn; lia.
Qed.

Lemma take_app_beyond n a b :
  Py.take (String.length a + n) (a +:+ b) = a +:+ Py.take n b.
Proof.
  induction a as [|x a IH]; [now rewrite !append_nil_l|].
  rewrite !append_cons. cbn. now rewrite IH.
Qed.

(** The first colon of a text followed by another text. *)
Lemma find_colon_app s t :
  Py.find ":" (s +:+ t)
  = match Py.find ":" s with
    | Some n => Some n
    | None => option_map (Nat.add (String.length s)) (Py.find ":" t)
    end.
Proof.
  induction s as [|x s IH].
  - rewrite append_nil_l. cbn. now destruct (Py.find ":" t).
  - rewrite append_cons. cbn [Py.find Py.startswith].
    destruct (Ascii.eqb ":" x); cbn [andb]; [reflexivity|].
    rewrite IH. destruct (Py.find ":" s); [reflexivity|].
    cbn. now destruct (Py.find ":" t).
Qed.

Lemma find_colon_lt s n :
  Py.find ":" s = Some n -> (n < String.length s)%nat.
Proof.
  revert n. induction s as [|x s IH]; intros n; [discriminate|].
  cbn [Py.find Py.startswith].
  destruct (Ascii.eqb ":" x); cbn [andb]; [intros [= <-]; cbn; lia|].
  destruct (Py.find ":" s) as [m|]; [|discriminate].
  intros [= <-]. specialize (IH m eq_refl). cbn. lia.
Qed.

Lemma split_scheme_fragment s g :
  Urllib.split_scheme (s +:+ String "#" g)
  = ((Urllib.split_scheme s).1, (Urllib.split_scheme s).2 +:+ String "#" g).
Proof.
  unfold Urllib.split_scheme. rewrite find_colon_app.
  destruct (Py.find ":" s) as [[|i]|] eqn:Hf.
  - reflexivity.
  - pose proof (find_colon_lt s (S i) Hf) as Hlt.
    destruct s as [|c0 r]; [discriminate|].
    rewrite append_cons.
    rewrite <- (append_cons c0 r (String "#" g)).
    rewrite take_app_within by lia. rewrite drop_app_within by lia.
    now destruct (Py.is_ascii_alpha c0 && _).
  - change (Py.find ":" (String "#" g)) with (option_map S (Py.find ":" g)).
    destruct (Py.find ":" g) as [k|]; [|reflexivity].
    cbn [option_map]. rewrite Nat.add_succ_r.
    destruct s as [|c0 r]; [reflexivity|].
    rewrite append_cons. rewrite <- (append_cons c0 r (String "#" g)).
    replace (S (String.length (String c0 r) + k))
      with (String.length (String c0 r) + S k)%nat by lia.
    rewrite take_app_beyond, all_chars_app.
    change (Py.all_chars Urllib.scheme_char (Py.take (S k) (String "#" g)))
      with false.
    now rewrite andb_false_r, andb_false_r.
Qed.

Lemma startswith_slashes_fragment r g :
  Py.startswith "//" (r +:+ String "#" g) = Py.startswith "//" r.
Proof.
  destruct r as [|a [|b r]]; rewrite ?append_cons, ?append_nil_l;
    [reflexivity| |reflexivity].
  cbn. now rewrite !andb_false_r.
Qed.

Lemma break_app_stop p a c b :
  p c = true ->
  Py.break p (a +:+ String c b)
  = ((Py.break p a).1, (Py.break p a).2 +:+ String c b).
Proof.
  intros Hc. induction a as [|x a IH].
  - rewrite append_nil_l. cbn. now rewrite Hc.
  - rewrite append_cons. cbn [Py.break].
    destruct (p x); [cbn [fst snd]; now rewrite append_cons|].
    rewrite IH. now destruct (Py.break p a).
Qed.

(** The parse of a text and of the text with a fragment appended. *)
Definition same_but_fragment (a b : option Urllib.ParseResult) : Prop :=
  match a, b with
  | Some p, Some p' =>
      Urllib.scheme p = Urllib.scheme p' /\ Urllib.netloc p = Urllib.netloc p'
      /\ Urllib.path p = Urllib.path p' /\ Urllib.params p = Urllib.params p'
      /\ Urllib.query p = Urllib.query p'
  | None, None => True
  | _, _ => False
  end.

Lemma urlparse_fragment u f :
  same_but_fragment (urlparse u) (urlparse (u +:+ String "#" f)).
Proof.
  unfold Urllib.urlparse. rewrite sanitize_fragment, split_scheme_fragment.
  destruct (Urllib.split_scheme (Urllib.sanitize u)) as [sch r]. cbn [fst snd].
  generalize (Py.remove_chars Urllib.unsafe_char f). intros g.
  rewrite startswith_slashes_fragment.
  assert (exists loc r2,
            (if Py.startswith "//" r
             then Py.break Urllib.netloc_delim (Py.drop 2 r)
             else (EmptyString, r)) = (loc, r2)
            /\ (if Py.startswith "//" r
                then Py.break Urllib.netloc_delim (Py.drop 2 (r +:+ String "#" g))
                else (EmptyString, r +:+ String "#" g))
               = (loc, r2 +:+ String "#" g)) as (loc & r2 & -> & ->).
  { destruct (Py.startswith "//" r) eqn:Hs; [|now eexists _, _].
    assert (2 <= String.length r)%nat as Hlen.
    { destruct r as [|a [|b r]]; cbn in Hs; try discriminate;
        [now rewrite andb_false_r in Hs|cbn; lia]. }
    rewrite drop_app_within by exact Hlen.
    rewrite break_app_stop by reflexivity.
    destruct (Py.break Urllib.netloc_delim (Py.drop 2 r)) as [loc r2].
    now exists loc, r2. }
  destruct (Py.truthy loc && negb (netloc_ok loc)); [exact I|].
  rewrite !(split1_or_whole "#"), !(split1_break "#").
  rewrite (break_app_stop (Py.is_char "#")) by reflexivity. cbn [fst snd].
  generalize ((Py.break (Py.is_char "#") r2).1). intros x.
  destruct (if Py.has_char (Py.is_char "?") x then Py.split1 "?" x
            else (x, EmptyString)) as [a b].
  destruct (if Urllib.in_list sch Urllib.uses_params
               && Py.has_char (Py.is_char ";") a
            then Urllib.splitparams a else (a, EmptyString)) as [pth prm].
  cbn. now repeat split.
Qed.

(** X13: [_normalize_url] never looks past the first number sign: a text
    and the same text with a fragment appended have the same normal form,
    and the one raises exactly when the other does. *)
Theorem normalization_ignores_an_appended_fragment u f :
  _normalize_url (u +:+ "#" +:+ f) = _normalize_url u.
Proof.
  change ("#" +:+ f) with (String "#" f).
  pose proof (urlparse_fragment u f) as H. unfold _normalize_url.
  destruct (urlparse u) as [p|], (urlparse (u +:+ String "#" f)) as [p'|];
    cbn in H; try contradiction; [|reflexivity].
  destruct H as (Hs & Hn & Hp & _ & Hq). cbn [mbind option_bind].
  now rewrite Hs, Hn, Hp, Hq.
Qed.

(** *** Trailing slashes and the normal form *)

(** The characters that end the path of a URL text. *)
Definition path_end (c : ascii) : bool :=
  Py.is_char "?" c || Py.is_char "#" c || Py.is_char ";" c.

(** The characters that start the query or the fragment. *)
Definition query_or_fragment (c : ascii) : bool :=
  Py.is_char "?" c || Py.is_char "#" c.

Lemma has_char_weaken (p q : ascii -> bool) s :
  (forall c, q c = true -> p c = true) ->
  Py.has_char p s = false -> Py.has_char q s = false.
Proof.
  intros Hpq. induction s as [|c s IH]; [reflexivity|]. cbn.
  intros [Hc Hs]%orb_false_iff. rewrite (IH Hs), orb_false_r.
  destruct (q c) eqn:Hq; [|reflexivity]. now rewrite (Hpq c Hq) in Hc.
Qed.

Lemma has_char_lstrip p q s :
  Py.has_char p s = false -> Py.has_char p (Py.lstrip q s) = false.
Proof.
  induction s as [|c s IH]; [reflexivity|]. cbn [Py.lstrip].
  destruct (q c); [|easy]. cbn. intros [_ Hs]%orb_false_iff. now apply IH.
Qed.

Lemma has_char_remove_chars p q s :
  Py.has_char p s = false -> Py.has_char p (Py.remove_chars q s) = false.
Proof.
  induction s as [|c s IH]; [reflexivity|]. cbn.
  intros [Hc Hs]%orb_false_iff. destruct (q c); [now apply IH|].
  cbn. now rewrite Hc, IH.
Qed.

Lemma starts_remove_unsafe p t :
  (forall c, p c = true -> Urllib.unsafe_char c = false) ->
  starts_with_char p t ->
  starts_with_char p (Py.remove_chars Urllib.unsafe_char t).
Proof.
  intros Hp. destruct t as [|c t]; [easy|]. cbn [starts_with_char].
  intros Hc. cbn [Py.remove_chars]. now rewrite (Hp c Hc).
Qed.

(** Cleaning a text that is followed by a slash, a query or a fragment. *)
Lemma sanitize_app a y :
  starts_with_char Urllib.netloc_delim y ->
  Urllib.sanitize (a +:+ y)
  = Urllib.sanitize a +:+ Py.remove_chars Urllib.unsafe_char y.
Proof.
  intros Hy. unfold Urllib.sanitize. destruct y as [|c y].
  - now rewrite !append_nil_r.
  - rewrite lstrip_app_stop, remove_chars_app; [reflexivity|].
    cbn [starts_with_char] in Hy. unfold Urllib.netloc_delim, Py.is_char in Hy.
    unfold Urllib.c0_or_space, Py.code.
    destruct (Ascii.eqb "/" c) eqn:H1; [apply Ascii.eqb_eq in H1 as <-; reflexivity|].
    destruct (Ascii.eqb "?" c) eqn:H2; [apply Ascii.eqb_eq in H2 as <-; reflexivity|].
    destruct (Ascii.eqb "#" c) eqn:H3; [apply Ascii.eqb_eq in H3 as <-; reflexivity|].
    discriminate.
Qed.

Lemma delim_cases c :
  Urllib.netloc_delim c = true -> c = "/"%char \/ c = "?"%char \/ c = "#"%char.
Proof.
  unfold Urllib.netloc_delim, Py.is_char.
  destruct (Ascii.eqb "/" c) eqn:H1; [apply Ascii.eqb_eq in H1; auto|].
  destruct (Ascii.eqb "?" c) eqn:H2; [apply Ascii.eqb_eq in H2; auto|].
  destruct (Ascii.eqb "#" c) eqn:H3; [apply Ascii.eqb_eq in H3; auto|].
  discriminate.
Qed.

(** The scheme of a text that is followed by a slash, a query or a
    fragment. *)
Lemma split_scheme_app s y :
  starts_with_char Urllib.netloc_delim y ->
  Urllib.split_scheme (s +:+ y)
  = ((Urllib.split_scheme s).1, (Urllib.split_scheme s).2 +:+ y).
Proof.
  intros Hy. destruct y as [|c y]; [now rewrite !append_nil_r; destruct (Urllib.split_scheme s)|].
  cbn [starts_with_char] in Hy.
  unfold Urllib.split_scheme. rewrite find_colon_app.
  destruct (Py.find ":" s) as [[|i]|] eqn:Hf.
  - reflexivity.
  - pose proof (find_colon_lt s (S i) Hf) as Hlt.
    destruct s as [|c0 r]; [discriminate|].
    rewrite append_cons.
    rewrite <- (append_cons c0 r (String c y)).
    rewrite take_app_within by lia. rewrite drop_app_within by lia.
    now destruct (Py.is_ascii_alpha c0 && _).
  - assert (Py.find ":" (String c y) = option_map S (Py.find ":" y)) as ->.
    { cbn [Py.find Py.startswith].
      destruct (delim_cases c Hy) as [->|[->| ->]]; cbn;
        now destruct (Py.find ":" y). }
    destruct (Py.find ":" y) as [k|]; [|reflexivity].
    cbn [option_map]. rewrite Nat.add_succ_r.
    destruct s as [|c0 r].
    { rewrite append_nil_l.
      destruct (delim_cases c Hy) as [->|[->| ->]]; reflexivity. }
    rewrite append_cons. rewrite <- (append_cons c0 r (String c y)).
    replace (S (String.length (String c0 r) + k))
      with (String.length (String c0 r) + S k)%nat by lia.
    rewrite take_app_beyond, all_chars_app.
    assert (Py.all_chars Urllib.scheme_char (Py.take (S k) (String c y)) = false)
      as ->.
    { cbn. destruct (delim_cases c Hy) as [->|[->| ->]]; reflexivity. }
    now rewrite andb_false_r, andb_false_r.
Qed.

Lemma break_app_clean p a b :
  Py.has_char p a = false ->
  Py.break p (a +:+ b) = (a +:+ (Py.break p b).1, (Py.break p b).2).
Proof.
  intros Ha. induction a as [|c a IH].
  - rewrite !append_nil_l. now destruct (Py.break p b).
  - cbn in Ha. apply orb_false_iff in Ha as [Hc Ha].
    rewrite append_cons. cbn [Py.break]. rewrite Hc, (IH Ha).
    now rewrite append_cons.
Qed.

Lemma rstrip_app_slash s : Py.rstrip slash (s +:+ "/") = Py.rstrip slash s.
Proof.
  induction s as [|c s IH]; [reflexivity|].
  rewrite append_cons, !rstrip_cons, IH. reflexivity.
Qed.

(** The three splits [urlparse] makes after the network location, on a
    path part [w] without question mark, number sign or semicolon that is
    followed by a query or a fragment. *)
Lemma tail_fragment w t :
  Py.has_char path_end w = false ->
  (if Py.has_char (Py.is_char "#") (w +:+ t) then Py.split1 "#" (w +:+ t)
   else (w +:+ t, EmptyString))
  = (w +:+ (Py.break (Py.is_char "#") t).1,
     Py.drop 1 (Py.break (Py.is_char "#") t).2).
Proof.
  intros Hw.
  assert (Py.has_char (Py.is_char "#") w = false) as Hh.
  { apply (has_char_weaken path_end); [|exact Hw].
    intros c Hc. unfold path_end. now rewrite Hc, orb_true_r. }
  rewrite (split1_or_whole "#"), (split1_break "#").
  now rewrite (break_app_clean _ w t Hh).
Qed.

Lemma tail_query w t :
  Py.has_char path_end w = false ->
  starts_with_char query_or_fragment t ->
  let t1 := (Py.break (Py.is_char "#") t).1 in
  (if Py.has_char (Py.is_char "?") (w +:+ t1) then Py.split1 "?" (w +:+ t1)
   else (w +:+ t1, EmptyString))
  = (w, Py.drop 1 t1).
Proof.
  intros Hw Ht t1.
  assert (Py.has_char (Py.is_char "?") w = false) as Hq.
  { apply (has_char_weaken path_end); [|exact Hw].
    intros c Hc. unfold path_end. now rewrite Hc. }
  assert (starts_with_char (Py.is_char "?") t1) as Ht1.
  { unfold t1. destruct t as [|c t]; [exact I|]. cbn [starts_with_char] in Ht.
    cbn [Py.break]. destruct (Py.is_char "#" c) eqn:Hc; [exact I|].
    destruct (Py.break (Py.is_char "#") t). cbn [fst starts_with_char].
    unfold query_or_fragment in Ht. now rewrite Hc, orb_false_r in Ht. }
  rewrite (split1_or_whole "?"), (split1_break "?").
  now rewrite (break_app _ w t1 Hq Ht1).
Qed.

Lemma tail_params sch w :
  Py.has_char path_end w = false ->
  (if Urllib.in_list sch Urllib.uses_params && Py.has_char (Py.is_char ";") w
   then Urllib.splitparams w
   else (w, EmptyString))
  = (w, EmptyString).
Proof.
  intros Hw.
  assert (Py.has_char (Py.is_char ";") w = false) as ->.
  { apply (has_char_weaken path_end); [|exact Hw].
    intros c Hc. unfold path_end. now rewrite Hc, !orb_true_r. }
  now rewrite andb_false_r.
Qed.

Lemma break_app_delim p a y :
  starts_with_char p y ->
  Py.break p (a +:+ y) = ((Py.break p a).1, (Py.break p a).2 +:+ y).
Proof.
  intros Hy. destruct y as [|c y].
  - rewrite !append_nil_r. now destruct (Py.break p a).
  - now apply break_app_stop.
Qed.

Lemma delim_of_query c : query_or_fragment c = true -> Urllib.netloc_delim c = true.
Proof.
  unfold query_or_fragment, Urllib.netloc_delim.
  intros [->| ->]%orb_true_iff; [now rewrite orb_true_r|now rewrite !orb_true_r].
Qed.

Lemma starts_weaken (p q : ascii -> bool) t :
  (forall c, p c = true -> q c = true) ->
  starts_with_char p t -> starts_with_char q t.
Proof. intros H. destruct t as [|c t]; [easy|]. apply H. Qed.

Lemma no_slashes_at_start t :
  starts_with_char query_or_fragment t ->
  Py.startswith "/" t = false.
Proof.
  destruct t as [|c t]; [reflexivity|]. cbn [starts_with_char]. intros Hq.
  cbn [Py.startswith]. destruct (Ascii.eqb "/" c) eqn:H; [|reflexivity].
  apply Ascii.eqb_eq in H as <-. discriminate Hq.
Qed.

(** The network location [urlparse] splits off, for a text [r] without
    question mark, number sign or semicolon that is followed by a query or
    a fragment [t], and for the same text with a slash before [t]: the
    location is the same, and the two rests have the same path up to
    trailing slashes. *)
Lemma netloc_slash r t :
  Py.has_char path_end r = false ->
  starts_with_char query_or_fragment t ->
  exists loc w1 w2,
    (if Py.startswith "//" (r +:+ t)
     then Py.break Urllib.netloc_delim (Py.drop 2 (r +:+ t))
     else (EmptyString, r +:+ t)) = (loc, w1 +:+ t)
    /\ (if Py.startswith "//" (r +:+ String "/" t)
        then Py.break Urllib.netloc_delim (Py.drop 2 (r +:+ String "/" t))
        else (EmptyString, r +:+ String "/" t)) = (loc, w2 +:+ t)
    /\ Py.has_char path_end w1 = false
    /\ Py.has_char path_end w2 = false
    /\ Py.rstrip slash w1 = Py.rstrip slash w2.
Proof.
  intros Hr Ht.
  pose proof (no_slashes_at_start t Ht) as Hns.
  pose proof (starts_weaken _ _ t delim_of_query Ht) as Htd.
  assert (forall w, Py.has_char path_end w = false ->
                    Py.has_char path_end (w +:+ "/") = false) as Hclean.
  { intros w Hw. now rewrite has_char_app, Hw. }
  destruct r as [|c1 r1].
  { (* nothing before the query *)
    exists EmptyString, EmptyString, "/". rewrite !append_nil_l.
    assert (Py.startswith "//" t = false) as ->.
    { destruct t as [|c t]; [reflexivity|]. cbn [Py.startswith] in Hns |- *.
      rewrite andb_true_r in Hns. now rewrite Hns. }
    assert (Py.startswith "//" (String "/" t) = false) as ->.
    { cbn. exact Hns. }
    now repeat split. }
  destruct (Ascii.eqb "/" c1) eqn:H1.
  2:{ (* no network location *)
    exists EmptyString, (String c1 r1), (String c1 r1 +:+ "/").
    rewrite !append_cons. cbn [Py.startswith]. rewrite H1. cbn [andb].
    rewrite <- !append_cons, append_assoc.
    split; [reflexivity|]. split; [reflexivity|].
    split; [exact Hr|]. split; [now apply Hclean|].
    now rewrite rstrip_app_slash. }
  apply Ascii.eqb_eq in H1 as <-.
  destruct r1 as [|c2 r2].
  { (* the text is a single slash *)
    exists EmptyString, "/", EmptyString.
    change ("/" +:+ t) with (String "/" t).
    change ("/" +:+ String "/" t) with (String "/" (String "/" t)).
    assert (Py.startswith "//" (String "/" t) = false) as ->.
    { cbn. exact Hns. }
    change (Py.startswith "//" (String "/" (String "/" t))) with true.
    change (Py.drop 2 (String "/" (String "/" t))) with t.
    assert (Py.break Urllib.netloc_delim t = (EmptyString, t)) as ->.
    { destruct t as [|c t]; [reflexivity|]. cbn [starts_with_char] in Htd.
      cbn [Py.break]. now rewrite Htd. }
    now repeat split. }
  destruct (Ascii.eqb "/" c2) eqn:H2.
  2:{ exists EmptyString, (String "/" (String c2 r2)),
        (String "/" (String c2 r2) +:+ "/").
    rewrite !append_cons. cbn [Py.startswith]. rewrite H2. cbn [andb].
    rewrite <- !append_cons, append_assoc.
    split; [reflexivity|]. split; [reflexivity|].
    split; [exact Hr|]. split; [now apply Hclean|].
    now rewrite rstrip_app_slash. }
  apply Ascii.eqb_eq in H2 as <-.
  assert (Py.has_char path_end r2 = false) as Hr2.
  { cbn in Hr. exact Hr. }
  exists (Py.break Urllib.netloc_delim r2).1,
         (Py.break Urllib.netloc_delim r2).2,
         ((Py.break Urllib.netloc_delim r2).2 +:+ "/").
  rewrite !append_cons.
  change (Py.startswith "//" (String "/" (String "/" ?x))) with true.
  cbn [Py.startswith Ascii.eqb Bool.eqb andb Py.drop].
  rewrite (break_app_delim _ r2 t Htd).
  rewrite (break_app_delim _ r2 (String "/" t) eq_refl).
  rewrite append_assoc.
  split; [reflexivity|]. split; [reflexivity|].
  assert (Py.has_char path_end (Py.break Urllib.netloc_delim r2).2 = false) as Hb.
  { rewrite (break_append Urllib.netloc_delim r2), has_char_app in Hr2.
    now apply orb_false_iff in Hr2 as [_ ?]. }
  split; [exact Hb|]. split; [now apply Hclean|].
  now rewrite rstrip_app_slash.
Qed.

(** The parse of a text and of the text with a slash put at the end of
    its path. *)
Definition same_but_slashes (a b : option Urllib.ParseResult) : Prop :=
  match a, b with
  | Some p, Some p' =>
      Urllib.scheme p = Urllib.scheme p' /\ Urllib.netloc p = Urllib.netloc p'
      /\ Py.rstrip slash (Urllib.path p) = Py.rstrip slash (Urllib.path p')
      /\ Urllib.query p = Urllib.query p'
  | None, None => True
  | _, _ => False
  end.

Lemma urlparse_slash a t :
  Py.has_char path_end a = false ->
  starts_with_char query_or_fragment t ->
  same_but_slashes (urlparse (a +:+ t)) (urlparse (a +:+ "/" +:+ t)).
Proof.
  intros Ha Ht.
  pose proof (starts_weaken _ _ t delim_of_query Ht) as Htd.
  unfold Urllib.urlparse.
  change ("/" +:+ t) with (String "/" t).
  rewrite (sanitize_app a t Htd), (sanitize_app a (String "/" t) eq_refl).
  change (Py.remove_chars Urllib.unsafe_char (String "/" t))
    with (String "/" (Py.remove_chars Urllib.unsafe_char t)).
  assert (starts_with_char query_or_fragment
            (Py.remove_chars Urllib.unsafe_char t)) as Ht'.
  { apply starts_remove_unsafe; [|exact Ht].
    intros c. unfold query_or_fragment, Py.is_char.
    intros [H| H]%orb_true_iff; apply Ascii.eqb_eq in H as <-; reflexivity. }
  assert (Py.has_char path_end (Urllib.split_scheme (Urllib.sanitize a)).2 = false)
    as Hr.
  { apply split_scheme_rest_clean. unfold Urllib.sanitize.
    now apply has_char_remove_chars, has_char_lstrip. }
  generalize dependent (Py.remove_chars Urllib.unsafe_char t). clear t Ht Htd.
  intros t Ht.
  pose proof (starts_weaken _ _ t delim_of_query Ht) as Htd.
  rewrite (split_scheme_app _ t Htd), (split_scheme_app _ (String "/" t) eq_refl).
  destruct (Urllib.split_scheme (Urllib.sanitize a)) as [sch r]. cbn [fst snd] in *.
  destruct (netloc_slash r t Hr Ht) as (loc & w1 & w2 & -> & -> & H1 & H2 & Hw).
  destruct (Py.truthy loc && negb (netloc_ok loc)); [exact I|].
  rewrite (tail_fragment w1 t H1), (tail_fragment w2 t H2).
  rewrite (tail_query w1 t H1 Ht), (tail_query w2 t H2 Ht).
  rewrite (tail_params sch w1 H1), (tail_params sch w2 H2).
  cbn. now repeat split.
Qed.

(** A slash at the end of the path does not reach the normal form. *)
Lemma normalize_url_slash a t :
  Py.has_char path_end a = false ->
  starts_with_char query_or_fragment t ->
  _normalize_url (a +:+ "/" +:+ t) = _normalize_url (a +:+ t).
Proof.
  intros Ha Ht. pose proof (urlparse_slash a t Ha Ht) as H.
  unfold _normalize_url.
  destruct (urlparse (a +:+ t)) as [p|], (urlparse (a +:+ "/" +:+ t)) as [p'|];
    cbn in H; try contradiction; [|reflexivity].
  destruct H as (Hs & Hn & Hp & Hq). cbn [mbind option_bind].
  now rewrite Hs, Hn, Hp, Hq.
Qed.

(** C9 (as the code has it): normalizing twice is normalizing once for
    every URL that has a scheme and a network location and no semicolon
    in its path; a text and the text with a fragment appended have the
    same normal form; and so have a text and the text with one more slash
    at the end of its path, when the path has no semicolon: the text is
    cut where its query or its fragment starts, and the part before has
    no question mark, number sign or semicolon. *)
Theorem normalization_idempotent_on_absolute_urls :
  (forall u p,
      urlparse u = Some p ->
      Urllib.scheme p <> EmptyString -> Urllib.netloc p <> EmptyString ->
      Py.has_char (Py.is_char ";") (Urllib.path p) = false ->
      exists v, _normalize_url u = Some v /\ _normalize_url v = Some v)
  /\ (forall u f, _normalize_url (u +:+ "#" +:+ f) = _normalize_url u)
  /\ (forall a t,
        Py.has_char path_end a = false ->
        starts_with_char query_or_fragment t ->
        _normalize_url (a +:+ "/" +:+ t) = _normalize_url (a +:+ t)).
Proof.
  split; [|split].
  - intros u p Hp Hs Hn Hsemi.
    destruct (_normalize_url u) as [v|] eqn:Hv.
    + exists v. split; [reflexivity|].
      now apply (normalize_url_idempotent u p v).
    + unfold _normalize_url in Hv. now rewrite Hp in Hv.
  - intros u f. change ("#" +:+ f) with (String "#" f).
    pose proof (urlparse_fragment u f) as H. unfold _normalize_url.
    destruct (urlparse u) as [p|], (urlparse (u +:+ String "#" f)) as [p'|];
      cbn in H; try contradiction; [|reflexivity].
    destruct H as (Hs & Hn & Hp & _ & Hq). cbn [mbind option_bind].
    now rewrite Hs, Hn, Hp, Hq.
  - exact normalize_url_slash.
Qed.

End Scraper.

Arguments fields {Fields} _.
Arguments registration_url {Fields} _.
Arguments re_enrollment_date {Fields} _.
Arguments new_registration_date {Fields} _.
Arguments crawled_pages {Fields} _.
Arguments url {Fields} _.
Arguments domain {Fields} _.
Arguments base_url {Fields} _.
Arguments max_pages {Fields} _.
Arguments max_depth {Fields} _.
Arguments visited_urls {Fields} _.
Arguments pages_crawled {Fields} _.
Arguments data {Fields} _.
Arguments clock {Fields} _.
Arguments log {Fields} _.
Arguments Returned {Fields} _.
Arguments Raised {Fields} _.
Arguments result_self {Fields} _.

(** ** The regular expressions of the date patterns

    A model of [re.findall] with [re.IGNORECASE] for the constructs the
    date patterns use: literals, [\s], [\d], grouping, alternation, the
    greedy quantifiers and the negative lookahead, matched by backtracking
    with the leftmost alternative first. *)

Module Re.

Inductive regex :=
| Eps
| Chr (c : ascii)
| Space
| Digit
| Seq (a b : regex)
| Alt (a b : regex)
| Rep (lo : nat) (hi : option nat) (a : regex)
| Group (i : nat) (a : regex)
| NotAhead (a : regex).

(** The text each group matched last, newest first. *)
Definition captures := list (nat * string).

Definition result := option (captures * string).

Definition one_char (p : ascii -> bool) (s : string) (caps : captures)
    (k : string -> captures -> result) : result :=
  match s with
  | String x s' => if p x then k s' caps else None
  | EmptyString => None
  end.

Definition same_letter (c x : ascii) : bool :=
  Ascii.eqb (Py.lower_char x) (Py.lower_char c).

(** [run r s caps k]: match [r] at the start of [s], then go on with the
    continuation [k] on the rest; the first success wins. *)
Fixpoint run (r : regex) (s : string) (caps : captures)
    (k : string -> captures -> result) {struct r} : result :=
  match r with
  | Eps => k s caps
  | Chr c => one_char (same_letter c) s caps k
  | Space => one_char Py.isspace s caps k
  | Digit => one_char Py.is_ascii_digit s caps k
  | Seq a b => run a s caps (fun s' caps' => run b s' caps' k)
  | Alt a b =>
      match run a s caps k with
      | Some x => Some x
      | None => run b s caps k
      end
  | Rep lo hi a =>
      (fix rep (fuel lo : nat) (hi : option nat) (s : string) (caps : captures)
           {struct fuel} : result :=
         let stop := if (lo =? 0)%nat then k s caps else None in
         match fuel with
         | O => stop
         | S fuel' =>
             match hi with
             | Some O => stop
             | _ =>
                 match run a s caps
                         (fun s' caps' =>
                            if (String.length s' <? String.length s)%nat
                            then rep fuel' (Nat.pred lo) (option_map Nat.pred hi) s' caps'
                            else None) with
                 | Some x => Some x
                 | None => stop
                 end
             end
         end) (S (String.length s)) lo hi s caps
  | Group i a =>
      run a s caps
        (fun s' caps' =>
           k s' ((i, Py.take (String.length s - String.length s') s) :: caps'))
  | NotAhead a =>
      match run a s caps (fun s' caps' => Some (caps', s')) with
      | Some _ => None
      | None => k s caps
      end
  end.

Definition match_at (r : regex) (s : string) : result :=
  run r s [] (fun s' caps' => Some (caps', s')).

Fixpoint group_text (i : nat) (caps : captures) : string :=
  match caps with
  | [] => EmptyString
  | (j, t) :: rest => if (i =? j)%nat then t else group_text i rest
  end.

(** The tuple [findall] gives for a match: groups 1 to [n]. *)
Definition groups (n : nat) (caps : captures) : list string :=
  map (fun i => group_text i caps) (seq 1 n).

Definition tail (s : string) : string :=
  match s with String _ t => t | EmptyString => EmptyString end.

(** The non-overlapping matches, scanning from the left. *)
Fixpoint findall_from (fuel : nat) (r : regex) (n : nat) (s : string)
  : list (list string) :=
  match fuel with
  | O => []
  | S fuel' =>
      match match_at r s with
      | Some (caps, s') =>
          groups n caps
          :: (if (String.length s' <? String.length s)%nat
              then findall_from fuel' r n s'
              else match s with
                   | EmptyString => []
                   | String _ t => findall_from fuel' r n t
                   end)
      | None =>
          match s with
          | EmptyString => []
          | String _ t => findall_from fuel' r n t
          end
      end
  end.

(** *** Reading a pattern *)

Fixpoint read_nat (acc : nat) (s : string) : nat * string :=
  match s with
  | String c r =>
      if Py.is_ascii_digit c
      then read_nat (10 * acc + N.to_nat (Py.code c - 48)) r
      else (acc, s)
  | EmptyString => (acc, s)
  end.

(** The quantifier after an atom, if any. *)
Definition quantified (a : regex) (s : string) : option (regex * string) :=
  match s with
  | String "?" r => Some (Rep 0 (Some 1%nat) a, r)
  | String "*" r => Some (Rep 0 None a, r)
  | String "+" r => Some (Rep 1 None a, r)
  | String "{" r =>
      let '(lo, r1) := read_nat 0 r in
      match r1 with
      | String "}" r2 => Some (Rep lo (Some lo) a, r2)
      | String "," r2 =>
          let '(hi, r3) := read_nat 0 r2 in
          match r3 with
          | String "}" r4 => Some (Rep lo (Some hi) a, r4)
          | _ => None
          end
      | _ => None
      end
  | _ => Some (a, s)
  end.

(** Alternation, sequence, quantified atom and atom; [g] counts the
    capturing groups opened so far. *)
Fixpoint parse_alt (fuel : nat) (s : string) (g : nat) {struct fuel}
  : option (regex * string * nat) :=
  match fuel with
  | O => None
  | S fuel =>
      '(a, s1, g1) ← parse_seq fuel s g;
      match s1 with
      | String "|" s2 =>
          '(b, s3, g3) ← parse_alt fuel s2 g1;
          Some (Alt a b, s3, g3)
      | _ => Some (a, s1, g1)
      end
  end
with parse_seq (fuel : nat) (s : string) (g : nat) {struct fuel}
  : option (regex * string * nat) :=
  match fuel with
  | O => None
  | S fuel =>
      match s with
      | EmptyString => Some (Eps, s, g)
      | String "|" _ => Some (Eps, s, g)
      | String ")" _ => Some (Eps, s, g)
      | _ =>
          '(a, s1, g1) ← parse_atom fuel s g;
          '(a', s2) ← quantified a s1;
          '(b, s3, g3) ← parse_seq fuel s2 g1;
          Some (Seq a' b, s3, g3)
      end
  end
with parse_atom (fuel : nat) (s : string) (g : nat) {struct fuel}
  : option (regex * string * nat) :=
  match fuel with
  | O => None
  | S fuel =>
      match s with
      | String "(" (String "?" (String ":" s1)) =>
          '(a, s2, g2) ← parse_alt fuel s1 g;
          match s2 with String ")" s3 => Some (a, s3, g2) | _ => None end
      | String "(" (String "?" (String "!" s1)) =>
          '(a, s2, g2) ← parse_alt fuel s1 g;
          match s2 with String ")" s3 => Some (NotAhead a, s3, g2) | _ => None end
      | String "(" s1 =>
          '(a, s2, g2) ← parse_alt fuel s1 (S g);
          match s2 with String ")" s3 => Some (Group (S g) a, s3, g2) | _ => None end
      | String "\" (String "s" s1) => Some (Space, s1, g)
      | String "\" (String "d" s1) => Some (Digit, s1, g)
      | String c s1 => Some (Chr c, s1, g)
      | EmptyString => None
      end
  end.

(** [re.compile(pattern)]: the expression and its number of groups. *)
Definition compile (pattern : string) : option (regex * nat) :=
  match parse_alt (3 * String.length pattern + 3) pattern 0 with
  | Some (r, EmptyString, g) => Some (r, g)
  | _ => None
  end.

(** [re.findall(pattern, s, re.IGNORECASE)] for a pattern with two or more
    groups. *)
Definition findall (pattern s : string) : list (list string) :=
  match compile pattern with
  | Some (r, n) => findall_from (S (String.length s)) r n s
  | None => []
  end.

End Re.

(** ** Sample crawls *)

Module Demo.

(** A world for running the crawl: a network location is accepted unless
    it has one square bracket without the other, which is the first check
    of the library; pages are served from a table, whatever the time; the
    clock stands at ten in the morning of 1 June 2025; the static fields
    are reduced to the markup the field extractors were given, and the
    extractors raise on a markup with the mark [postalCode:number], for a
    JSON-LD address whose postal code is a number.  The pages of the
    samples have no relative link, so [urljoin] is never called. *)
Definition netloc_ok (loc : string) : bool :=
  Bool.eqb (Py.has_char (Py.is_char "[") loc) (Py.has_char (Py.is_char "]") loc).

Definition urljoin (base reference : string) : option string := None.

Definition now (n : nat) : datetime :=
  {| Datetime.year := 2025; Datetime.month := 6; Datetime.day := 1;
     Datetime.micros := 36000000000 |}.

Definition Fields : Type := string.

Definition extract_main_page_data (soup : Page) (f : Fields) : Fields * bool :=
  (html soup, negb (Py.contains "postalCode:number" (html soup))).

Fixpoint fetch_from (site : list (string * Page)) (n : nat) (u : string)
  : option Page :=
  match site with
  | [] => None
  | (v, page) :: rest => if String.eqb u v then Some page else fetch_from rest n u
  end.

Definition new_scraper (u : string) (maxp maxd : Z) : option (ProgramScraper Fields) :=
  __init__ netloc_ok Fields u maxp maxd "".

(** A call of [scrape(crawl=True)]. *)
Definition run_with (list_set : list string -> list string)
    (site : list (string * Page)) (fuel : nat) (self : ProgramScraper Fields)
  : option (Result Fields) :=
  scrape netloc_ok urljoin Re.findall list_set (fetch_from site) now Fields
         extract_main_page_data fuel true self.

Definition run := run_with remove_dups.

(** The scraper of a call that returned. *)
Definition returned (r : option (Result Fields))
  : option (ProgramScraper Fields) :=
  match r with Some (Returned self) => Some self | _ => None end.

Definition crawl_with (list_set : list string -> list string)
    (site : list (string * Page)) (fuel : nat) (self : ProgramScraper Fields)
  : option (ProgramScraper Fields) :=
  returned (run_with list_set site fuel self).

Definition crawl := crawl_with remove_dups.

Definition link (h t : string) : Anchor := {| href := h; get_text := t |}.

(** A home page that links to itself and to a registration page. *)
Definition home : Page :=
  {| html := "<home>";
     anchors := [link "/" "Home"; link "/register" "Register Now"];
     text := "Welcome to our after-school program" |}.

Definition register_page : Page :=
  {| html := "<register>";
     anchors := [link "/" "Home"];
     text := "Registration opens March 1, 2030" |}.

Definition site_home : list (string * Page) :=
  [("https://example.org/", home); ("https://example.org", home);
   ("https://example.org/register", register_page)].

(** Two pages that both announce a re-enrollment date. *)
Definition dates_first : Page :=
  {| html := "<first>";
     anchors := [link "/dates" "Important dates"];
     text := "Re-enrollment for current students begins January 15, 2030." |}.

Definition dates_second : Page :=
  {| html := "<second>";
     anchors := [];
     text := "Re-enrollment deadline: February 1, 2030" |}.

Definition site_dates : list (string * Page) :=
  [("https://example.org", dates_first);
   ("https://example.org/dates", dates_second)].

(** Two pages that both carry a registration link. *)
Definition links_first : Page :=
  {| html := "<first>";
     anchors := [link "/register" "Register"];
     text := "Join us" |}.

Definition links_second : Page :=
  {| html := "<second>";
     anchors := [link "/enroll-now" "Enroll now"];
     text := "Pick a session" |}.

Definition site_links : list (string * Page) :=
  [("https://example.org", links_first);
   ("https://example.org/register", links_second)].

(** A page with a re-enrollment date and a registration form elsewhere. *)
Definition one_date : Page :=
  {| html := "<home>";
     anchors := [link "https://forms.example.com/register" "Register"];
     text := "Re-enrollment for current students begins January 15, 2030." |}.

Definition form_page : Page :=
  {| html := "<form>";
     anchors := [];
     text := "Registration opens March 1, 2030" |}.

Definition site_one_date : list (string * Page) :=
  [("https://example.org", one_date);
   ("https://forms.example.com/register", form_page)].

(** The same, with no date on the home page. *)
Definition no_date : Page :=
  {| html := "<home>";
     anchors := [link "https://forms.example.com/register" "Register"];
     text := "Welcome" |}.

Definition site_no_date : list (string * Page) :=
  [("https://example.org", no_date);
   ("https://forms.example.com/register", form_page)].

(** A home page that comes back with an empty body. *)
Definition blank : Page :=
  {| html := "<blank>"; anchors := [link "/register" "Register"]; text := "" |}.

Definition site_blank : list (string * Page) :=
  [("https://example.org", blank)].

(** A home page with a link whose host has an opening bracket only. *)
Definition broken_link : Page :=
  {| html := "<home>";
     anchors := [link "http://[" "Map"; link "/register" "Register"];
     text := "Welcome" |}.

Definition site_broken_link : list (string * Page) :=
  [("https://example.org", broken_link);
   ("https://example.org/register", register_page)].

(** A home page whose JSON-LD address has a number as postal code. *)
Definition bad_address : Page :=
  {| html := "<home postalCode:number>";
     anchors := [link "https://forms.example.com/register" "Register"];
     text := "Welcome" |}.

Definition site_bad_address : list (string * Page) :=
  [("https://example.org", bad_address);
   ("https://forms.example.com/register", form_page)].

(** A home page with a link to another host, written without the two
    slashes. *)
Definition other_host : Page :=
  {| html := "<home>";
     anchors := [link "https:other.example.com/classes" "Classes"];
     text := "Welcome" |}.

Definition site_other_host : list (string * Page) :=
  [("https://example.org", other_host);
   ("https://other.example.com/classes", form_page)].

(** A page whose links are discovered in the order
    register, about, schedule, contact. *)
Definition four_links : Page :=
  {| html := "<home>";
     anchors := [link "/register" "Register"; link "/about" "About";
                 link "/schedule" "Schedule"; link "/contact" "Contact"];
     text := "Welcome" |}.

End Demo.

(** ** The theorems on the sample crawls *)

Module Samples.
Import Demo.

(** The scraper [__init__] builds for a seed, ten pages and depth two. *)
Definition scraper (u dom base : string) : ProgramScraper Fields :=
  {| url := u; domain := dom; base_url := base;
     max_pages := 10; max_depth := 2;
     visited_urls := ∅; pages_crawled := 0;
     data := {| fields := ""; registration_url := None;
                re_enrollment_date := None; new_registration_date := None;
                crawled_pages := [] |};
     clock := O; log := [] |}.

Definition example_org : ProgramScraper Fields :=
  scraper "https://example.org" "example.org" "https://example.org".

Definition example_org_slash : ProgramScraper Fields :=
  scraper "https://example.org/" "example.org" "https://example.org".

Lemma new_example_org :
  new_scraper "https://example.org" 10 2 = Some example_org.
Proof. reflexivity. Qed.

Lemma new_example_org_slash :
  new_scraper "https://example.org/" 10 2 = Some example_org_slash.
Proof. reflexivity. Qed.

Definition date (y m d : Z) : datetime :=
  {| Datetime.year := y; Datetime.month := m; Datetime.day := d;
     Datetime.micros := 0 |}.

(** The state after the first evaluation of the loop. *)
Definition after_first_page (site : list (string * Page))
    (self : ProgramScraper Fields) : ProgramScraper Fields :=
  outcome_self Fields
    (scrape_iteration netloc_ok urljoin Re.findall remove_dups (fetch_from site)
       now Fields extract_main_page_data true self [(url self, 0)]).

Lemma returned_scrape (o : option (Result Fields)) r :
  returned o = Some r -> o = Some (Returned r).
Proof. destruct o as [[s|s]|]; cbn; congruence. Qed.

(** The scraper a call returns is a state of the crawl. *)
Lemma returned_crawl_state list_set site flag fuel self r :
  returned (scrape netloc_ok urljoin Re.findall list_set (fetch_from site) now
              Fields extract_main_page_data fuel flag self) = Some r ->
  crawl_state netloc_ok urljoin Re.findall list_set (fetch_from site) now
    Fields extract_main_page_data flag self r.
Proof.
  intros E. apply returned_scrape in E.
  exact (scrape_crawl_state _ _ _ _ _ _ _ _ _ _ _ _ E).
Qed.

(** C1, on the code: the first page sets the re-enrollment date to
    15 January 2030 and the second page, which gives 1 February 2030,
    replaces it. *)
Theorem re_enrollment_date_replaced_by_later_page :
  re_enrollment_date (data (after_first_page site_dates example_org))
  = Some (date 2030 1 15)
  /\ exists r,
       crawl site_dates 30 example_org = Some r
       /\ crawled_pages (data r)
          = ["https://example.org"; "https://example.org/dates"]
       /\ re_enrollment_date (data r) = Some (date 2030 2 1).
Proof.
  split; [vm_compute; reflexivity|].
  destruct (crawl site_dates 30 example_org) as [r|] eqn:E;
    [|vm_compute in E; discriminate].
  exists r. split; [reflexivity|].
  vm_compute in E. injection E as <-. split; reflexivity.
Qed.

(** C8, on the code: started at a seed with a trailing slash, the crawl
    fetches the home page a second time through its own link; the two
    entries of [crawled_pages] have the same normal form. *)
Theorem seed_with_trailing_slash_is_crawled_twice :
  exists r,
    crawl site_home 30 example_org_slash = Some r
    /\ crawled_pages (data r)
       = ["https://example.org/"; "https://example.org/register";
          "https://example.org"]
    /\ _normalize_url netloc_ok "https://example.org/"
       = Some "https://example.org"
    /\ _normalize_url netloc_ok "https://example.org"
       = Some "https://example.org".
Proof.
  destruct (crawl site_home 30 example_org_slash) as [r|] eqn:E;
    [|vm_compute in E; discriminate].
  exists r. split; [reflexivity|].
  vm_compute in E. injection E as <-. repeat split.
Qed.

(** C2 on a sample crawl. *)
Lemma crawl_within_limits_on_sample :
  exists r,
    crawl site_home 30 example_org_slash = Some r
    /\ pages_crawled r <= 10
    /\ forall v depth ok, Goto v depth ok ∈ log r -> depth <= 2.
Proof.
  destruct (crawl site_home 30 example_org_slash) as [r|] eqn:E;
    [|vm_compute in E; discriminate].
  exists r. split; [reflexivity|].
  apply (crawl_within_page_and_depth_limits
           netloc_ok urljoin Re.findall remove_dups (fetch_from site_home) now
           Fields extract_main_page_data true
           "https://example.org/" 10 2 "" example_org_slash r);
    [lia | lia | reflexivity | exact (returned_crawl_state _ _ _ _ _ _ E)].
Defined.

(** C10 on a sample crawl whose second request gives no page: the first
    request of the crawl, and the state the crawl returns. *)
Lemma crawled_pages_on_sample :
  (_crawl_page netloc_ok urljoin remove_dups (fetch_from site_links) Fields
     example_org "https://example.org" 0).1.2 = Some links_first
  /\ exists r,
       crawl site_links 30 example_org = Some r
       /\ crawled_pages (data r) = succeeded (log r)
       /\ pages_crawled r = Z.of_nat (length (requested (log r)))
       /\ NoDup (requested (log r))
       /\ (forall v, v ∈ unsuccessful (log r) ->
              v ∈ visited_urls r /\ v ∉ crawled_pages (data r))
       /\ Z.of_nat (length (crawled_pages (data r))) <= pages_crawled r
       /\ (Z.of_nat (length (crawled_pages (data r))) < pages_crawled r
           <-> unsuccessful (log r) <> []).
Proof.
  destruct (crawled_pages_are_successful_fetches
              netloc_ok urljoin Re.findall remove_dups (fetch_from site_links) now
              Fields extract_main_page_data true
              "https://example.org" 10 2 "" example_org ltac:(lia) eq_refl)
    as [Hrequest Hstate].
  split.
  - destruct (Hrequest example_org "https://example.org" 0
                ltac:(apply (bool_decide_unpack _); vm_compute; exact I)
                ltac:(vm_compute; reflexivity)
                ltac:(vm_compute; discriminate)) as (H & _).
    rewrite H. reflexivity.
  - destruct (crawl site_links 30 example_org) as [r|] eqn:E;
      [|vm_compute in E; discriminate].
    exists r. split; [reflexivity|].
    exact (Hstate r (returned_crawl_state _ _ _ _ _ _ E)).
Defined.

(** C10, the statement of the specification refuted: the only fetch of the
    crawl succeeds, the page has text, and the extraction of its links
    raises on a host with one bracket; the URL is visited and counted and
    is not among the crawled pages, so [crawled_pages] is shorter than
    [pages_crawled] and no fetch failed. *)
Lemma crawled_pages_shorter_without_a_failed_fetch :
  fetch_from site_broken_link 0 "https://example.org" = Some broken_link
  /\ Urllib.urlparse netloc_ok "http://[" = None
  /\ exists r,
       crawl site_broken_link 30 example_org = Some r
       /\ requested (log r) = ["https://example.org"]
       /\ "https://example.org" ∈ visited_urls r
       /\ pages_crawled r = 1
       /\ crawled_pages (data r) = [].
Proof.
  split; [reflexivity|]. split; [reflexivity|].
  destruct (crawl site_broken_link 30 example_org) as [r|] eqn:E;
    [|vm_compute in E; discriminate].
  exists r. split; [reflexivity|].
  vm_compute in E. injection E as <-.
  split; [reflexivity|]. split; [|split; reflexivity].
  apply (bool_decide_unpack _). vm_compute. exact I.
Qed.

(** C3 on a sample: with the regular expressions run on the text, the
    context of "March 1, 2020" gives no date in 2025, and the context of
    "March 15, 2020" gives no date of 2020. *)
Lemma past_date_rejected_on_sample :
  parse_date_from_context Re.findall (now 0) "registration opens march 1, 2020"
  = None
  /\ forall d,
       parse_date_from_context Re.findall (now 0) "registration opens march 15, 2020"
       = Some d ->
       Datetime.date_not_before d (now 0).
Proof.
  split; [vm_compute; reflexivity|].
  intros d H.
  exact (proj2 (proj1 (stored_dates_are_not_in_the_past
                         Re.findall (fetch_from []) now Fields)
                  (now 0) _ d H)).
Defined.

(** C4, the statement of the specification refuted: the field extractors
    never run when the seed page comes back with an empty body, when the
    request of the seed fails, and when the seed page is fetched with text
    and the extraction of its links raises. *)
Lemma field_extractors_may_never_run :
  (exists r,
     crawl site_blank 30 example_org = Some r
     /\ crawled_pages (data r) = ["https://example.org"]
     /\ main_page_runs (log r) = [])
  /\ (exists r,
        crawl [] 30 example_org = Some r
        /\ requested (log r) = ["https://example.org"]
        /\ unsuccessful (log r) = ["https://example.org"]
        /\ main_page_runs (log r) = [])
  /\ (fetch_from site_broken_link 0 "https://example.org" = Some broken_link
      /\ Py.truthy (text broken_link) = true
      /\ exists r,
           crawl site_broken_link 30 example_org = Some r
           /\ requested (log r) = ["https://example.org"]
           /\ main_page_runs (log r) = []).
Proof.
  split; [|split].
  - destruct (crawl site_blank 30 example_org) as [r|] eqn:E;
      [|vm_compute in E; discriminate].
    exists r. split; [reflexivity|].
    vm_compute in E. injection E as <-. repeat split.
  - destruct (crawl [] 30 example_org) as [r|] eqn:E;
      [|vm_compute in E; discriminate].
    exists r. split; [reflexivity|].
    vm_compute in E. injection E as <-. repeat split.
  - split; [reflexivity|]. split; [reflexivity|].
    destruct (crawl site_broken_link 30 example_org) as [r|] eqn:E;
      [|vm_compute in E; discriminate].
    exists r. split; [reflexivity|].
    vm_compute in E. injection E as <-. repeat split.
Qed.

(** C4 on two sample crawls: one of three pages, and one whose seed page
    makes a field extractor raise. *)
Lemma field_extractors_on_sample :
  (exists r,
     crawl site_home 30 example_org_slash = Some r
     /\ main_page_runs (log r) = ["https://example.org/"]
     /\ fields (data r) = "<home>")
  /\ (exists s,
        run site_bad_address 30 example_org = Some (Raised s)
        /\ main_page_runs (log s) = ["https://example.org"]
        /\ requested (log s) = ["https://example.org"]).
Proof.
  split.
  - destruct (crawl site_home 30 example_org_slash) as [r|] eqn:E;
      [|vm_compute in E; discriminate].
    exists r. split; [reflexivity|].
    apply returned_scrape in E.
    pose proof (proj2 (proj2 (field_extractors_run_on_the_seed_page_only
             netloc_ok urljoin Re.findall remove_dups (fetch_from site_home) now
             Fields extract_main_page_data true
             "https://example.org/" 10 2 "" example_org_slash
             ltac:(lia) ltac:(lia) eq_refl)) 30%nat (Returned r) E) as H.
    cbv zeta in H.
    change (seed_page netloc_ok urljoin remove_dups (fetch_from site_home) Fields
              example_org_slash) with (Some home) in H.
    destruct H as (H1 & H2 & _). split; [exact H1|exact H2].
  - destruct (run site_bad_address 30 example_org) as [[s|s]|] eqn:E;
      [vm_compute in E; discriminate| |vm_compute in E; discriminate].
    exists s. split; [reflexivity|].
    pose proof (proj2 (proj2 (field_extractors_run_on_the_seed_page_only
             netloc_ok urljoin Re.findall remove_dups (fetch_from site_bad_address)
             now Fields extract_main_page_data true
             "https://example.org" 10 2 "" example_org
             ltac:(lia) ltac:(lia) eq_refl)) 30%nat (Raised s) E) as H.
    cbv zeta in H.
    change (seed_page netloc_ok urljoin remove_dups (fetch_from site_bad_address)
              Fields example_org) with (Some bad_address) in H.
    destruct H as (H1 & _ & _ & H3). split; [exact H1|exact H3].
Defined.

(** C5, the statement of the specification refuted: the URL found on the
    first page is replaced by the one found on the second page. *)
Lemma registration_url_replaced_by_later_page :
  registration_url (data (after_first_page site_links example_org))
  = Some "https://example.org/register"
  /\ exists r,
       crawl site_links 30 example_org = Some r
       /\ crawled_pages (data r)
          = ["https://example.org"; "https://example.org/register"]
       /\ registration_url (data r) = Some "https://example.org/enroll-now".
Proof.
  split; [vm_compute; reflexivity|].
  destruct (crawl site_links 30 example_org) as [r|] eqn:E;
    [|vm_compute in E; discriminate].
  exists r. split; [reflexivity|].
  vm_compute in E. injection E as <-. split; reflexivity.
Qed.

(** C5 on a sample page. *)
Lemma registration_url_on_sample :
  registration_url
    (data (_extract_registration_info Re.findall now Fields
             (after_first_page site_links example_org) links_second))
  = Some "https://example.org/enroll-now".
Proof.
  rewrite (registration_url_is_first_match_of_latest_page Re.findall now Fields).
  reflexivity.
Defined.

(** C6, the statement of the specification refuted: the re-enrollment date
    is set, the new-registration date is missing, the registration URL was
    never requested, and yet it is not visited after the loop. *)
Lemma no_visit_when_only_one_date_is_missing :
  exists r,
    crawl site_one_date 30 example_org = Some r
    /\ registration_url (data r) = Some "https://forms.example.com/register"
    /\ requested (log r) = ["https://example.org"]
    /\ re_enrollment_date (data r) = Some (date 2030 1 15)
    /\ new_registration_date (data r) = None
    /\ registration_page_visits (log r) = [].
Proof.
  destruct (crawl site_one_date 30 example_org) as [r|] eqn:E;
    [|vm_compute in E; discriminate].
  exists r. split; [reflexivity|].
  vm_compute in E. injection E as <-. repeat split.
Qed.

(** C6 on two sample crawls: both dates are missing after the loop, and
    the registration URL is visited once; a field extractor raises, and the
    registration URL, found or not, is not visited. *)
Lemma registration_page_visit_on_sample :
  (exists r after_loop,
     crawl site_no_date 30 example_org = Some r
     /\ crawl_loop netloc_ok urljoin Re.findall remove_dups
          (fetch_from site_no_date) now Fields extract_main_page_data 30 true
          example_org [(url example_org, 0)] = Some (Returned after_loop)
     /\ registration_page_visits (log after_loop) = []
     /\ registration_page_visits (log r)
        = [("https://forms.example.com/register", true)]
     /\ new_registration_date (data r) = Some (date 2030 3 1))
  /\ (exists s,
        run site_bad_address 30 example_org = Some (Raised s)
        /\ registration_page_visits (log s) = []).
Proof.
  split.
  - destruct (crawl site_no_date 30 example_org) as [r|] eqn:E;
      [|vm_compute in E; discriminate].
    exists r. apply returned_scrape in E.
    destruct (proj2 (registration_page_is_visited_when_both_dates_are_missing
             netloc_ok urljoin Re.findall remove_dups (fetch_from site_no_date) now
             Fields extract_main_page_data true
             "https://example.org" 10 2 "" example_org eq_refl) 30%nat
             (Returned r) E)
      as (after_loop & Hloop & Hnone & Hdue).
    exists after_loop. split; [reflexivity|].
    split; [exact Hloop|]. split; [exact Hnone|].
    vm_compute in Hloop. injection Hloop as <-.
    vm_compute in Hdue. destruct Hdue as (Hv & _ & Hn).
    split; [exact Hv|exact Hn].
  - destruct (run site_bad_address 30 example_org) as [[s|s]|] eqn:E;
      [vm_compute in E; discriminate| |vm_compute in E; discriminate].
    exists s. split; [reflexivity|].
    exact (proj2 (proj2 (registration_page_is_visited_when_both_dates_are_missing
             netloc_ok urljoin Re.findall remove_dups (fetch_from site_bad_address)
             now Fields extract_main_page_data true
             "https://example.org" 10 2 "" example_org eq_refl) 30%nat
             (Raised s) E)).
Defined.





(** C9, the statement of the specification refuted: a relative reference,
    and an absolute URL whose last path segment has a semicolon, change
    when normalized a second time; and an absolute URL whose last path
    segment has a semicolon does not have the normal form of the same URL
    with a slash at its end. *)
Lemma normalization_not_idempotent :
  _normalize_url netloc_ok "foo" = Some "://foo"
  /\ _normalize_url netloc_ok "://foo" = Some "://://foo"
  /\ _normalize_url netloc_ok "http://a.com/b/;p/" = Some "http://a.com/b/;p"
  /\ _normalize_url netloc_ok "http://a.com/b/;p" = Some "http://a.com/b"
  /\ _normalize_url netloc_ok "http://a.com/b;p" = Some "http://a.com/b"
  /\ _normalize_url netloc_ok "http://a.com/b;p/" = Some "http://a.com/b;p".
Proof. repeat split. Qed.

(** C9 on sample URLs. *)
Lemma normalization_on_sample :
  (exists v, _normalize_url netloc_ok "HTTPS://Example.org/classes/?age=7#top" = Some v
             /\ _normalize_url netloc_ok v = Some v)
  /\ _normalize_url netloc_ok "https://example.org/classes/#top"
     = _normalize_url netloc_ok "https://example.org/classes/"
  /\ _normalize_url netloc_ok "https://example.org/classes/?age=7"
     = _normalize_url netloc_ok "https://example.org/classes?age=7".
Proof.
  destruct (normalization_idempotent_on_absolute_urls netloc_ok) as (H1 & H2 & H3).
  split; [|split].
  - apply (H1 "HTTPS://Example.org/classes/?age=7#top"
              {| Urllib.scheme := "https"; Urllib.netloc := "Example.org";
                 Urllib.path := "/classes/"; Urllib.params := "";
                 Urllib.query := "age=7"; Urllib.fragment := "top" |});
      [reflexivity|discriminate|discriminate|reflexivity].
  - exact (H2 "https://example.org/classes/" "top").
  - exact (H3 "https://example.org/classes" "?age=7" eq_refl eq_refl).
Defined.

End Samples.

(** ** The field extractors of the seed page

    [_extract_categories], [_infer_neighborhood] and
    [_extract_contact_info] of [scrape_program.py].  Each is given as the
    value it stores into [self.data]. *)

Module Extract.

(** *** Occurrences of one text in another *)

Lemma startswith_split p s :
  Py.startswith p s = true <-> exists t, s = p +:+ t.
Proof.
  revert s. induction p as [|a p IH]; intros s.
  - split; [intros _; now exists s|reflexivity].
  - destruct s as [|b s]; cbn [Py.startswith].
    + split; [discriminate|]. intros [t H]. rewrite append_cons in H. discriminate.
    + rewrite andb_true_iff, IH. split.
      * intros [Hab [t ->]]. apply Ascii.eqb_eq in Hab as ->.
        exists t. now rewrite append_cons.
      * intros [t H]. rewrite append_cons in H. injection H as -> ->.
        split; [apply Ascii.eqb_refl|now exists t].
Qed.

Lemma contains_cons sub c r :
  Py.contains sub (String c r)
  = Py.startswith sub (String c r) || Py.contains sub r.
Proof.
  unfold Py.contains. cbn [Py.find].
  destruct (Py.startswith sub (String c r)); [reflexivity|].
  now destruct (Py.find sub r).
Qed.

Lemma contains_nil sub : Py.contains sub "" = Py.startswith sub "".
Proof. unfold Py.contains. cbn [Py.find]. now destruct (Py.startswith sub ""). Qed.

(** [sub in s] says that [s] is some text, then [sub], then some text. *)
Lemma contains_split sub s :
  Py.contains sub s = true <-> exists pre post, s = pre +:+ sub +:+ post.
Proof.
  split.
  - induction s as [|c r IH].
    + rewrite contains_nil. intros H. apply startswith_split in H as [t H].
      exists "", t. now rewrite append_nil_l.
    + rewrite contains_cons, orb_true_iff. intros [H|H].
      * apply startswith_split in H as [t H]. exists "", t. now rewrite append_nil_l.
      * destruct (IH H) as (pre & post & ->). exists (String c pre), post.
        now rewrite append_cons.
  - intros (pre & post & ->). induction pre as [|c pre IH].
    + rewrite append_nil_l.
      assert (Py.startswith sub (sub +:+ post) = true) as H
        by (apply startswith_split; now exists post).
      destruct (sub +:+ post) as [|c r]; [now rewrite contains_nil|].
      now rewrite contains_cons, H.
    + rewrite append_cons, contains_cons, IH. apply orb_true_r.
Qed.

(** A text that occurs in an occurring text occurs. *)
Lemma contains_trans a b s :
  Py.contains a b = true -> Py.contains b s = true -> Py.contains a s = true.
Proof.
  rewrite !contains_split.
  intros (p1 & q1 & ->) (p2 & q2 & ->).
  exists (p2 +:+ p1), (q1 +:+ q2). now rewrite !append_assoc.
Qed.

(** [any(keyword in text_lower for keyword in keywords)]. *)
Definition any_keyword_in (keywords : list string) (text_lower : string) : bool :=
  existsb (fun keyword => Py.contains keyword text_lower) keywords.

Lemma any_keyword_in_true keywords text_lower :
  any_keyword_in keywords text_lower = true
  <-> exists keyword, keyword ∈ keywords /\ Py.contains keyword text_lower = true.
Proof.
  unfold any_keyword_in. rewrite existsb_exists.
  split; intros (k & H1 & H2); exists k; split; try assumption;
    now apply list_elem_of_In.
Qed.

Lemma any_keyword_in_false keywords text_lower :
  any_keyword_in keywords text_lower = false
  <-> forall keyword, keyword ∈ keywords -> Py.contains keyword text_lower = false.
Proof.
  rewrite <- not_true_iff_false, any_keyword_in_true. split.
  - intros H k Hk. apply not_true_iff_false. intros Hc. apply H. now exists k.
  - intros H (k & Hk & Hc). rewrite (H k Hk) in Hc. discriminate.
Qed.

(** A keyword that holds another keyword brings it along. *)
Lemma any_keyword_in_part keywords part keyword text_lower :
  part ∈ keywords -> Py.contains part keyword = true ->
  Py.contains keyword text_lower = true ->
  any_keyword_in keywords text_lower = true.
Proof.
  intros Hin Hp Hk. apply any_keyword_in_true. exists part.
  split; [exact Hin|]. now apply (contains_trans part keyword).
Qed.

(** *** Categories *)

(** The dictionary [category_keywords], in the order it is written. *)
Definition category_keywords : list (string * list string) :=
  [("swimming", ["swim"; "aquatic"; "water"; "pool"]);
   ("art", ["art"; "painting"; "drawing"; "sculpture"; "creative"]);
   ("chess", ["chess"]);
   ("soccer", ["soccer"; "football"]);
   ("music", ["music"; "piano"; "guitar"; "violin"; "instrument"]);
   ("dance", ["dance"; "ballet"; "hip hop"]);
   ("martial-arts", ["martial arts"; "karate"; "taekwondo"; "judo"; "kung fu"]);
   ("technology", ["coding"; "programming"; "computer"; "robotics"; "tech"]);
   ("academic", ["tutoring"; "math"; "science"; "reading"; "academic"]);
   ("science", ["science"; "stem"; "engineering"; "physics"; "chemistry"]);
   ("sports", ["sports"; "athletic"; "fitness"])].

(** The loop over the dictionary; [categories] is the list built so far. *)
Fixpoint categories_loop (table : list (string * list string))
    (text_lower : string) (categories : list string) : list string :=
  match table with
  | [] => categories
  | (category, keywords) :: rest =>
      if any_keyword_in keywords text_lower
      then categories_loop rest text_lower (categories ++ [category])%list
      else categories_loop rest text_lower categories
  end.

(** [_extract_categories]: the value stored into [data["category"]]. *)
Definition _extract_categories (text : string) : list string :=
  let text_lower := Py.lower text in
  let categories := categories_loop category_keywords text_lower [] in
  let categories :=
    match categories with [] => ["creative"] | _ => categories end in
  take 3 categories.

(** A row of a keyword table whose keywords occur in the text. *)
Definition row_matches (text_lower : string) (row : string * list string)
  : Prop :=
  any_keyword_in row.2 text_lower = true.

#[global] Instance row_matches_dec text_lower row :
  Decision (row_matches text_lower row).
Proof. unfold row_matches. apply _. Defined.

Lemma categories_loop_filter table text_lower categories :
  categories_loop table text_lower categories
  = (categories ++ (filter (row_matches text_lower) table).*1)%list.
Proof.
  revert categories. induction table as [|[category keywords] rest IH];
    intros categories.
  - cbn. now rewrite app_nil_r.
  - cbn [categories_loop].
    destruct (any_keyword_in keywords text_lower) eqn:Hk.
    + rewrite IH, filter_cons_True by exact Hk. cbn. now rewrite <- app_assoc.
    + rewrite IH, filter_cons_False; [reflexivity|].
      unfold row_matches. cbn [snd]. now rewrite Hk.
Qed.

Lemma extract_categories_filter text :
  _extract_categories text
  = match (filter (row_matches (Py.lower text)) category_keywords).*1 with
    | [] => ["creative"]
    | categories => take 3 categories
    end.
Proof.
  unfold _extract_categories. cbv zeta. rewrite categories_loop_filter.
  cbn [app]. now destruct ((filter _ category_keywords).*1).
Qed.

Lemma extract_categories_none text :
  filter (row_matches (Py.lower text)) category_keywords = [] ->
  _extract_categories text = ["creative"].
Proof. intros H. now rewrite extract_categories_filter, H. Qed.

Lemma extract_categories_some text row rows :
  filter (row_matches (Py.lower text)) category_keywords = row :: rows ->
  _extract_categories text = take 3 (row :: rows).*1.
Proof. intros H. now rewrite extract_categories_filter, H. Qed.

Lemma category_names_NoDup : NoDup category_keywords.*1.
Proof. apply (bool_decide_unpack _). vm_compute. exact I. Qed.

(** X14: [_extract_categories] stores one, two or three categories, never
    the same one twice.  They are either the single fallback "creative",
    or categories of the table in the order of the table, each with one of
    its keywords in the lower-cased text. *)
Theorem categories_are_up_to_three_in_table_order text :
  let categories := _extract_categories text in
  (1 <= length categories <= 3)%nat
  /\ NoDup categories
  /\ (categories = ["creative"]
      \/ (categories `sublist_of` category_keywords.*1
          /\ forall category,
               category ∈ categories ->
               exists keywords keyword,
                 (category, keywords) ∈ category_keywords
                 /\ keyword ∈ keywords
                 /\ Py.contains keyword (Py.lower text) = true)).
Proof.
  cbv zeta.
  pose proof (sublist_filter (row_matches (Py.lower text)) category_keywords) as Hsub.
  assert (forall row, row ∈ filter (row_matches (Py.lower text)) category_keywords ->
            exists keyword, keyword ∈ row.2
                            /\ Py.contains keyword (Py.lower text) = true
                            /\ row ∈ category_keywords) as Hrows.
  { intros row Hrow. apply list_elem_of_filter in Hrow as [Hm Hin].
    apply any_keyword_in_true in Hm as (k & Hk & Hc). now exists k. }
  destruct (filter (row_matches (Py.lower text)) category_keywords)
    as [|row rows] eqn:Hf.
  { rewrite (extract_categories_none text Hf). cbn.
    split; [lia|]. split; [apply NoDup_singleton|now left]. }
  rewrite (extract_categories_some text row rows Hf).
  assert (take 3 (row :: rows).*1 `sublist_of` category_keywords.*1) as Ht.
  { etransitivity; [apply sublist_take|]. now apply fmap_sublist. }
  split; [rewrite length_take, length_fmap; cbn [length]; lia|].
  split; [exact (sublist_NoDup _ _ category_names_NoDup Ht)|].
  right. split; [exact Ht|].
  intros category Hc.
  assert (category ∈ (row :: rows).*1) as Hin
    by (eapply elem_of_sublist; [exact Hc|apply sublist_take]).
  apply list_elem_of_fmap in Hin as ([c kws] & -> & Hin).
  destruct (Hrows _ Hin) as (k & Hk & Hcont & Htab).
  now exists kws, k.
Qed.

Lemma creative_without_match text :
  "creative" ∈ _extract_categories text
  <-> filter (row_matches (Py.lower text)) category_keywords = [].
Proof.
  pose proof (sublist_filter (row_matches (Py.lower text)) category_keywords)
    as Hsub.
  destruct (filter _ category_keywords) as [|row rows] eqn:Hf.
  - rewrite (extract_categories_none text Hf).
    split; [reflexivity|intros _; apply list_elem_of_here].
  - rewrite (extract_categories_some text row rows Hf).
    split; [|discriminate]. intros Hin. exfalso.
    assert ("creative" ∈ category_keywords.*1) as Hk.
    { eapply elem_of_sublist; [|apply fmap_sublist; exact Hsub].
      eapply elem_of_sublist; [exact Hin|apply sublist_take]. }
    revert Hk. unfold category_keywords. cbn [fmap list_fmap fst].
    rewrite !elem_of_cons, elem_of_nil. intuition discriminate.
Qed.

(** X15: "creative" is stored exactly when no keyword of the table occurs
    in the lower-cased text.  "creative" is itself a keyword, of the
    category "art": a text that says "creative" is never given the category
    "creative". *)
Theorem creative_is_the_category_of_a_text_without_keywords text :
  ("creative" ∈ _extract_categories text
   <-> forall category keywords keyword,
         (category, keywords) ∈ category_keywords ->
         keyword ∈ keywords ->
         Py.contains keyword (Py.lower text) = false)
  /\ (Py.contains "creative" (Py.lower text) = true ->
      ("creative" ∉ _extract_categories text)
      /\ "art" ∈ _extract_categories text).
Proof.
  pose proof (creative_without_match text) as Hc.
  assert (filter (row_matches (Py.lower text)) category_keywords = []
          <-> forall category keywords keyword,
                (category, keywords) ∈ category_keywords ->
                keyword ∈ keywords ->
                Py.contains keyword (Py.lower text) = false) as Hn.
  { split.
    - intros Hf category keywords keyword Hrow Hk.
      destruct (Py.contains keyword (Py.lower text)) eqn:Hcont; [|reflexivity].
      exfalso.
      assert ((category, keywords) ∈ filter (row_matches (Py.lower text))
                                            category_keywords) as Hin.
      { apply list_elem_of_filter. split; [|exact Hrow].
        apply any_keyword_in_true. now exists keyword. }
      rewrite Hf in Hin. now apply not_elem_of_nil in Hin.
    - intros Hall.
      destruct (filter _ category_keywords) as [|[c kws] rows] eqn:Hf;
        [reflexivity|]. exfalso.
      assert ((c, kws) ∈ filter (row_matches (Py.lower text)) category_keywords)
        as Hin by (rewrite Hf; apply list_elem_of_here).
      apply list_elem_of_filter in Hin as [Hm Hin].
      apply any_keyword_in_true in Hm as (k & Hk & Hcont).
      cbn in Hk. now rewrite (Hall c kws k Hin Hk) in Hcont. }
  split; [now rewrite Hc, Hn|].
  intros Hcreative.
  assert (row_matches (Py.lower text)
            ("art", ["art"; "painting"; "drawing"; "sculpture"; "creative"]))
    as Hart.
  { apply any_keyword_in_true. exists "creative". split; [|exact Hcreative].
    cbn. rewrite !elem_of_cons. tauto. }
  split.
  - rewrite Hc, Hn. intros Hall.
    rewrite (Hall "art" ["art"; "painting"; "drawing"; "sculpture"; "creative"]
               "creative") in Hcreative; [discriminate| |].
    + unfold category_keywords. rewrite !elem_of_cons. tauto.
    + rewrite !elem_of_cons. tauto.
  - rewrite extract_categories_filter. unfold category_keywords.
    destruct (decide (row_matches (Py.lower text)
                        ("swimming", ["swim"; "aquatic"; "water"; "pool"])))
      as [Hs|Hs].
    + rewrite filter_cons_True, filter_cons_True by assumption.
      cbn [fmap list_fmap fst take]. rewrite !elem_of_cons. tauto.
    + rewrite filter_cons_False, filter_cons_True by assumption.
      cbn [fmap list_fmap fst take]. rewrite !elem_of_cons. tauto.
Qed.

(** X16: keywords are looked for as parts of the text, not as words, and
    only the first three categories are kept.  So a text about "martial
    arts" always gets the category "art"; and when it also mentions
    swimming and chess, its categories are swimming, art and chess, and
    "martial-arts" is not among them. *)
Theorem a_text_about_martial_arts_is_categorised_as_art text :
  Py.contains "martial arts" (Py.lower text) = true ->
  "art" ∈ _extract_categories text
  /\ (Py.contains "swim" (Py.lower text) = true ->
      Py.contains "chess" (Py.lower text) = true ->
      _extract_categories text = ["swimming"; "art"; "chess"]).
Proof.
  intros Hm.
  assert (row_matches (Py.lower text)
            ("art", ["art"; "painting"; "drawing"; "sculpture"; "creative"]))
    as Hart.
  { apply (any_keyword_in_part _ "art" "martial arts");
      [cbn; rewrite !elem_of_cons; tauto|reflexivity|exact Hm]. }
  rewrite extract_categories_filter. unfold category_keywords. split.
  - destruct (decide (row_matches (Py.lower text)
                        ("swimming", ["swim"; "aquatic"; "water"; "pool"])))
      as [Hs|Hs].
    + rewrite filter_cons_True, filter_cons_True by assumption.
      cbn [fmap list_fmap fst take]. rewrite !elem_of_cons. tauto.
    + rewrite filter_cons_False, filter_cons_True by assumption.
      cbn [fmap list_fmap fst take]. rewrite !elem_of_cons. tauto.
  - intros Hswim Hchess.
    assert (row_matches (Py.lower text)
              ("swimming", ["swim"; "aquatic"; "water"; "pool"])) as Hs.
    { apply any_keyword_in_true. exists "swim". split; [|exact Hswim].
      cbn. rewrite !elem_of_cons. tauto. }
    assert (row_matches (Py.lower text) ("chess", ["chess"])) as Hc.
    { apply any_keyword_in_true. exists "chess". split; [|exact Hchess].
      cbn. rewrite !elem_of_cons. tauto. }
    rewrite filter_cons_True, filter_cons_True, filter_cons_True by assumption.
    reflexivity.
Qed.

(** *** Neighborhood *)

(** The dictionary [neighborhoods], in the order it is written. *)
Definition neighborhoods : list (string * list string) :=
  [("Marina District", ["marina"; "chestnut"; "lombard"]);
   ("Mission District", ["mission"; "valencia"; "24th"; "16th"]);
   ("SOMA", ["townsend"; "folsom"; "howard"; "2nd"; "3rd"]);
   ("Richmond District", ["geary"; "clement"]);
   ("Sunset District", ["judah"; "noriega"; "taraval"]);
   ("Noe Valley", ["24th"; "castro"; "noe"]);
   ("Castro", ["castro"; "market"; "18th"]);
   ("Pacific Heights", ["pacific"; "broadway"; "fillmore"]);
   ("Haight-Ashbury", ["haight"; "ashbury"]);
   ("North Beach", ["columbus"; "broadway"; "grant"])].

(** The loop over the dictionary: the first neighborhood with a keyword
    in the address, when the loop returns from inside. *)
Fixpoint neighborhood_loop (table : list (string * list string))
    (address_lower : string) : option string :=
  match table with
  | [] => None
  | (neighborhood, keywords) :: rest =>
      if any_keyword_in keywords address_lower then Some neighborhood
      else neighborhood_loop rest address_lower
  end.

(** [_infer_neighborhood]: the value stored into [data["neighborhood"]]. *)
Definition _infer_neighborhood (region_city address : string) : string :=
  let address_lower := Py.lower address in
  match neighborhood_loop neighborhoods address_lower with
  | Some neighborhood => neighborhood
  | None => region_city
  end.

Lemma neighborhood_loop_first table address_lower :
  match neighborhood_loop table address_lower with
  | Some neighborhood =>
      exists before keywords after,
        table = (before ++ (neighborhood, keywords) :: after)%list
        /\ any_keyword_in keywords address_lower = true
        /\ forall row, row ∈ before -> any_keyword_in row.2 address_lower = false
  | None => forall row, row ∈ table -> any_keyword_in row.2 address_lower = false
  end.
Proof.
  induction table as [|[neighborhood keywords] rest IH]; cbn [neighborhood_loop].
  - intros row Hrow. now apply not_elem_of_nil in Hrow.
  - destruct (any_keyword_in keywords address_lower) eqn:Hk.
    + exists [], keywords, rest. split; [reflexivity|]. split; [exact Hk|].
      intros row Hrow. now apply not_elem_of_nil in Hrow.
    + destruct (neighborhood_loop rest address_lower) as [found|].
      * destruct IH as (before & kws & after & -> & Hm & Hb).
        exists ((neighborhood, keywords) :: before), kws, after.
        split; [reflexivity|]. split; [exact Hm|].
        intros row Hrow. apply elem_of_cons in Hrow as [->|Hrow];
          [exact Hk|now apply Hb].
      * intros row Hrow. apply elem_of_cons in Hrow as [->|Hrow];
          [exact Hk|now apply IH].
Qed.

Lemma neighborhood_loop_app t1 t2 address_lower :
  neighborhood_loop (t1 ++ t2)%list address_lower
  = match neighborhood_loop t1 address_lower with
    | Some neighborhood => Some neighborhood
    | None => neighborhood_loop t2 address_lower
    end.
Proof.
  induction t1 as [|[neighborhood keywords] rest IH]; [reflexivity|].
  cbn [app neighborhood_loop].
  now destruct (any_keyword_in keywords address_lower).
Qed.

(** X17: [_infer_neighborhood] gives the neighborhood of the first row of
    the table, in the order it is written, that has a keyword in the
    lower-cased address; it gives [region_city] when no row has one. *)
Theorem neighborhood_is_the_first_row_with_a_keyword region_city address :
  let result := _infer_neighborhood region_city address in
  (result = region_city
   /\ forall row, row ∈ neighborhoods ->
        any_keyword_in row.2 (Py.lower address) = false)
  \/ exists before keywords after,
       neighborhoods = (before ++ (result, keywords) :: after)%list
       /\ any_keyword_in keywords (Py.lower address) = true
       /\ forall row, row ∈ before ->
            any_keyword_in row.2 (Py.lower address) = false.
Proof.
  cbv zeta. unfold _infer_neighborhood. cbv zeta.
  pose proof (neighborhood_loop_first neighborhoods (Py.lower address)) as H.
  destruct (neighborhood_loop neighborhoods (Py.lower address)) as [found|];
    [now right|now left].
Qed.

Lemma neighborhood_within table1 row table2 address_lower :
  any_keyword_in row.2 address_lower = true ->
  exists neighborhood,
    neighborhood_loop (table1 ++ row :: table2)%list address_lower = Some neighborhood
    /\ neighborhood ∈ ((table1 ++ [row])%list).*1.
Proof.
  intros Hk. induction table1 as [|[n kws] rest IH].
  - destruct row as [n kws]. cbn [snd] in Hk. cbn [app neighborhood_loop].
    rewrite Hk. exists n.
    split; [reflexivity|apply list_elem_of_here].
  - cbn [app neighborhood_loop].
    destruct (any_keyword_in kws address_lower).
    + exists n. split; [reflexivity|apply list_elem_of_here].
    + destruct IH as (found & -> & Hin). exists found.
      split; [reflexivity|]. cbn. now apply list_elem_of_further.
Qed.

(** X18: a keyword that two rows share only ever gives the earlier row.
    An address with "castro" in it is put in one of the six neighborhoods
    up to "Noe Valley" and never in "Castro"; and as keywords are looked
    for as parts of the address, an address with "3rd" in it, "43rd Avenue"
    as well as "3rd Street", is put in one of the first three. *)
Theorem shared_keywords_give_the_earlier_neighborhood region_city address :
  (Py.contains "castro" (Py.lower address) = true ->
   _infer_neighborhood region_city address
   ∈ ["Marina District"; "Mission District"; "SOMA"; "Richmond District";
      "Sunset District"; "Noe Valley"])
  /\ (Py.contains "3rd" (Py.lower address) = true ->
      _infer_neighborhood region_city address
      ∈ ["Marina District"; "Mission District"; "SOMA"]).
Proof.
  unfold _infer_neighborhood. cbv zeta. split; intros Hk.
  - destruct (neighborhood_within
                [("Marina District", ["marina"; "chestnut"; "lombard"]);
                 ("Mission District", ["mission"; "valencia"; "24th"; "16th"]);
                 ("SOMA", ["townsend"; "folsom"; "howard"; "2nd"; "3rd"]);
                 ("Richmond District", ["geary"; "clement"]);
                 ("Sunset District", ["judah"; "noriega"; "taraval"])]
                ("Noe Valley", ["24th"; "castro"; "noe"])
                [("Castro", ["castro"; "market"; "18th"]);
                 ("Pacific Heights", ["pacific"; "broadway"; "fillmore"]);
                 ("Haight-Ashbury", ["haight"; "ashbury"]);
                 ("North Beach", ["columbus"; "broadway"; "grant"])]
                (Py.lower address)) as (found & Hf & Hin).
    { apply any_keyword_in_true. exists "castro". split; [|exact Hk].
      cbn. rewrite !elem_of_cons. tauto. }
    change (neighborhood_loop neighborhoods (Py.lower address) = Some found) in Hf.
    rewrite Hf. exact Hin.
  - destruct (neighborhood_within
                [("Marina District", ["marina"; "chestnut"; "lombard"]);
                 ("Mission District", ["mission"; "valencia"; "24th"; "16th"])]
                ("SOMA", ["townsend"; "folsom"; "howard"; "2nd"; "3rd"])
                [("Richmond District", ["geary"; "clement"]);
                 ("Sunset District", ["judah"; "noriega"; "taraval"]);
                 ("Noe Valley", ["24th"; "castro"; "noe"]);
                 ("Castro", ["castro"; "market"; "18th"]);
                 ("Pacific Heights", ["pacific"; "broadway"; "fillmore"]);
                 ("Haight-Ashbury", ["haight"; "ashbury"]);
                 ("North Beach", ["columbus"; "broadway"; "grant"])]
                (Py.lower address)) as (found & Hf & Hin).
    { apply any_keyword_in_true. exists "3rd". split; [|exact Hk].
      cbn. rewrite !elem_of_cons. tauto. }
    change (neighborhood_loop neighborhoods (Py.lower address) = Some found) in Hf.
    rewrite Hf. exact Hin.
Qed.

(** *** Contact data and opening hours

    These two extractors search the text with regular expressions.  The
    matches are the library's: [re.findall] with a pattern that has no
    group, or one group, gives the matched texts, or the texts of the
    group; with several groups it gives the tuples of groups. *)

Section Patterns.

(** [re.findall(pattern, text)], for a pattern with no group. *)
Variable re_findall_plain : string -> string -> list string.

(** [re.findall(pattern, text, re.IGNORECASE)], for a pattern with one
    group. *)
Variable re_findall_group : string -> string -> list string.

(** [re.findall(pattern, text, re.IGNORECASE)], for a pattern with several
    groups. *)
Variable re_findall_groups : string -> string -> list (list string).

(** [re.search(pattern, text)] finds a match. *)
Variable re_search : string -> string -> bool.

Record Contact := {
  contact_email : option string;
  contact_phone : option string
}.

Definition email_pattern : string :=
  "\b[A-Za-z0-9._%+-]+@[A-Za-z0-9.-]+\.[A-Z|a-z]{2,}\b".

Definition phone_pattern : string :=
  "\(?\d{3}\)?[-.\s]?\d{3}[-.\s]?\d{4}".

(** [any(x in e.lower() for x in ['noreply', 'example', 'test'])]. *)
Definition unwanted (e : string) : bool :=
  existsb (fun x => Py.contains x (Py.lower e)) ["noreply"; "example"; "test"].

(** [_extract_contact_info]. *)
Definition _extract_contact_info (text : string) (d : Contact) : Contact :=
  let emails := re_findall_plain email_pattern text in
  let d :=
    match emails with
    | [] => d
    | _ =>
        match List.filter (fun e => negb (unwanted e)) emails with
        | e :: _ => {| contact_email := Some e; contact_phone := contact_phone d |}
        | [] => d
        end
    end in
  let phones := re_findall_plain phone_pattern text in
  match phones with
  | phone :: _ => {| contact_email := contact_email d; contact_phone := Some phone |}
  | [] => d
  end.

Lemma filter_first {A} (f : A -> bool) (l : list A) :
  match List.filter f l with
  | x :: _ =>
      exists before after,
        l = (before ++ x :: after)%list /\ f x = true
        /\ forall y, y ∈ before -> f y = false
  | [] => forall y, y ∈ l -> f y = false
  end.
Proof using Type.
  induction l as [|a l IH]; cbn [List.filter].
  - intros y Hy. now apply not_elem_of_nil in Hy.
  - destruct (f a) eqn:Ha.
    + exists [], l. split; [reflexivity|]. split; [exact Ha|].
      intros y Hy. now apply not_elem_of_nil in Hy.
    + destruct (List.filter f l) as [|x rest].
      * intros y Hy. apply elem_of_cons in Hy as [->|Hy]; [exact Ha|now apply IH].
      * destruct IH as (before & after & -> & Hx & Hb).
        exists (a :: before), after. split; [reflexivity|]. split; [exact Hx|].
        intros y Hy. apply elem_of_cons in Hy as [->|Hy]; [exact Ha|now apply Hb].
Qed.

(** X19: the e-mail address [_extract_contact_info] stores is the first
    match, in the order of the text, whose lower-cased form contains none
    of "noreply", "example" and "test" (so an address such as
    "contest@school.org" is passed over); when every match contains one of
    them the field is left as it was.  The phone number is the first match
    of the phone pattern. *)
Theorem contact_email_is_the_first_wanted_address text d :
  let d' := _extract_contact_info text d in
  let emails := re_findall_plain email_pattern text in
  ((contact_email d' = contact_email d
    /\ forall e, e ∈ emails -> unwanted e = true)
   \/ exists before e after,
        emails = (before ++ e :: after)%list
        /\ contact_email d' = Some e
        /\ Py.contains "noreply" (Py.lower e) = false
        /\ Py.contains "example" (Py.lower e) = false
        /\ Py.contains "test" (Py.lower e) = false
        /\ forall x, x ∈ before -> unwanted x = true)
  /\ contact_phone d'
     = match re_findall_plain phone_pattern text with
       | phone :: _ => Some phone
       | [] => contact_phone d
       end.
Proof.
  cbv zeta. unfold _extract_contact_info. cbv zeta.
  pose proof (filter_first (fun e => negb (unwanted e))
                (re_findall_plain email_pattern text)) as Hf.
  destruct (re_findall_plain phone_pattern text) as [|phone phones];
    (split; [|destruct (re_findall_plain email_pattern text) as [|e0 es];
              [reflexivity|];
              now destruct (List.filter _ (e0 :: es))]).
  - destruct (re_findall_plain email_pattern text) as [|e0 es].
    { left. split; [reflexivity|]. intros e He. now apply not_elem_of_nil in He. }
    destruct (List.filter _ (e0 :: es)) as [|e rest].
    + left. split; [reflexivity|]. intros x Hx.
      specialize (Hf x Hx). now apply negb_false_iff in Hf.
    + right. destruct Hf as (before & after & Hl & He & Hb).
      exists before, e, after. split; [exact Hl|]. split; [reflexivity|].
      apply negb_true_iff in He. unfold unwanted in He. cbn [existsb] in He.
      rewrite !orb_false_iff in He. destruct He as (? & ? & ? & _).
      repeat (split; [assumption|]).
      intros x Hx. specialize (Hb x Hx). now apply negb_false_iff in Hb.
  - destruct (re_findall_plain email_pattern text) as [|e0 es].
    { left. split; [reflexivity|]. intros e He. now apply not_elem_of_nil in He. }
    destruct (List.filter _ (e0 :: es)) as [|e rest].
    + left. split; [reflexivity|]. intros x Hx.
      specialize (Hf x Hx). now apply negb_false_iff in Hf.
    + right. destruct Hf as (before & after & Hl & He & Hb).
      exists before, e, after. split; [exact Hl|]. split; [reflexivity|].
      apply negb_true_iff in He. unfold unwanted in He. cbn [existsb] in He.
      rewrite !orb_false_iff in He. destruct He as (? & ? & ? & _).
      repeat (split; [assumption|]).
      intros x Hx. specialize (Hb x Hx). now apply negb_false_iff in Hb.
Qed.

(** **** Opening hours *)

Record Hours := {
  operating_days : list string;
  hours_per_day : gmap string (string * string)
}.

Definition hours_patterns : list string :=
  ["(?:hours?|open)[:\s]+([^\n]{10,80})";
   "((?:monday|mon)[-\s]*(?:friday|fri)[,\s]*\d+\s*(?:am|pm)[^\n]{0,40})";
   "((?:mon|tue|wed|thu|fri|sat|sun)[-\s/]+(?:mon|tue|wed|thu|fri|sat|sun)[,\s]+\d+[:\s]*\d*\s*(?:am|pm)[^\n]{0,40})"].

(** The dictionary [days_map], in the order it is written. *)
Definition days_map : list (string * string) :=
  [("monday", "monday"); ("mon", "monday");
   ("tuesday", "tuesday"); ("tue", "tuesday"); ("tues", "tuesday");
   ("wednesday", "wednesday"); ("wed", "wednesday");
   ("thursday", "thursday"); ("thu", "thursday"); ("thurs", "thursday");
   ("friday", "friday"); ("fri", "friday");
   ("saturday", "saturday"); ("sat", "saturday");
   ("sunday", "sunday"); ("sun", "sunday")].

Definition time_pattern : string :=
  "(\d{1,2})(?::(\d{2}))?\s*(am|pm)?\s*[-to–]+\s*(\d{1,2})(?::(\d{2}))?\s*(am|pm)?".

(** The loop over [hours_patterns]: the first match of the first pattern
    that has one. *)
Fixpoint find_hours_text (patterns : list string) (text : string)
  : option string :=
  match patterns with
  | [] => None
  | pattern :: rest =>
      match re_findall_group pattern text with
      | hours_text :: _ => Some hours_text
      | [] => find_hours_text rest text
      end
  end.

(** The days the two range tests give. *)
Definition day_ranges (hours_lower : string) : list string :=
  if Py.contains "mon" hours_lower && Py.contains "fri" hours_lower
  then ["monday"; "tuesday"; "wednesday"; "thursday"; "friday"]
  else if Py.contains "sat" hours_lower && Py.contains "sun" hours_lower
  then ["saturday"; "sunday"]
  else [].

(** The loop over [days_map]. *)
Fixpoint days_loop (entries : list (string * string)) (hours_lower : string)
    (operating_days : list string) : list string :=
  match entries with
  | [] => operating_days
  | (abbr, full_day) :: rest =>
      if re_search ("\b" +:+ abbr +:+ "\b") hours_lower
      then if bool_decide (full_day ∈ operating_days)
           then days_loop rest hours_lower operating_days
           else days_loop rest hours_lower (operating_days ++ [full_day])%list
      else days_loop rest hours_lower operating_days
  end.

(** The two branches that turn an hour of the 12-hour clock into an hour
    of the 24-hour clock. *)
Definition to_24_hour (period : string) (hour : Z) : Z :=
  if Py.truthy period && String.eqb (Py.lower period) "pm" && negb (hour =? 12)
  then hour + 12
  else if Py.truthy period && String.eqb (Py.lower period) "am" && (hour =? 12)
  then 0
  else hour.

(** The format [{n:02d}]. *)
Definition format_02d (n : Z) : string :=
  let s := pretty n in
  if (String.length s <? 2)%nat then "0" +:+ s else s.

(** The opening and the closing time of the first match of
    [time_pattern]; [None] when [int] raises. *)
Definition parse_times (m : list string) : option (string * string) :=
  match m with
  | [open_hour; open_min; open_period; close_hour; close_min; close_period] =>
      open_hour ← Py.int open_hour;
      close_hour ← Py.int close_hour;
      open_min ← (if Py.truthy open_min then Py.int open_min else Some 0);
      close_min ← (if Py.truthy close_min then Py.int close_min else Some 0);
      let open_hour := to_24_hour open_period open_hour in
      let close_hour := to_24_hour close_period close_hour in
      Some (format_02d open_hour +:+ ":" +:+ format_02d open_min,
            format_02d close_hour +:+ ":" +:+ format_02d close_min)
  | _ => None
  end.

(** The loop that gives every operating day the same hours. *)
Fixpoint hours_loop (days : list string) (open_time close_time : string)
    (hours_per_day : gmap string (string * string))
  : gmap string (string * string) :=
  match days with
  | [] => hours_per_day
  | day :: rest =>
      hours_loop rest open_time close_time
        (<[day := (open_time, close_time)]> hours_per_day)
  end.

(** [_extract_hours_per_day]; [None] when [int] raises. *)
Definition _extract_hours_per_day (text : string) (d : Hours) : option Hours :=
  match find_hours_text hours_patterns text with
  | None => Some d
  | Some hours_text =>
      if negb (Py.truthy hours_text) then Some d
      else
        let hours_lower := Py.lower hours_text in
        let operating_days :=
          days_loop days_map hours_lower (day_ranges hours_lower) in
        let time_matches := re_findall_groups time_pattern hours_lower in
        match time_matches, operating_days with
        | m :: _, _ :: _ =>
            '(open_time, close_time) ← parse_times m;
            Some {| operating_days := operating_days;
                    hours_per_day :=
                      hours_loop operating_days open_time close_time ∅ |}
        | _, _ =>
            Some {| operating_days := operating_days;
                    hours_per_day :=
                      hours_loop operating_days "09:00" "17:00" ∅ |}
        end
  end.

Definition weekdays : list string :=
  ["monday"; "tuesday"; "wednesday"; "thursday"; "friday"; "saturday";
   "sunday"].

Lemma day_ranges_days hours_lower :
  NoDup (day_ranges hours_lower) /\ day_ranges hours_lower ⊆ weekdays.
Proof using Type.
  unfold day_ranges.
  destruct (_ && _); [|destruct (_ && _)]; split;
    apply (bool_decide_unpack _); vm_compute; exact I.
Qed.

Lemma days_loop_days entries hours_lower operating_days :
  Forall (fun entry : string * string => entry.2 ∈ weekdays) entries ->
  NoDup operating_days -> operating_days ⊆ weekdays ->
  NoDup (days_loop entries hours_lower operating_days)
  /\ days_loop entries hours_lower operating_days ⊆ weekdays
  /\ exists more,
       days_loop entries hours_lower operating_days
       = (operating_days ++ more)%list.
Proof.
  intros He. revert operating_days.
  induction He as [|[abbr full_day] rest Hday _ IH]; intros operating_days Hn Hs.
  - cbn. split; [exact Hn|]. split; [exact Hs|]. exists []. now rewrite app_nil_r.
  - cbn [days_loop]. destruct (re_search _ hours_lower); [|now apply IH].
    destruct (bool_decide (full_day ∈ operating_days)) eqn:Hin; [now apply IH|].
    apply bool_decide_eq_false in Hin.
    destruct (IH (operating_days ++ [full_day])%list) as (H1 & H2 & more & H3).
    + apply NoDup_app. split; [exact Hn|]. split; [|apply NoDup_singleton].
      intros x Hx Hx'. apply list_elem_of_singleton in Hx'. now subst x.
    + intros x Hx. apply elem_of_app in Hx as [Hx|Hx]; [now apply Hs|].
      apply list_elem_of_singleton in Hx. now subst x.
    + split; [exact H1|]. split; [exact H2|].
      exists (full_day :: more). now rewrite H3, <- app_assoc.
Qed.

Lemma days_map_days :
  Forall (fun entry : string * string => entry.2 ∈ weekdays) days_map.
Proof using Type.
  apply (bool_decide_unpack _). vm_compute. exact I.
Qed.

Lemma hours_loop_lookup days open_time close_time h day :
  hours_loop days open_time close_time h !! day
  = if bool_decide (day ∈ days) then Some (open_time, close_time) else h !! day.
Proof using Type.
  revert h. induction days as [|x rest IH]; intros h; [reflexivity|].
  cbn [hours_loop]. rewrite IH.
  destruct (bool_decide (day ∈ rest)) eqn:Hr.
  - apply bool_decide_eq_true in Hr.
    rewrite bool_decide_eq_true_2; [reflexivity|now apply list_elem_of_further].
  - apply bool_decide_eq_false in Hr.
    destruct (decide (day = x)) as [->|Hne].
    + rewrite lookup_insert_eq.
      rewrite bool_decide_eq_true_2; [reflexivity|apply list_elem_of_here].
    + rewrite lookup_insert_ne by congruence.
      rewrite bool_decide_eq_false_2; [reflexivity|].
      intros Hin. apply elem_of_cons in Hin as [Heq|Hin];
        [now apply Hne|now apply Hr].
Qed.

(** X20: when [_extract_hours_per_day] finds a text about hours, which
    is the first match of the first pattern that has one, and the text is
    not empty, the operating days it stores start with the days of the
    range test and are names of days of the week, none of them twice;
    [hours_per_day] has an entry for each of them and for nothing else, and
    all the entries are the same pair of times.  When it finds no such text
    it leaves both fields as they were. *)
Theorem every_operating_day_gets_the_same_hours text d d' :
  _extract_hours_per_day text d = Some d' ->
  match find_hours_text hours_patterns text with
  | Some hours_text =>
      if Py.truthy hours_text
      then
        (exists more,
            operating_days d'
            = (day_ranges (Py.lower hours_text) ++ more)%list)
        /\ NoDup (operating_days d')
        /\ operating_days d' ⊆ weekdays
        /\ exists open_time close_time,
             forall day,
               hours_per_day d' !! day
               = if bool_decide (day ∈ operating_days d')
                 then Some (open_time, close_time) else None
      else d' = d
  | None => d' = d
  end.
Proof.
  unfold _extract_hours_per_day.
  destruct (find_hours_text hours_patterns text) as [hours_text|];
    [|now intros [= <-]].
  destruct (Py.truthy hours_text); cbn [negb]; [|now intros [= <-]].
  cbv zeta.
  destruct (day_ranges_days (Py.lower hours_text)) as [Hn Hs].
  destruct (days_loop_days days_map (Py.lower hours_text)
              (day_ranges (Py.lower hours_text)) days_map_days Hn Hs)
    as (Hnd & Hsub & more & Hmore).
  revert Hnd Hsub Hmore.
  generalize (days_loop days_map (Py.lower hours_text)
                (day_ranges (Py.lower hours_text))).
  intros days Hnd Hsub Hmore H.
  assert (forall o c,
            d' = {| operating_days := days; hours_per_day := hours_loop days o c ∅ |} ->
            (exists more,
                operating_days d'
                = (day_ranges (Py.lower hours_text) ++ more)%list)
            /\ NoDup (operating_days d') /\ operating_days d' ⊆ weekdays
            /\ exists open_time close_time,
                 forall day,
                   hours_per_day d' !! day
                   = if bool_decide (day ∈ operating_days d')
                     then Some (open_time, close_time) else None) as Hres.
  { intros o c ->. cbn [operating_days hours_per_day].
    split; [now exists more|].
    split; [exact Hnd|]. split; [exact Hsub|]. exists o, c. intros day.
    now rewrite hours_loop_lookup, lookup_empty. }
  destruct (re_findall_groups time_pattern (Py.lower hours_text)) as [|m ms].
  { injection H as <-. now apply (Hres "09:00" "17:00"). }
  destruct days as [|day0 days].
  { injection H as <-. now apply (Hres "09:00" "17:00"). }
  destruct (parse_times m) as [[o c]|]; [|discriminate].
  cbn [mbind option_bind] in H. injection H as <-. now apply (Hres o c).
Qed.

(** X21: the range test looks for "mon" and "fri" anywhere in the text
    about hours.  When both are there, the five days from Monday to Friday
    are the first operating days, whatever stands between the two words
    ("Monday and Friday" gives the whole week as well). *)
Theorem monday_and_friday_give_the_whole_week text d d' hours_text :
  find_hours_text hours_patterns text = Some hours_text ->
  Py.contains "mon" (Py.lower hours_text) = true ->
  Py.contains "fri" (Py.lower hours_text) = true ->
  _extract_hours_per_day text d = Some d' ->
  exists more,
    operating_days d'
    = (["monday"; "tuesday"; "wednesday"; "thursday"; "friday"] ++ more)%list.
Proof.
  intros Hf Hmon Hfri. unfold _extract_hours_per_day. rewrite Hf.
  assert (Py.truthy hours_text = true) as ->.
  { destruct hours_text; [discriminate Hmon|reflexivity]. }
  cbn [negb]. cbv zeta.
  assert (day_ranges (Py.lower hours_text)
          = ["monday"; "tuesday"; "wednesday"; "thursday"; "friday"]) as Hr.
  { unfold day_ranges. now rewrite Hmon, Hfri. }
  destruct (day_ranges_days (Py.lower hours_text)) as [Hn Hs].
  destruct (days_loop_days days_map (Py.lower hours_text)
              (day_ranges (Py.lower hours_text)) days_map_days Hn Hs)
    as (_ & _ & more & Hmore).
  rewrite Hr in Hmore. rewrite Hr. revert Hmore.
  generalize (days_loop days_map (Py.lower hours_text)
                ["monday"; "tuesday"; "wednesday"; "thursday"; "friday"]).
  intros days -> H. exists more.
  destruct (re_findall_groups time_pattern (Py.lower hours_text)) as [|m ms].
  { now injection H as <-. }
  cbn [app] in H.
  destruct (parse_times m) as [[o c]|]; [|discriminate].
  cbn [mbind option_bind] in H. now injection H as <-.
Qed.

(** X22: [to_24_hour] is the change from the 12-hour to the 24-hour clock
    on the hours 1 to 12, with "am" and "pm" in either case: the result is
    an hour from 0 to 23, the same hour modulo 12, and in the second half
    of the day exactly for "pm".  Nothing else is checked: hour 13 with
    "pm" gives 25. *)
Theorem twelve_hour_times_become_twenty_four_hour_times period hour :
  1 <= hour <= 12 ->
  Py.lower period = "am" \/ Py.lower period = "pm" ->
  0 <= to_24_hour period hour <= 23
  /\ to_24_hour period hour mod 12 = hour mod 12
  /\ (12 <= to_24_hour period hour <-> Py.lower period = "pm")
  /\ to_24_hour "pm" 13 = 25.
Proof using Type.
  intros Hh Hp.
  assert (to_24_hour period hour
          = if String.eqb (Py.lower period) "pm"
            then (if hour =? 12 then 12 else hour + 12)
            else (if hour =? 12 then 0 else hour)) as ->.
  { unfold to_24_hour.
    assert (Py.truthy period = true) as ->.
    { destruct period; [now destruct Hp|reflexivity]. }
    cbn [andb]. destruct Hp as [-> | ->]; cbn [String.eqb Ascii.eqb Bool.eqb andb];
      destruct (hour =? 12) eqn:H12; try reflexivity.
    apply Z.eqb_eq in H12. now subst hour. }
  split; [|split; [|split; [|reflexivity]]].
  - destruct (String.eqb _ _), (hour =? 12) eqn:H12; lia.
  - destruct (String.eqb _ _), (hour =? 12) eqn:H12;
      try apply Z.eqb_eq in H12; subst; try reflexivity.
    now rewrite <- (Z.mod_add hour 1 12) by lia.
  - destruct Hp as [Hp|Hp]; rewrite Hp; cbn [String.eqb Ascii.eqb Bool.eqb];
      destruct (hour =? 12) eqn:H12; split; intros H; try lia; try reflexivity;
      discriminate.
Qed.

(** **** Description *)

(** [re.sub(pattern, '', text, flags=re.IGNORECASE)] and
    [re.sub(pattern, repl, text)]. *)
Variable re_remove_ignorecase : string -> string -> string.
Variable re_sub : string -> string -> string -> string.

Definition boilerplate_patterns : list string :=
  ["by using this (website|site),?\s+you agree to\s+.*?cookies.*?\.?";
   "we use cookies\s+.*?\.?";
   "this (website|site) uses cookies\s+.*?\.?";
   "cookies?\s+help us\s+.*?\.?";
   "accept\s+(all\s+)?cookies?";
   "cookie\s+(policy|preferences|settings|consent)";
   "by (using|continuing|browsing)\s+.*?(agree|accept|consent)\s+.*?(terms|privacy|policy).*?\.?";
   "read our privacy policy";
   "view our terms";
   "javascript (is|must be) enabled";
   "please enable javascript";
   "your browser.*?not supported";
   "subscribe to our newsletter";
   "sign up for (our )?(newsletter|updates|emails)";
   "enter your email";
   "skip to (main )?content";
   "toggle navigation";
   "menu";
   "search\s*$"].

(** The loop that removes the boilerplate patterns one after the other. *)
Fixpoint remove_boilerplate (patterns : list string) (cleaned : string)
  : string :=
  match patterns with
  | [] => cleaned
  | pattern :: rest =>
      remove_boilerplate rest (re_remove_ignorecase pattern cleaned)
  end.

(** [_clean_description]. *)
Definition _clean_description (desc : string) : string :=
  if negb (Py.truthy desc) then desc
  else
    let cleaned := remove_boilerplate boilerplate_patterns desc in
    let cleaned := Py.strip (re_sub "\s+" " " cleaned) in
    if (String.length cleaned <? 30)%nat then "" else cleaned.

(** [sep.join(l)]. *)
Fixpoint join (sep : string) (l : list string) : string :=
  match l with
  | [] => ""
  | [x] => x
  | x :: rest => x +:+ sep +:+ join sep rest
  end.

(** What [_extract_description] reads off the parsed page: the [content]
    of the description and [og:description] meta tags ([None] when the tag
    or the attribute is missing), the texts of the [p] and [div] tags whose
    class matches a keyword, and the texts of the [p] tags. *)
Record DescriptionSources := {
  meta_description : option string;
  og_description : option string;
  sections : string -> list string;
  paragraphs : list string
}.

Definition about_keywords : list string :=
  ["about"; "description"; "overview"; "our program"; "what we offer"].

(** One of the two attempts on a meta tag: the cleaned content, when the
    attempt returns. *)
Definition from_meta (content : option string) : option string :=
  match content with
  | Some c =>
      if Py.truthy c
      then let cleaned := _clean_description (Py.strip c) in
           if Py.truthy cleaned then Some cleaned else None
      else None
  | None => None
  end.

(** The loop over [about_keywords]. *)
Fixpoint sections_loop (src : DescriptionSources) (keywords : list string)
  : option string :=
  match keywords with
  | [] => None
  | keyword :: rest =>
      match sections src keyword with
      | [] => sections_loop src rest
      | found =>
          let desc := join " " (Py.strip <$> take 2 found) in
          let cleaned := _clean_description desc in
          if (50 <? String.length cleaned)%nat then Some (Py.take 500 cleaned)
          else sections_loop src rest
      end
  end.

(** [_extract_description]: the value of [data["description"]] after the
    call, from its value before. *)
Definition _extract_description (src : DescriptionSources)
    (description : string) : string :=
  match from_meta (meta_description src) with
  | Some cleaned => cleaned
  | None =>
      match from_meta (og_description src) with
      | Some cleaned => cleaned
      | None =>
          match sections_loop src about_keywords with
          | Some cleaned => cleaned
          | None =>
              match paragraphs src with
              | [] => description
              | _ =>
                  let desc :=
                    join " "
                      (List.filter (fun t => (20 <? String.length t)%nat)
                         (Py.strip <$> take 3 (paragraphs src))) in
                  let cleaned := _clean_description desc in
                  if Py.truthy cleaned then Py.take 500 cleaned
                  else "Program information available on website."
              end
          end
      end
  end.

Lemma take_length n s :
  String.length (Py.take n s) = Nat.min n (String.length s).
Proof using Type.
  revert s. induction n as [|n IH]; intros s; [reflexivity|].
  destruct s as [|c s]; [reflexivity|]. cbn. now rewrite IH.
Qed.

Lemma clean_description_length desc :
  _clean_description desc = ""
  \/ (30 <= String.length (_clean_description desc))%nat.
Proof using Type.
  unfold _clean_description.
  destruct desc as [|c desc]; [now left|]. cbn [Py.truthy negb]. cbv zeta.
  destruct (String.length _ <? 30)%nat eqn:Hl; [now left|].
  right. now apply Nat.ltb_ge in Hl.
Qed.

(** X29: a cleaned description is never a short text: [_clean_description]
    gives the empty text or a text of at least 30 characters, whatever the
    substitutions remove. *)
Theorem a_cleaned_description_is_empty_or_thirty_characters_long desc :
  (_clean_description desc = ""
   \/ (30 <= String.length (_clean_description desc))%nat)
  /\ (Py.truthy (_clean_description desc) = true ->
      (30 <= String.length (_clean_description desc))%nat).
Proof using Type.
  pose proof (clean_description_length desc) as H.
  split; [exact H|]. intros Ht. destruct H as [H|H]; [|exact H].
  rewrite H in Ht. discriminate.
Qed.

Lemma from_meta_length content cleaned :
  from_meta content = Some cleaned -> (30 <= String.length cleaned)%nat.
Proof using Type.
  unfold from_meta. destruct content as [c|]; [|discriminate].
  destruct (Py.truthy c); [|discriminate]. cbv zeta.
  destruct (clean_description_length (Py.strip c)) as [H|H].
  - rewrite H. discriminate.
  - destruct (Py.truthy _); [|discriminate]. now intros [= <-].
Qed.

Lemma sections_loop_length src keywords cleaned :
  sections_loop src keywords = Some cleaned ->
  (50 < String.length cleaned <= 500)%nat.
Proof using Type.
  induction keywords as [|keyword rest IH]; [discriminate|].
  cbn [sections_loop].
  destruct (sections src keyword) as [|s0 found]; [exact IH|]. cbv zeta.
  destruct (50 <? String.length _)%nat eqn:Hl; [|exact IH].
  apply Nat.ltb_lt in Hl. intros Hc. apply (inj Some) in Hc.
  rewrite <- Hc, take_length. lia.
Qed.

(** X30: the description [_extract_description] stores is never short.
    After the call the field holds what it held before (only when the page
    has no paragraph and no other source gave a text), or a text of at
    least 30 characters. *)
Theorem a_stored_description_has_thirty_characters src description :
  (_extract_description src description = description
   /\ paragraphs src = [])
  \/ (30 <= String.length (_extract_description src description))%nat.
Proof using Type.
  unfold _extract_description.
  destruct (from_meta (meta_description src)) as [c1|] eqn:H1.
  { right. now apply (from_meta_length (meta_description src)). }
  destruct (from_meta (og_description src)) as [c2|] eqn:H2.
  { right. now apply (from_meta_length (og_description src)). }
  destruct (sections_loop src about_keywords) as [c3|] eqn:H3.
  { right. apply sections_loop_length in H3. lia. }
  destruct (paragraphs src) as [|p ps] eqn:Hp; [now left|]. right. cbv zeta.
  match goal with |- context [_clean_description ?d] =>
    destruct (clean_description_length d) as [H|H];
    [rewrite H; cbn; lia|]; generalize dependent (_clean_description d) end.
  intros cleaned H. destruct cleaned as [|c cleaned]; [cbn in H; lia|].
  cbn [Py.truthy]. rewrite take_length. lia.
Qed.

End Patterns.

End Extract.

(** ** The simple scraper

    [_extract_categories] and [_infer_neighborhood] of
    [scrape_simple.py] (class [SimpleProgramScraper]): the same loops as in
    [scrape_program.py], over shorter tables. *)

Module Simple.

Definition category_keywords : list (string * list string) :=
  [("swimming", ["swim"; "aquatic"; "water"; "pool"]);
   ("art", ["art"; "painting"; "drawing"]);
   ("music", ["music"; "piano"; "guitar"]);
   ("sports", ["sports"; "athletic"]);
   ("technology", ["coding"; "programming"; "tech"]);
   ("academic", ["tutoring"; "academic"])].

(** [_extract_categories]: the value stored into [data["category"]]. *)
Definition _extract_categories (text : string) : list string :=
  let text_lower := Py.lower text in
  let categories :=
    Extract.categories_loop category_keywords text_lower [] in
  match categories with
  | [] => ["creative"]
  | _ => take 3 categories
  end.

Definition neighborhoods : list (string * list string) :=
  [("Marina District", ["marina"; "chestnut"; "lombard"]);
   ("Mission District", ["mission"; "valencia"; "24th"; "16th"]);
   ("SOMA", ["townsend"; "folsom"; "howard"; "2nd"; "3rd"]);
   ("Richmond District", ["geary"; "clement"]);
   ("Sunset District", ["judah"; "noriega"; "taraval"]);
   ("Noe Valley", ["24th"; "castro"; "noe"]);
   ("Castro", ["castro"; "market"; "18th"])].

(** [_infer_neighborhood]: the value stored into [data["neighborhood"]]. *)
Definition _infer_neighborhood (address : string) : string :=
  let address_lower := Py.lower address in
  match Extract.neighborhood_loop neighborhoods address_lower with
  | Some neighborhood => neighborhood
  | None => "San Francisco"
  end.

(** X23: the two scrapers agree on the neighborhood wherever the simple
    one finds one: for every address the simple scraper either falls back
    to "San Francisco" or gives the neighborhood that [ProgramScraper]
    gives, whatever its [region_city]. *)
Theorem the_two_scrapers_agree_on_the_neighborhood region_city address :
  _infer_neighborhood address = "San Francisco"
  \/ _infer_neighborhood address
     = Extract._infer_neighborhood region_city address.
Proof.
  unfold _infer_neighborhood, Extract._infer_neighborhood. cbv zeta.
  change Extract.neighborhoods
    with (neighborhoods
          ++ [("Pacific Heights", ["pacific"; "broadway"; "fillmore"]);
              ("Haight-Ashbury", ["haight"; "ashbury"]);
              ("North Beach", ["columbus"; "broadway"; "grant"])])%list.
  rewrite Extract.neighborhood_loop_app.
  destruct (Extract.neighborhood_loop neighborhoods (Py.lower address));
    [now right|now left].
Qed.

Lemma keywords_included text_lower :
  forall row, row ∈ category_keywords ->
    Extract.any_keyword_in row.2 text_lower = true ->
    exists row', row' ∈ Extract.category_keywords
                 /\ Extract.any_keyword_in row'.2 text_lower = true.
Proof.
  intros row Hrow Hm.
  apply Extract.any_keyword_in_true in Hm as (k & Hk & Hc).
  assert (exists row', row' ∈ Extract.category_keywords /\ k ∈ row'.2)
    as (row' & Hrow' & Hk').
  { unfold category_keywords in Hrow.
    rewrite !elem_of_cons, elem_of_nil in Hrow.
    destruct Hrow as [->|[->|[->|[->|[->|[->|[]]]]]]];
      cbn [snd] in Hk; rewrite !elem_of_cons, elem_of_nil in Hk;
      [exists ("swimming", ["swim"; "aquatic"; "water"; "pool"])
      |exists ("art", ["art"; "painting"; "drawing"; "sculpture"; "creative"])
      |exists ("music", ["music"; "piano"; "guitar"; "violin"; "instrument"])
      |exists ("sports", ["sports"; "athletic"; "fitness"])
      |exists ("technology",
               ["coding"; "programming"; "computer"; "robotics"; "tech"])
      |exists ("academic", ["tutoring"; "math"; "science"; "reading"; "academic"])];
      (split; [unfold Extract.category_keywords; rewrite !elem_of_cons; tauto|]);
      cbn [snd]; rewrite !elem_of_cons; tauto. }
  exists row'. split; [exact Hrow'|].
  apply Extract.any_keyword_in_true. now exists k.
Qed.

(** X24: every keyword of the simple scraper is a keyword of
    [ProgramScraper]; so a text for which [ProgramScraper] falls back to
    the category "creative" gets "creative" from the simple scraper too. *)
Theorem the_simple_scraper_finds_no_category_the_full_one_misses text :
  Extract._extract_categories text = ["creative"] ->
  _extract_categories text = ["creative"].
Proof.
  intros H.
  assert ("creative" ∈ Extract._extract_categories text) as Hc
    by (rewrite H; apply list_elem_of_here).
  apply Extract.creative_without_match in Hc as Hnone.
  unfold _extract_categories. cbv zeta.
  rewrite Extract.categories_loop_filter. cbn [app].
  destruct (filter (Extract.row_matches (Py.lower text)) category_keywords)
    as [|row rows] eqn:Hf; [reflexivity|]. exfalso.
  assert (row ∈ filter (Extract.row_matches (Py.lower text)) category_keywords)
    as Hin by (rewrite Hf; apply list_elem_of_here).
  apply list_elem_of_filter in Hin as [Hm Hin].
  destruct (keywords_included (Py.lower text) row Hin Hm) as (row' & Hin' & Hm').
  assert (row' ∈ filter (Extract.row_matches (Py.lower text))
                        Extract.category_keywords) as Hx
    by (apply list_elem_of_filter; now split).
  rewrite Hnone in Hx. now apply not_elem_of_nil in Hx.
Qed.

End Simple.

(** ** The batch over the providers

    [scrape_provider] and the preparation of the updates in [main] of
    [scrape_all_providers.py].  A row of the table [programs] and the
    result of a scrape are dictionaries from column names to texts; a
    column that is null, like a key that is absent, reads as [None]. *)

Module Batch.

(** The truth value of [d.get(key)]. *)
Definition has (d : gmap string string) (key : string) : bool :=
  match d !! key with Some v => Py.truthy v | None => false end.

(** One of the three tests that fill [updates]. *)
Definition update_field (key : string) (scraped provider : gmap string string)
    (updates : gmap string string) : gmap string string :=
  if has scraped key && negb (has provider key)
  then match scraped !! key with
       | Some v => <[key := v]> updates
       | None => updates
       end
  else updates.

(** The dictionary [updates] that [main] prepares for a scraped provider. *)
Definition prepare_updates (scraped provider : gmap string string)
  : gmap string string :=
  update_field "new_registration_date" scraped provider
    (update_field "re_enrollment_date" scraped provider
       (update_field "registration_url" scraped provider ∅)).

(** The filter of [--only-missing]. *)
Definition missing_registration_info (p : gmap string string) : bool :=
  negb (has p "registration_url") || negb (has p "re_enrollment_date")
  || negb (has p "new_registration_date").

(** The row once [update_program] has written the columns of [updates]. *)
Definition updated (updates provider : gmap string string)
  : gmap string string :=
  updates ∪ provider.

Definition registration_columns : list string :=
  ["registration_url"; "re_enrollment_date"; "new_registration_date"].

Lemma update_field_lookup key scraped provider updates k :
  update_field key scraped provider updates !! k
  = if decide (k = key)
    then (if has scraped key && negb (has provider key)
          then scraped !! key else updates !! k)
    else updates !! k.
Proof.
  unfold update_field, has.
  destruct (scraped !! key) as [v|] eqn:Hs; cbn [andb];
    [|now destruct (decide (k = key))].
  destruct (Py.truthy v && _).
  - destruct (decide (k = key)) as [->|Hne];
      [now rewrite lookup_insert_eq|now rewrite lookup_insert_ne by congruence].
  - now destruct (decide (k = key)).
Qed.

Lemma prepare_updates_lookup scraped provider k :
  prepare_updates scraped provider !! k
  = if bool_decide (k ∈ registration_columns)
    then (if has scraped k && negb (has provider k) then scraped !! k else None)
    else None.
Proof.
  unfold prepare_updates. rewrite !update_field_lookup, lookup_empty.
  unfold registration_columns.
  destruct (decide (k = "new_registration_date")) as [->|H1];
    [now destruct (_ && _)|].
  destruct (decide (k = "re_enrollment_date")) as [->|H2];
    [now destruct (_ && _)|].
  destruct (decide (k = "registration_url")) as [->|H3];
    [now destruct (_ && _)|].
  rewrite bool_decide_eq_false_2; [reflexivity|].
  rewrite !elem_of_cons, elem_of_nil. tauto.
Qed.

(** X25: the batch never overwrites.  Every entry of [updates] is one of
    the three registration columns, holds the non-empty text the scrape
    found for it, and is for a column that is empty in the provider's row;
    the columns the row has keep their values in the updated row. *)
Theorem updates_only_fill_empty_columns scraped provider :
  (forall k v,
      prepare_updates scraped provider !! k = Some v ->
      k ∈ registration_columns /\ scraped !! k = Some v
      /\ Py.truthy v = true /\ has provider k = false)
  /\ (forall k,
        has provider k = true ->
        updated (prepare_updates scraped provider) provider !! k = provider !! k).
Proof.
  assert (forall k v,
            prepare_updates scraped provider !! k = Some v ->
            k ∈ registration_columns /\ scraped !! k = Some v
            /\ Py.truthy v = true /\ has provider k = false) as H.
  { intros k v. rewrite prepare_updates_lookup.
    destruct (bool_decide (k ∈ registration_columns)) eqn:Hk; [|discriminate].
    apply bool_decide_eq_true in Hk.
    destruct (has scraped k) eqn:Hs; [|discriminate].
    destruct (has provider k) eqn:Hp; [discriminate|]. cbn [andb negb].
    intros Hv. unfold has in Hs. rewrite Hv in Hs. tauto. }
  split; [exact H|].
  intros k Hk. unfold updated.
  destruct (prepare_updates scraped provider !! k) as [v|] eqn:Hu.
  - destruct (H k v Hu) as (_ & _ & _ & Hn). congruence.
  - now rewrite lookup_union_r.
Qed.

(** X26: a provider that [--only-missing] leaves out would get no update
    anyway; and once the updates are written, the same scrape gives no
    further update. *)
Theorem updates_are_for_providers_with_missing_columns scraped provider :
  (missing_registration_info provider = false ->
   prepare_updates scraped provider = ∅)
  /\ prepare_updates scraped
       (updated (prepare_updates scraped provider) provider) = ∅.
Proof.
  split.
  - intros Hm. unfold missing_registration_info in Hm.
    rewrite !orb_false_iff, !negb_false_iff in Hm. destruct Hm as [[H1 H2] H3].
    apply map_eq. intros k. rewrite prepare_updates_lookup, lookup_empty.
    destruct (bool_decide (k ∈ registration_columns)) eqn:Hk; [|reflexivity].
    apply bool_decide_eq_true in Hk. unfold registration_columns in Hk.
    rewrite !elem_of_cons, elem_of_nil in Hk.
    destruct Hk as [->|[->|[->|[]]]]; rewrite ?H1, ?H2, ?H3;
      now rewrite andb_false_r.
  - apply map_eq. intros k. rewrite prepare_updates_lookup, lookup_empty.
    destruct (bool_decide (k ∈ registration_columns)) eqn:Hk; [|reflexivity].
    destruct (has scraped k) eqn:Hs; [|reflexivity].
    assert (has (updated (prepare_updates scraped provider) provider) k = true)
      as ->; [|reflexivity].
    unfold has at 1, updated.
    destruct (has provider k) eqn:Hp.
    + rewrite lookup_union_r.
      * exact Hp.
      * rewrite prepare_updates_lookup, Hk, Hs, Hp. reflexivity.
    + assert (prepare_updates scraped provider !! k = scraped !! k) as Hu.
      { now rewrite prepare_updates_lookup, Hk, Hs, Hp. }
      unfold has in Hs. destruct (scraped !! k) as [v|] eqn:Hv; [|discriminate].
      now rewrite (lookup_union_Some_l _ _ _ _ Hu).
Qed.

(** The URL [scrape_provider] hands to [ProgramScraper] for a website. *)
Definition website_url (website : string) : string :=
  if negb (Py.startswith "http" website) then "https://" +:+ website
  else website.

(** The seed of the crawl of a provider; [None] when [scrape_provider]
    returns without scraping. *)
Definition seed_of (provider : gmap string string) : option string :=
  match provider !! "provider_website" with
  | Some website =>
      if negb (Py.truthy website) then None else Some (website_url website)
  | None => None
  end.

Section Seed.

Variable netloc_ok : string -> bool.
Variable Fields : Type.

(** X27: a website stored as a bare host name is crawled over https: the
    seed is "https://" followed by the name, and the scraper takes the
    name as its domain. *)
Theorem a_bare_host_name_is_crawled_over_https
    provider host maxp maxd (f0 : Fields) :
  provider !! "provider_website" = Some host ->
  host <> "" -> netloc_ok host = true ->
  Py.has_char Urllib.netloc_delim host = false ->
  Py.has_char Urllib.unsafe_char host = false ->
  Py.startswith "http" host = false ->
  seed_of provider = Some ("https://" +:+ host)
  /\ exists self,
       __init__ netloc_ok Fields ("https://" +:+ host) maxp maxd f0 = Some self
       /\ url self = "https://" +:+ host
       /\ domain self = host
       /\ base_url self = "https://" +:+ host.
Proof.
  intros Hw Hne Hok Hd Hu Hh. split.
  { unfold seed_of, website_url. rewrite Hw, Hh.
    destruct host; [contradiction|reflexivity]. }
  pose proof (urlparse_render netloc_ok "https" host "" "" "h" "ttps"
                eq_refl eq_refl eq_refl eq_refl Hne Hok Hd I
                eq_refl eq_refl eq_refl eq_refl Hu eq_refl eq_refl) as Hp.
  unfold render in Hp. cbn [Py.truthy] in Hp. rewrite append_nil_r in Hp.
  change ("https" +:+ "://" +:+ host) with ("https://" +:+ host) in Hp.
  unfold __init__. rewrite Hp. cbn [mbind option_bind].
  eexists. split; [reflexivity|]. now cbn.
Qed.

Lemma no_colon_find s :
  Py.has_char (Py.is_char ":") s = false -> Py.find ":" s = None.
Proof.
  induction s as [|c s IH]; [reflexivity|].
  cbn [Py.has_char Py.find Py.startswith]. unfold Py.is_char at 1.
  destruct (Ascii.eqb ":" c); [discriminate|]. cbn [orb andb].
  intros H. now rewrite (IH H).
Qed.

Lemma has_char_remove p q s :
  Py.has_char p s = false -> Py.has_char p (Py.remove_chars q s) = false.
Proof.
  induction s as [|c s IH]; [reflexivity|]. cbn [Py.has_char Py.remove_chars].
  intros H. apply orb_false_iff in H as [Hc Hs].
  destruct (q c); [now apply IH|]. cbn [Py.has_char]. now rewrite Hc, IH.
Qed.

(** X28: the test for a protocol is a test for the four letters "http".
    A website whose name begins with them and has no colon, such as
    "httpd.example.org", is the seed as it stands; it then parses as a
    path, and the scraper starts with an empty domain. *)
Theorem a_host_name_that_begins_with_http_gets_no_domain
    provider website maxp maxd (f0 : Fields) :
  provider !! "provider_website" = Some website ->
  Py.startswith "http" website = true ->
  Py.has_char (Py.is_char ":") website = false ->
  seed_of provider = Some website
  /\ exists self,
       __init__ netloc_ok Fields website maxp maxd f0 = Some self
       /\ url self = website
       /\ domain self = ""
       /\ base_url self = "://".
Proof.
  intros Hw Hh Hc. split.
  { unfold seed_of, website_url. rewrite Hw, Hh.
    destruct website; [discriminate|reflexivity]. }
  destruct website as [|c0 rest]; [discriminate|].
  cbn [Py.startswith] in Hh. apply andb_true_iff in Hh as [Hc0 _].
  apply Ascii.eqb_eq in Hc0. subst c0.
  unfold __init__, Urllib.urlparse, Urllib.sanitize.
  cbn [Py.lstrip]. change (Urllib.c0_or_space "h") with false. cbv iota.
  cbn [Py.remove_chars]. change (Urllib.unsafe_char "h") with false. cbv iota.
  assert (Py.has_char (Py.is_char ":")
            (String "h" (Py.remove_chars Urllib.unsafe_char rest)) = false) as Hs.
  { cbn [Py.has_char] in *. apply orb_false_iff in Hc as [_ Hc].
    cbn [orb]. change (Py.is_char ":" "h") with false. cbn [orb].
    now apply has_char_remove. }
  generalize dependent (Py.remove_chars Urllib.unsafe_char rest). intros s Hs.
  unfold Urllib.split_scheme. rewrite (no_colon_find _ Hs).
  change (Py.startswith "//" (String "h" s)) with false. cbv iota.
  cbn [Py.truthy andb].
  destruct (if Py.has_char (Py.is_char "#") (String "h" s)
            then Py.split1 "#" (String "h" s)
            else (String "h" s, EmptyString)) as [u1 frag].
  destruct (if Py.has_char (Py.is_char "?") u1 then Py.split1 "?" u1
            else (u1, EmptyString)) as [u2 qry].
  destruct (if Urllib.in_list "" Urllib.uses_params
               && Py.has_char (Py.is_char ";") u2
            then Urllib.splitparams u2 else (u2, EmptyString)) as [u3 prm].
  cbn [mbind option_bind]. eexists. split; [reflexivity|]. now cbn.
Qed.

End Seed.

End Batch.

(** ** The further properties on samples *)

Module Checks.
Import Demo Samples.

(** The crawl of one page: [scrape(crawl=False)]. *)
Definition crawl_one_page (site : list (string * Page)) (fuel : nat)
    (self : ProgramScraper Fields) : option (ProgramScraper Fields) :=
  returned
    (scrape netloc_ok urljoin Re.findall remove_dups (fetch_from site) now Fields
            extract_main_page_data fuel false self).

(** The first evaluation of the loop of a crawl. *)
Definition first_iteration (site : list (string * Page))
    (self : ProgramScraper Fields) : Outcome Fields :=
  scrape_iteration netloc_ok urljoin Re.findall remove_dups (fetch_from site)
    now Fields extract_main_page_data true self [(url self, 0)].

(** The requests of a sample crawl are in breadth-first order. *)
Lemma breadth_first_order_on_sample :
  exists r,
    crawl site_home 30 example_org_slash = Some r
    /\ StronglySorted Z.le (request_depths (log r))
    /\ Forall (fun d => 0 <= d) (request_depths (log r)).
Proof.
  destruct (crawl site_home 30 example_org_slash) as [r|] eqn:E;
    [|vm_compute in E; discriminate].
  exists r. split; [reflexivity|].
  apply (requests_are_made_in_breadth_first_order
           netloc_ok urljoin Re.findall remove_dups (fetch_from site_home) now
           Fields extract_main_page_data true
           "https://example.org/" 10 2 "" example_org_slash r);
    [reflexivity | exact (returned_crawl_state _ _ _ _ _ _ E)].
Defined.

(** The queue after the first page of a sample crawl. *)
Lemma queued_depths_on_sample :
  exists self q,
    first_iteration site_home example_org_slash = Next Fields self q
    /\ q.*2 = [1; 1]
    /\ Forall (fun e : string * Z => 0 <= e.2 <= 2) q
    /\ forall v depth rest,
         q = (v, depth) :: rest -> (max_depth self <? depth) = false.
Proof.
  destruct (first_iteration site_home example_org_slash) as [self q|r|r] eqn:E;
    [|vm_compute in E; discriminate..].
  exists self, q. split; [reflexivity|].
  split; [vm_compute in E; now injection E as <- <-|].
  apply (queued_pages_are_within_the_depth_limit
           netloc_ok urljoin Re.findall remove_dups (fetch_from site_home) now
           Fields extract_main_page_data true
           "https://example.org/" 10 2 "" example_org_slash self q);
    [lia | reflexivity |].
  exact (reaches_next _ _ _ _ _ _ _ _ _ _ _ _ _ _
           (reaches_start _ _ _ _ _ _ _ _ _ _) E).
Defined.

(** The visited set of a sample crawl whose second request fails. *)
Lemma visited_urls_on_sample :
  exists r,
    crawl site_links 30 example_org = Some r
    /\ requested (log r)
       = ["https://example.org"; "https://example.org/register";
          "https://example.org/enroll-now"]
    /\ forall v, v ∈ visited_urls r <-> v ∈ requested (log r).
Proof.
  destruct (crawl site_links 30 example_org) as [r|] eqn:E;
    [|vm_compute in E; discriminate].
  exists r. split; [reflexivity|].
  split; [vm_compute in E; now injection E as <-|].
  apply (visited_urls_are_the_requested_urls
           netloc_ok urljoin Re.findall remove_dups (fetch_from site_links) now
           Fields extract_main_page_data true
           "https://example.org" 10 2 "" example_org r);
    [reflexivity | exact (returned_crawl_state _ _ _ _ _ _ E)].
Defined.

(** A crawl of one page of the sample site. *)
Lemma one_page_crawl_on_sample :
  exists r,
    crawl_one_page site_home 30 example_org_slash = Some r
    /\ (requested (log r) = [] \/ requested (log r) = ["https://example.org/"]).
Proof.
  destruct (crawl_one_page site_home 30 example_org_slash) as [r|] eqn:E;
    [|vm_compute in E; discriminate].
  exists r. split; [reflexivity|].
  apply (one_page_crawl_requests_only_the_seed
           netloc_ok urljoin Re.findall remove_dups (fetch_from site_home) now
           Fields extract_main_page_data false
           "https://example.org/" 10 2 "" example_org_slash r);
    [now left | reflexivity
    | exact (returned_crawl_state _ _ _ _ _ _ E)].
Defined.

(** After the first page of the sample with two dated pages a date is
    still missing, and the loop goes on. *)
Lemma a_date_is_missing_on_sample :
  exists self q,
    first_iteration site_dates example_org = Next Fields self q
    /\ both_dates_found Fields self = false.
Proof.
  destruct (first_iteration site_dates example_org) as [self q|r|r] eqn:E;
    [|vm_compute in E; discriminate..].
  exists self, q. split; [reflexivity|].
  apply (loop_goes_on_only_while_a_date_is_missing
           netloc_ok urljoin Re.findall remove_dups (fetch_from site_dates) now
           Fields extract_main_page_data true
           "https://example.org" 10 2 "" example_org self q);
    [reflexivity|].
  exact (reaches_next _ _ _ _ _ _ _ _ _ _ _ _ _ _
           (reaches_start _ _ _ _ _ _ _ _ _ _) E).
Defined.

(** The links of the sample page with four anchors. *)
Lemma extracted_links_on_sample :
  exists links,
    extract_links_loop netloc_ok urljoin Fields example_org
      "https://example.org" (anchors four_links) [] = Some links
    /\ links = ["https://example.org/register"; "https://example.org/about";
                "https://example.org/schedule"; "https://example.org/contact"]
    /\ Forall (fun v =>
                 (exists full_url p,
                     Urllib.urlparse netloc_ok full_url = Some p
                     /\ (Urllib.netloc p = domain example_org
                         \/ Urllib.netloc p = "")
                     /\ _normalize_url netloc_ok full_url = Some v)
                 /\ v ∉ visited_urls example_org) links.
Proof.
  destruct (extract_links_loop netloc_ok urljoin Fields example_org
              "https://example.org" (anchors four_links) []) as [links|] eqn:E;
    [|vm_compute in E; discriminate].
  exists links. split; [reflexivity|].
  split; [vm_compute in E; now injection E as <-|].
  exact (extracted_links_are_internal_and_unvisited
           netloc_ok urljoin Fields example_org "https://example.org"
           four_links links E).
Defined.

(** The requests of a sample crawl passed the same-domain test; and the
    crawl of a page with the link "https:other.example.com/classes", which
    passes it, goes to the other host. *)
Lemma requests_on_the_domain_on_sample :
  (exists r,
     crawl site_home 30 example_org_slash = Some r
     /\ forall v,
          v ∈ requested (log r) ->
          v = "https://example.org/"
          \/ exists full_url p,
               Urllib.urlparse netloc_ok full_url = Some p
               /\ (Urllib.netloc p = domain example_org_slash
                   \/ Urllib.netloc p = "")
               /\ _normalize_url netloc_ok full_url = Some v)
  /\ (_is_same_domain netloc_ok Fields example_org
        "https:other.example.com/classes" = Some true
      /\ _normalize_url netloc_ok "https:other.example.com/classes"
         = Some "https://other.example.com/classes")
  /\ exists r,
       crawl site_other_host 30 example_org = Some r
       /\ crawled_pages (data r)
          = ["https://example.org"; "https://other.example.com/classes"].
Proof.
  destruct (requested_urls_passed_the_same_domain_test
              netloc_ok urljoin Re.findall remove_dups (fetch_from site_home) now
              Fields extract_main_page_data true
              "https://example.org/" 10 2 "" example_org_slash
              ltac:(intros l x; apply elem_of_remove_dups) eq_refl)
    as [Hrequested Hpass].
  split; [|split].
  - destruct (crawl site_home 30 example_org_slash) as [r|] eqn:E;
      [|vm_compute in E; discriminate].
    exists r. split; [reflexivity|]. intros v.
    exact (Hrequested r v (returned_crawl_state _ _ _ _ _ _ E)).
  - exact (Hpass example_org "other.example.com/classes"
             eq_refl eq_refl eq_refl eq_refl eq_refl).
  - destruct (crawl site_other_host 30 example_org) as [r|] eqn:E;
      [|vm_compute in E; discriminate].
    exists r. split; [reflexivity|].
    vm_compute in E. now injection E as <-.
Defined.

(** At ten in the morning of 1 June 2025 a date of 2 June 2025 is
    accepted and is a later day; a date of 1 June 2025 gives nothing. *)
Lemma date_of_the_next_day_on_sample :
  (exists d,
      parse_date_from_context Re.findall (now 0)
        "registration opens june 2, 2025" = Some d
      /\ Datetime.micros d = 0 /\ date_after d (now 0))
  /\ parse_date_from_context Re.findall (now 0)
       "registration opens june 1, 2025" = None.
Proof.
  split; [|reflexivity].
  destruct (parse_date_from_context Re.findall (now 0)
              "registration opens june 2, 2025") as [d|] eqn:E;
    [|vm_compute in E; discriminate].
  exists d. split; [reflexivity|].
  apply (dates_of_the_current_day_are_turned_down Re.findall (now 0)
           "registration opens june 2, 2025" d); [reflexivity|exact E].
Defined.

(** On 1 June 2025 the match "march 15" is read as 15 March 2026. *)
Lemma date_without_year_on_sample :
  exists p,
    parse_match (now 0) ["march"; "15"] = Some p
    /\ Datetime.year p = 2026
    /\ exists test_date,
         Datetime.make (Datetime.year (now 0)) (Datetime.month p) (Datetime.day p)
         = Some test_date
         /\ Datetime.year p
            = (if Datetime.ge test_date (now 0) then Datetime.year (now 0)
               else Datetime.year (now 0) + 1).
Proof.
  destruct (parse_match (now 0) ["march"; "15"]) as [p|] eqn:E;
    [|vm_compute in E; discriminate].
  exists p. split; [reflexivity|].
  split; [vm_compute in E; now injection E as <-|].
  exact (a_date_without_year_is_the_next_occurrence (now 0) "march" "15" p E).
Defined.

(** The registration URL of a sample crawl. *)
Lemma registration_url_on_sample_is_not_empty :
  exists r,
    crawl site_links 30 example_org = Some r
    /\ (forall v, registration_url (data r) = Some v -> Py.truthy v = true)
    /\ url_is_set (registration_url (data r))
       = is_set (registration_url (data r)).
Proof.
  destruct (crawl site_links 30 example_org) as [r|] eqn:E;
    [|vm_compute in E; discriminate].
  exists r. split; [reflexivity|].
  apply (registration_url_is_never_empty
           netloc_ok urljoin Re.findall remove_dups (fetch_from site_links) now
           Fields extract_main_page_data true
           "https://example.org" 10 2 "" example_org r);
    [reflexivity | exact (returned_crawl_state _ _ _ _ _ _ E)].
Defined.

(** A text about martial arts. *)
Lemma martial_arts_on_sample :
  Extract._extract_categories "Martial Arts for kids" = ["art"; "martial-arts"]
  /\ "art" ∈ Extract._extract_categories "Martial Arts for kids"
  /\ (Py.contains "swim" (Py.lower "Martial Arts for kids") = true ->
      Py.contains "chess" (Py.lower "Martial Arts for kids") = true ->
      Extract._extract_categories "Martial Arts for kids"
      = ["swimming"; "art"; "chess"]).
Proof.
  split; [reflexivity|].
  apply (Extract.a_text_about_martial_arts_is_categorised_as_art
           "Martial Arts for kids"). reflexivity.
Defined.

(** The matches of the library on the text
    "Open Monday and Friday 9am-5pm". *)
Definition sample_hours : string := "Open Monday and Friday 9am-5pm".

Definition sample_findall_group (pattern text : string) : list string :=
  if String.eqb pattern "(?:hours?|open)[:\s]+([^\n]{10,80})"
     && String.eqb text sample_hours
  then ["Monday and Friday 9am-5pm"] else [].

Definition sample_findall_groups (pattern text : string) : list (list string) :=
  if String.eqb pattern Extract.time_pattern
     && String.eqb text "monday and friday 9am-5pm"
  then [["9"; ""; "am"; "5"; ""; "pm"]] else [].

Definition sample_search (pattern text : string) : bool :=
  String.eqb text "monday and friday 9am-5pm"
  && (String.eqb pattern "\bmonday\b" || String.eqb pattern "\bfriday\b").

Definition no_hours : Extract.Hours :=
  {| Extract.operating_days := []; Extract.hours_per_day := ∅ |}.

Definition sample_hours_found : option Extract.Hours :=
  Extract._extract_hours_per_day sample_findall_group sample_findall_groups
    sample_search sample_hours no_hours.

(** The hours of the sample text. *)
Lemma same_hours_on_sample :
  exists d',
    sample_hours_found = Some d'
    /\ Extract.operating_days d'
       = ["monday"; "tuesday"; "wednesday"; "thursday"; "friday"]
    /\ Extract.hours_per_day d' !! "tuesday" = Some ("09:00", "17:00")
    /\ (exists more,
           Extract.operating_days d'
           = (Extract.day_ranges (Py.lower "Monday and Friday 9am-5pm")
              ++ more)%list)
    /\ NoDup (Extract.operating_days d')
    /\ Extract.operating_days d' ⊆ Extract.weekdays
    /\ exists open_time close_time,
         forall day,
           Extract.hours_per_day d' !! day
           = if bool_decide (day ∈ Extract.operating_days d')
             then Some (open_time, close_time) else None.
Proof.
  destruct sample_hours_found as [d'|] eqn:E; [|vm_compute in E; discriminate].
  exists d'. split; [reflexivity|].
  split; [vm_compute in E; now injection E as <-|].
  split; [vm_compute in E; now injection E as <-|].
  exact (Extract.every_operating_day_gets_the_same_hours
           sample_findall_group sample_findall_groups sample_search
           sample_hours no_hours d' E).
Defined.

(** "Monday and Friday" gives the five days. *)
Lemma whole_week_on_sample :
  exists d',
    sample_hours_found = Some d'
    /\ exists more,
         Extract.operating_days d'
         = (["monday"; "tuesday"; "wednesday"; "thursday"; "friday"]
            ++ more)%list.
Proof.
  destruct sample_hours_found as [d'|] eqn:E; [|vm_compute in E; discriminate].
  exists d'. split; [reflexivity|].
  apply (Extract.monday_and_friday_give_the_whole_week
           sample_findall_group sample_findall_groups sample_search
           sample_hours no_hours d' "Monday and Friday 9am-5pm");
    [reflexivity|reflexivity|reflexivity|exact E].
Defined.

(** Five in the afternoon. *)
Lemma five_pm_on_sample :
  Extract.to_24_hour "PM" 5 = 17
  /\ 0 <= Extract.to_24_hour "PM" 5 <= 23
  /\ Extract.to_24_hour "PM" 5 mod 12 = 5 mod 12
  /\ (12 <= Extract.to_24_hour "PM" 5 <-> Py.lower "PM" = "pm")
  /\ Extract.to_24_hour "pm" 13 = 25.
Proof.
  split; [reflexivity|].
  apply (Extract.twelve_hour_times_become_twenty_four_hour_times "PM" 5);
    [lia|now right].
Defined.

(** A text with no keyword of either table. *)
Lemma no_category_on_sample :
  Extract._extract_categories "Story time for toddlers" = ["creative"]
  /\ Simple._extract_categories "Story time for toddlers" = ["creative"].
Proof.
  split; [reflexivity|].
  apply (Simple.the_simple_scraper_finds_no_category_the_full_one_misses
           "Story time for toddlers"). reflexivity.
Defined.

(** The provider whose website is "example.org". *)
Definition example_provider : gmap string string :=
  {[ "provider_website" := "example.org" ]}.

Lemma bare_host_name_on_sample :
  Batch.seed_of example_provider = Some ("https://" +:+ "example.org")
  /\ exists self,
       __init__ netloc_ok Fields ("https://" +:+ "example.org") 10 2 ""
       = Some self
       /\ url self = "https://" +:+ "example.org"
       /\ domain self = "example.org"
       /\ base_url self = "https://" +:+ "example.org".
Proof.
  apply (Batch.a_bare_host_name_is_crawled_over_https
           netloc_ok Fields example_provider "example.org" 10 2 "");
    [reflexivity|discriminate|reflexivity|reflexivity|reflexivity|reflexivity].
Defined.

(** The provider whose website is "httpd.example.org". *)
Definition httpd_provider : gmap string string :=
  {[ "provider_website" := "httpd.example.org" ]}.

Lemma host_name_with_http_on_sample :
  Batch.seed_of httpd_provider = Some "httpd.example.org"
  /\ exists self,
       __init__ netloc_ok Fields "httpd.example.org" 10 2 "" = Some self
       /\ url self = "httpd.example.org"
       /\ domain self = ""
       /\ base_url self = "://".
Proof.
  apply (Batch.a_host_name_that_begins_with_http_gets_no_domain
           netloc_ok Fields httpd_provider "httpd.example.org" 10 2 "");
    reflexivity.
Defined.

End Checks.
